(** * SIO2Arduino: the disk image layer ([disk_image.cpp])

    A shallow embedding of [DiskImage] and of the properties its
    specification states about it.

    Conventions of the embedding.
    - [byte], [unsigned int] and [unsigned long] values are integers in [Z]
      reduced modulo 2^8, 2^16 and 2^32 where the source stores or computes
      them ([to_byte], [to_uint], [to_ulong]).  An [int] has 16 bits, as an
      [unsigned int] has; the sums and products the source forms in [int]
      from bytes of the file wrap around in two's complement ([to_int]), and
      an [int] met by an [unsigned long] is converted to it ([to_ulong]).
      Loop counters are the integers they denote.
    - The [SdFile] handle belongs to the SdFat library.  It is modelled by
      its contents, size, position and 8.3 name; [DiskImage] holds a pointer
      to it, so files live in a store indexed by handles.
    - A computation whose behaviour C++ leaves undefined (a store outside
      [m_sectorHeaders], a null or dangling [m_fileRef], a pointer before
      the start of [filename]) has no result: it is [None].
    - The headers [disk_image.h], [atari.h] and [config.h] are missing.
      What they declare is modelled from the specification where it fixes
      it, and is a parameter ([disk_image_h]) where it does not;
      [ATX_IMAGES] is taken as defined. *)

From Stdlib Require Import ZArith Lia Bool List String Ascii.
From stdpp Require Import base option gmap.

Open Scope Z_scope.

(** ** Machine integers *)

Definition to_byte (x : Z) : Z := x mod 256.
Definition to_uint (x : Z) : Z := x mod 65536.
Definition to_ulong (x : Z) : Z := x mod 4294967296.

(** The value of an [int] expression: the 16 low bits, read as a signed
    number. *)
Definition to_int (x : Z) : Z := (x + 32768) mod 65536 - 32768.

(** [~b] on a byte. *)
Definition byte_not (b : Z) : Z := to_byte (Z.lnot b).

(** ** The SdFat file handle *)

Record SdFile := mkSdFile {
  bytes : Z -> Z;          (* contents; meaningful below [len] *)
  len : Z;                 (* number of bytes in the file *)
  curPosition : Z;         (* read/write position *)
  name : string            (* short 8.3 name *)
}.

Definition wf_file (f : SdFile) : Prop := 0 <= curPosition f <= len f.
Definition wf_store (s : gmap nat SdFile) : Prop :=
  forall p f, s !! p = Some f -> wf_file f.

(** Computations on one file that may be undefined. *)
Definition io (A : Type) : Type := SdFile -> option (A * SdFile).

Definition ret {A} (a : A) : io A := fun f => Some (a, f).
Definition undefined {A} : io A := fun _ => None.
Definition bind {A B} (c : io A) (k : A -> io B) : io B :=
  fun f => match c f with Some (a, f') => k a f' | None => None end.

Notation "'let*' x ':=' c 'in' k" := (bind c (fun x => k))
  (at level 10, x name, c at level 100, k at level 200).
Notation "c1 ';;' c2" := (bind c1 (fun _ => c2))
  (at level 100, c2 at level 200, right associativity).

(** A computation that always has a result. *)
Definition total {A} (c : io A) : Prop := forall f, exists a f', c f = Some (a, f').

(** A computation that keeps a property of the file. *)
Definition keeps {A} (P : SdFile -> Prop) (c : io A) : Prop :=
  forall f a f', P f -> c f = Some (a, f') -> P f'.

(** A computation whose results all satisfy [Q]. *)
Definition yields {A} (c : io A) (Q : A -> Prop) : Prop :=
  forall f a f', c f = Some (a, f') -> Q a.

(** [uint32_t fileSize()] *)
Definition fileSize (f : SdFile) : Z := to_ulong (len f).

(** [seekSet(pos)]: fails, leaving the position where it was, when [pos]
    lies beyond the end of the file. *)
Definition seekSet (p : Z) : io bool := fun f =>
  if (0 <=? p) && (p <=? len f)
  then Some (true, mkSdFile (bytes f) (len f) p (name f))
  else Some (false, f).

(** [int16_t read()]: the next byte, or -1 at the end of the file. *)
Definition read : io Z := fun f =>
  if (0 <=? curPosition f) && (curPosition f <? len f)
  then Some (bytes f (curPosition f),
             mkSdFile (bytes f) (len f) (curPosition f + 1) (name f))
  else Some (-1, f).

(** [write(b)]: stores one byte at the position, growing the file when the
    position is its end. *)
Definition write (b : Z) : io Z := fun f =>
  let p := curPosition f in
  Some (1, mkSdFile (fun i => if i =? p then to_byte b else bytes f i)
                    (Z.max (len f) (p + 1)) (p + 1) (name f)).

(** [write(buf, n)] for a buffer given by its [n] bytes. *)
Fixpoint write_buf (buf : list Z) : io Z :=
  match buf with
  | [] => ret 0
  | b :: buf' => write b ;; let* n := write_buf buf' in ret (n + 1)
  end.

Definition getFilename : io string := fun f => Some (name f, f).

(** [n] successive [file->read()] whose values are dropped. *)
Fixpoint skip (n : nat) : io unit :=
  match n with
  | O => ret tt
  | S n' => read ;; skip n'
  end.

(** [for (i = 0; i < n; i++) buf[i] = (byte)file->read();] *)
Fixpoint read_bytes (n : nat) : io (list Z) :=
  match n with
  | O => ret []
  | S n' => let* b := read in let* bs := read_bytes n' in ret (to_byte b :: bs)
  end.

(** ** Declarations of the headers *)

(** Modelled from the spec: the constants [TYPE_ATR], [TYPE_XFD],
    [TYPE_PRO] and [TYPE_ATX] that [m_type] holds are declared in
    [disk_image.h], which is missing.  The specification describes the kind
    as an enumeration of the four formats. *)
Inductive ImageType := TYPE_ATR | TYPE_XFD | TYPE_PRO | TYPE_ATX.

Definition ImageType_eqb (a b : ImageType) : bool :=
  match a, b with
  | TYPE_ATR, TYPE_ATR | TYPE_XFD, TYPE_XFD
  | TYPE_PRO, TYPE_PRO | TYPE_ATX, TYPE_ATX => true
  | _, _ => false
  end.

(** Modelled from the spec: [StatusFrame] is declared in [atari.h], which is
    missing.  The specification describes a frame of a command-status byte,
    a hardware-status byte and a timeout; the source names the fields
    [commandStatus], [hardwareStatus] and [timeout_lsb]. *)
Record StatusFrame := mkStatusFrame {
  commandStatus : Z;
  hardwareStatus : Z;
  timeout_lsb : Z;
  timeout_msb : Z
}.

(** Modelled from the spec: [SectorPacket] is declared in a missing header.
    The specification describes the result of a read as the data, of
    sectorSize bytes, an error flag and an optional status frame; [data]
    is the list of the bytes the call stored, and the capacity of the
    buffer is not modelled. *)
Record SectorPacket := mkSectorPacket {
  length : Z;
  error : bool;
  validStatusFrame : bool;
  statusFrame : StatusFrame;
  data : list Z
}.

(** Modelled from the spec: [ATXSectorHeader], the type of a slot of the
    index, is declared in [disk_image.h], which is missing.  The
    specification describes a slot as a logical sector number, a file
    offset and a status byte; the source names the fields. *)
Record ATXSectorHeader := mkATXSectorHeader {
  sectorNumber : Z;
  sstatus : Z;
  fileIndex : Z
}.

(** Modelled from the spec: [SECTOR_SIZE_SD], [ATR_SIGNATURE] and
    [FORMAT_SS_SD_40] are declared in [disk_image.h], which is missing.  The
    specification gives 128-byte sectors, the signature bytes 0x96 0x02, and
    720 sectors of 128 bytes for single-sided single-density 40-track
    media. *)
Definition SECTOR_SIZE_SD : Z := 128.
Definition ATR_SIGNATURE : Z := 0x0296.
Definition FORMAT_SS_SD_40 : Z := 720 * 128.

(** Modelled from the spec: [ATRHeader] is declared in [disk_image.h], which
    is missing.  The specification describes a 16-byte header of
    little-endian 16-bit fields: signature, size in 16-byte units, sector
    size, and then flags. *)
Definition ATR_signature (header : list Z) : Z :=
  nth 0 header 0 + 256 * nth 1 header 0.
Definition ATR_secSize (header : list Z) : Z :=
  nth 4 header 0 + 256 * nth 5 header 0.

(** The bytes of an [ATRHeader] cleared by [memset] and given a signature,
    [pars] and [secSize]. *)
Definition ATRHeader_bytes (signature pars secSize : Z) : list Z :=
  [to_byte signature; to_byte (to_uint signature / 256);
   to_byte pars; to_byte (to_uint pars / 256);
   to_byte secSize; to_byte (to_uint secSize / 256)]
  ++ repeat 0 10.

(** What the missing headers declare and the specification leaves open:
    the layout of the PRO file header and of the PRO sector header, the
    phantom sector modes, the density code and the remaining media sizes. *)
Class disk_image_h := {
  (* [sizeof(PROSectorHeader)] *)
  sizeof_PROSectorHeader : Z;
  (* offsets of the fields of [PROFileHeader], all of type [byte] *)
  off_sectorCountHi : nat;
  off_sectorCountLo : nat;
  off_magic : nat;
  off_phantomSectorMode : nat;
  off_sectorReadDelay : nat;
  (* values of [phantomSectorMode] *)
  PSM_SIMPLE : Z;
  PSM_MINDSCAPE_SPECIAL : Z;
  PSM_STICKY : Z;
  PSM_SHIMMERING : Z;
  PSM_REVERSE_SHIMMER : Z;
  PSM_GLOBAL_FLIP_FLOP : Z;
  PSM_GLOBAL_FLOP_FLIP : Z;
  (* fields of a [PROSectorHeader] given by its bytes: the status frame it
     starts with, three bits of its hardware status, its phantom links *)
  PRO_statusFrame : list Z -> StatusFrame;
  crcError : list Z -> bool;
  dataLostOrTrack0 : list Z -> bool;
  recordNotFound : list Z -> bool;
  totalPhantoms : list Z -> Z;
  phantom1 : list Z -> Z;
  (* density code and media sizes; an enhanced-density disk holds no less
     than a single-density one *)
  DENSITY_ED : Z;
  FORMAT_SS_ED_35 : Z;
  FORMAT_SS_ED_40 : Z;
  FORMAT_SS_DD_35 : Z;
  FORMAT_SS_DD_40 : Z;
  FORMAT_SS_ED_40_ge : FORMAT_SS_SD_40 <= FORMAT_SS_ED_40
}.

(** One instance, used for the sample files below: the layout of the APE
    PRO format and of the SIO status frame, with the media sizes of the
    1050 and XF551 drives. *)
Definition ape : disk_image_h.
Proof.
  refine {|
    sizeof_PROSectorHeader := 12;
    off_sectorCountHi := 0;
    off_sectorCountLo := 1;
    off_magic := 2;
    off_phantomSectorMode := 4;
    off_sectorReadDelay := 5;
    PSM_SIMPLE := 0;
    PSM_MINDSCAPE_SPECIAL := 1;
    PSM_GLOBAL_FLIP_FLOP := 2;
    PSM_GLOBAL_FLOP_FLIP := 3;
    PSM_STICKY := 5;
    PSM_SHIMMERING := 7;
    PSM_REVERSE_SHIMMER := 8;
    PRO_statusFrame := fun h =>
      mkStatusFrame (nth 0 h 0) (nth 1 h 0) (nth 2 h 0) (nth 3 h 0);
    crcError := fun h => Z.testbit (nth 1 h 0) 3;
    dataLostOrTrack0 := fun h => Z.testbit (nth 1 h 0) 2;
    recordNotFound := fun h => Z.testbit (nth 1 h 0) 4;
    totalPhantoms := fun h => nth 5 h 0;
    phantom1 := fun h => nth 6 h 0;
    DENSITY_ED := 2;
    FORMAT_SS_ED_35 := 35 * 26 * 128;
    FORMAT_SS_ED_40 := 40 * 26 * 128;
    FORMAT_SS_DD_35 := 35 * 18 * 256;
    FORMAT_SS_DD_40 := 40 * 18 * 256
  |}. unfold FORMAT_SS_SD_40. lia.
Defined.

(** ** The [DiskImage] object *)

(** Modelled from the spec: the class is declared in [disk_image.h], which
    is missing.  Its members are the ones the source uses; the
    specification lists them in its data model. *)
Record DiskImage := mkDiskImage {
  m_fileRef : option nat;
  m_fileSize : Z;
  m_type : ImageType;
  m_headerSize : Z;
  m_sectorSize : Z;
  m_readOnly : bool;
  m_sectorReadDelay : Z;
  m_usePhantoms : bool;
  m_phantomFlip : bool;
  m_sectorHeaders : Z -> ATXSectorHeader;    (* [m_sectorHeaders[720]] *)
  m_proSectorHeader : list Z;
  m_sectorBuffer : SectorPacket
}.

Definition set_fileRef v (d : DiskImage) : DiskImage :=
  mkDiskImage v (m_fileSize d) (m_type d) (m_headerSize d) (m_sectorSize d)
    (m_readOnly d) (m_sectorReadDelay d) (m_usePhantoms d) (m_phantomFlip d)
    (m_sectorHeaders d) (m_proSectorHeader d) (m_sectorBuffer d).
Definition set_fileSize v (d : DiskImage) : DiskImage :=
  mkDiskImage (m_fileRef d) v (m_type d) (m_headerSize d) (m_sectorSize d)
    (m_readOnly d) (m_sectorReadDelay d) (m_usePhantoms d) (m_phantomFlip d)
    (m_sectorHeaders d) (m_proSectorHeader d) (m_sectorBuffer d).
Definition set_type v (d : DiskImage) : DiskImage :=
  mkDiskImage (m_fileRef d) (m_fileSize d) v (m_headerSize d) (m_sectorSize d)
    (m_readOnly d) (m_sectorReadDelay d) (m_usePhantoms d) (m_phantomFlip d)
    (m_sectorHeaders d) (m_proSectorHeader d) (m_sectorBuffer d).
Definition set_headerSize v (d : DiskImage) : DiskImage :=
  mkDiskImage (m_fileRef d) (m_fileSize d) (m_type d) v (m_sectorSize d)
    (m_readOnly d) (m_sectorReadDelay d) (m_usePhantoms d) (m_phantomFlip d)
    (m_sectorHeaders d) (m_proSectorHeader d) (m_sectorBuffer d).
Definition set_sectorSize v (d : DiskImage) : DiskImage :=
  mkDiskImage (m_fileRef d) (m_fileSize d) (m_type d) (m_headerSize d) v
    (m_readOnly d) (m_sectorReadDelay d) (m_usePhantoms d) (m_phantomFlip d)
    (m_sectorHeaders d) (m_proSectorHeader d) (m_sectorBuffer d).
Definition set_readOnly v (d : DiskImage) : DiskImage :=
  mkDiskImage (m_fileRef d) (m_fileSize d) (m_type d) (m_headerSize d)
    (m_sectorSize d) v (m_sectorReadDelay d) (m_usePhantoms d)
    (m_phantomFlip d) (m_sectorHeaders d) (m_proSectorHeader d)
    (m_sectorBuffer d).
Definition set_sectorReadDelay v (d : DiskImage) : DiskImage :=
  mkDiskImage (m_fileRef d) (m_fileSize d) (m_type d) (m_headerSize d)
    (m_sectorSize d) (m_readOnly d) v (m_usePhantoms d) (m_phantomFlip d)
    (m_sectorHeaders d) (m_proSectorHeader d) (m_sectorBuffer d).
Definition set_usePhantoms v (d : DiskImage) : DiskImage :=
  mkDiskImage (m_fileRef d) (m_fileSize d) (m_type d) (m_headerSize d)
    (m_sectorSize d) (m_readOnly d) (m_sectorReadDelay d) v (m_phantomFlip d)
    (m_sectorHeaders d) (m_proSectorHeader d) (m_sectorBuffer d).
Definition set_phantomFlip v (d : DiskImage) : DiskImage :=
  mkDiskImage (m_fileRef d) (m_fileSize d) (m_type d) (m_headerSize d)
    (m_sectorSize d) (m_readOnly d) (m_sectorReadDelay d) (m_usePhantoms d) v
    (m_sectorHeaders d) (m_proSectorHeader d) (m_sectorBuffer d).
Definition set_sectorHeaders v (d : DiskImage) : DiskImage :=
  mkDiskImage (m_fileRef d) (m_fileSize d) (m_type d) (m_headerSize d)
    (m_sectorSize d) (m_readOnly d) (m_sectorReadDelay d) (m_usePhantoms d)
    (m_phantomFlip d) v (m_proSectorHeader d) (m_sectorBuffer d).
Definition set_proSectorHeader v (d : DiskImage) : DiskImage :=
  mkDiskImage (m_fileRef d) (m_fileSize d) (m_type d) (m_headerSize d)
    (m_sectorSize d) (m_readOnly d) (m_sectorReadDelay d) (m_usePhantoms d)
    (m_phantomFlip d) (m_sectorHeaders d) v (m_sectorBuffer d).
Definition set_sectorBuffer v (d : DiskImage) : DiskImage :=
  mkDiskImage (m_fileRef d) (m_fileSize d) (m_type d) (m_headerSize d)
    (m_sectorSize d) (m_readOnly d) (m_sectorReadDelay d) (m_usePhantoms d)
    (m_phantomFlip d) (m_sectorHeaders d) (m_proSectorHeader d) v.

(** Assignments to the fields of one slot of [m_sectorHeaders]. *)
Definition set_slot (i : Z) (h : ATXSectorHeader)
    (t : Z -> ATXSectorHeader) : Z -> ATXSectorHeader :=
  fun j => if j =? i then h else t j.

Definition set_sectorNumber v (h : ATXSectorHeader) :=
  mkATXSectorHeader v (sstatus h) (fileIndex h).

(** Assignments to the fields of [m_sectorBuffer]. *)
Definition set_length v (p : SectorPacket) :=
  mkSectorPacket v (error p) (validStatusFrame p) (statusFrame p) (data p).
Definition set_error v (p : SectorPacket) :=
  mkSectorPacket (length p) v (validStatusFrame p) (statusFrame p) (data p).
Definition set_validStatusFrame v (p : SectorPacket) :=
  mkSectorPacket (length p) (error p) v (statusFrame p) (data p).
Definition set_statusFrame v (p : SectorPacket) :=
  mkSectorPacket (length p) (error p) (validStatusFrame p) v (data p).
Definition set_data v (p : SectorPacket) :=
  mkSectorPacket (length p) (error p) (validStatusFrame p) (statusFrame p) v.

(** The three stores of the ATX branch into the status frame; [timeout_msb]
    is not written. *)
Definition set_status (hw : Z) (s : StatusFrame) : StatusFrame :=
  mkStatusFrame 0x10 hw 0xE0 (timeout_msb s).

(** ** The operations of [DiskImage] *)

Section DiskImage.
Context {H : disk_image_h}.

(** Fields of the [PROFileHeader] laid over the 16 bytes of [header]. *)
Definition sectorCountHi (header : list Z) : Z := nth off_sectorCountHi header 0.
Definition sectorCountLo (header : list Z) : Z := nth off_sectorCountLo header 0.
Definition magic (header : list Z) : Z := nth off_magic header 0.
Definition phantomSectorMode (header : list Z) : Z :=
  nth off_phantomSectorMode header 0.
Definition sectorReadDelay (header : list Z) : Z :=
  nth off_sectorReadDelay header 0.

(** [x = file->read(); x += file->read() * 256; x += file->read() * 512;
    x += file->read() * 768;] with [x] an [unsigned long]: each product is
    formed in [int], and converted to [unsigned long] when it is added. *)
Definition read_long : io Z :=
  let* b0 := read in
  let x := to_ulong b0 in
  let* b1 := read in
  let x := to_ulong (x + to_ulong (to_int (b1 * 256))) in
  let* b2 := read in
  let x := to_ulong (x + to_ulong (to_int (b2 * 512))) in
  let* b3 := read in
  let x := to_ulong (x + to_ulong (to_int (b3 * 768))) in
  ret x.

(** [fileIndex = file->read() + file->read() * 256 + file->read() * 512
    + file->read() * 768;]: the sum is one expression of type [int], read
    from left to right, and is converted to [unsigned long] when it is
    stored. *)
Definition read_header_size : io Z :=
  let* b0 := read in
  let* b1 := read in
  let* b2 := read in
  let* b3 := read in
  ret (to_ulong
         (to_int (to_int (to_int (b0 + to_int (b1 * 256)) + to_int (b2 * 512))
                  + to_int (b3 * 768)))).

(** [for (int i = 0; i < 720; i++) m_sectorHeaders[i].sectorNumber = 60000;] *)
Definition clear_sectorHeaders (t : Z -> ATXSectorHeader) : Z -> ATXSectorHeader :=
  fun j => if (0 <=? j) && (j <? 720) then set_sectorNumber 60000 (t j) else t j.

(** The loop over the sectors of one track: [n] passes are left, [i2] is the
    loop counter.  [sectorNumber] is an [unsigned int]; a store outside
    the 720 slots of [m_sectorHeaders] is undefined, and the index
    [trackNumber * 18 + i2] leaves these slots before it leaves the range
    of [int]. *)
Fixpoint read_sectors (n : nat) (i2 : Z) (trackNumber fileIndex : Z)
    (t : Z -> ATXSectorHeader) : io (Z -> ATXSectorHeader) :=
  match n with
  | O => ret t
  | S n' =>
      let* sectorNum := read in
      let sectorNum := to_byte sectorNum in
      let* sectorStatus := read in
      let sectorStatus := to_byte sectorStatus in
      (* skip sector position *)
      skip 2 ;;
      (* read start data pos *)
      let* l2 := read_long in
      let slot := trackNumber * 18 + i2 in
      if (0 <=? slot) && (slot <? 720) then
        read_sectors n' (i2 + 1) trackNumber fileIndex
          (set_slot slot
             (mkATXSectorHeader
                (to_uint (trackNumber * 18 + (sectorNum - 1)))
                sectorStatus
                (to_ulong (fileIndex + l2)))
             t)
      else undefined
  end.

(** The loop over the 40 track records: [n] passes are left.
    [sectorCount] is an [int]; when it is negative the loop over the
    sectors makes no pass. *)
Fixpoint read_tracks (n : nat) (fileIndex : Z) (t : Z -> ATXSectorHeader)
    : io (Z -> ATXSectorHeader) :=
  match n with
  | O => ret t
  | S n' =>
      (* read track header *)
      let* trackRecordSize := read_long in
      skip 4 ;;
      let* trackNumber := read in
      let trackNumber := to_byte trackNumber in
      skip 1 ;;
      let* c0 := read in
      let* c1 := read in
      let sectorCount := to_int (c0 + to_int (c1 * 256)) in
      skip 8 ;;
      let* l2 := read_long in
      (* seek to beginning of sector list *)
      seekSet (to_ulong (fileIndex + l2)) ;;
      (* skip sector list header *)
      skip 8 ;;
      (* read each sector *)
      let* t' := read_sectors (Z.to_nat sectorCount) 0 trackNumber fileIndex t in
      (* move to next track record *)
      let fileIndex' := to_ulong (fileIndex + trackRecordSize) in
      seekSet fileIndex' ;;
      read_tracks n' fileIndex' t'
  end.

(** The tests of [loadFile], on the 16 bytes read from the file.  In the
    PRO test [sectorCountHi * 256 + sectorCountLo] is formed in [int] and
    converted to [unsigned long] for the comparison. *)
Definition is_ATR (header : list Z) : bool :=
  ATR_signature header =? ATR_SIGNATURE.

Definition is_PRO (header : list Z) (m_fileSize : Z) : bool :=
  (to_ulong (to_int (to_int (sectorCountHi header * 256) + sectorCountLo header))
     =? to_ulong (m_fileSize - 16) / (SECTOR_SIZE_SD + sizeof_PROSectorHeader))
  && (magic header =? 80 (* 'P' *)).

Definition is_ATX (header : list Z) : bool :=
  (nth 0 header 0 =? 65) && (nth 1 header 0 =? 84)
  && (nth 2 header 0 =? 56) && (nth 3 header 0 =? 88).   (* "AT8X" *)

(** The [switch] on [phantomSectorMode]; a mode outside the seven cases
    assigns nothing. *)
Definition set_phantom_mode (mode : Z) (d : DiskImage) : DiskImage :=
  if (mode =? PSM_SIMPLE) || (mode =? PSM_MINDSCAPE_SPECIAL)
     || (mode =? PSM_STICKY) || (mode =? PSM_SHIMMERING)
     || (mode =? PSM_REVERSE_SHIMMER)
  then set_usePhantoms false d
  else if mode =? PSM_GLOBAL_FLIP_FLOP
  then set_phantomFlip false (set_usePhantoms true d)
  else if mode =? PSM_GLOBAL_FLOP_FLIP
  then set_phantomFlip true (set_usePhantoms true d)
  else d.

(** [char *extension = filename + len - 4;] for a name of four characters
    or more. *)
Definition extension_of (filename : string) : string :=
  substring (String.length filename - 4) 4 filename.

Definition loadFile (d : DiskImage) : io (bool * DiskImage) :=
  (* make sure we're at the beginning of file *)
  seekSet 0 ;;
  (* read first 16 bytes of file & rewind again *)
  let* header := read_bytes 16 in
  seekSet 0 ;;
  (* check if it's an ATR *)
  if is_ATR header then
    ret (true,
         set_sectorReadDelay 0
           (set_sectorSize (ATR_secSize header)
              (set_readOnly false
                 (set_headerSize 16
                    (set_type TYPE_ATR d)))))
  (* check if it's an APE PRO image *)
  else if is_PRO header (m_fileSize d) then
    ret (true,
         set_phantom_mode (phantomSectorMode header)
           (set_sectorReadDelay (sectorReadDelay header * (1000 / 60))
              (set_sectorSize SECTOR_SIZE_SD
                 (set_headerSize 16
                    (set_readOnly true
                       (set_type TYPE_PRO d))))))
  (* check if it's an ATX *)
  else if is_ATX header then
    let d := set_phantomFlip false
               (set_sectorSize 128
                  (set_sectorReadDelay 0
                     (set_readOnly true
                        (set_type TYPE_ATX d)))) in
    (* start with all sector numbers impossibly high (for a floppy disk) *)
    let t := clear_sectorHeaders (m_sectorHeaders d) in
    (* read header size *)
    seekSet 28 ;;
    let* fileIndex := read_header_size in
    (* skip to first track record *)
    seekSet fileIndex ;;
    let* t' := read_tracks 40 fileIndex t in
    ret (true, set_sectorHeaders t' d)
  else
    (* check if it's an XFD *)
    let* filename := getFilename in
    let len := Z.of_nat (String.length filename) in
    if len <? 4 then undefined
    else
      let extension := extension_of filename in
      if (String.eqb ".XFD" extension || String.eqb ".xfd" extension)
         && (m_fileSize d =? FORMAT_SS_SD_40)
      then
        ret (true,
             set_sectorReadDelay 0
               (set_sectorSize SECTOR_SIZE_SD
                  (set_headerSize 0
                     (set_readOnly false
                        (set_type TYPE_XFD d)))))
      else ret (false, d).

(** What [loadFile] reads before it decides: the 16 bytes of [header], and
    the file as the second rewind leaves it. *)
Definition probe : io (list Z) :=
  seekSet 0 ;; let* header := read_bytes 16 in seekSet 0 ;; ret header.

Definition file_header (f : SdFile) : list Z :=
  match probe f with Some (header, _) => header | None => [] end.

Definition rewound (f : SdFile) : SdFile :=
  match probe f with Some (_, f') => f' | None => f end.

(** The test for an XFD, on a name of four characters or more. *)
Definition is_XFD (filename : string) (m_fileSize : Z) : bool :=
  (String.eqb ".XFD" (extension_of filename)
   || String.eqb ".xfd" (extension_of filename))
  && (m_fileSize =? FORMAT_SS_SD_40).

(** Lower case, for the comparison of extensions without regard to case. *)
Definition lower_ascii (c : ascii) : ascii :=
  let n := nat_of_ascii c in
  if (65 <=? n)%nat && (n <=? 90)%nat then ascii_of_nat (n + 32) else c.

Fixpoint lower (s : string) : string :=
  match s with
  | EmptyString => EmptyString
  | String c s' => String (lower_ascii c) (lower s')
  end.

(** A computation on the file behind the handle [p]. *)
Definition on_file {A} (p : nat) (c : io A) (s : gmap nat SdFile)
    : option (A * gmap nat SdFile) :=
  match s !! p with
  | Some f =>
      match c f with
      | Some (a, f') => Some (a, <[p := f']> s)
      | None => None
      end
  | None => None
  end.

Definition setFile (file : nat) (d : DiskImage) (s : gmap nat SdFile)
    : option (bool * DiskImage * gmap nat SdFile) :=
  on_file file
    (fun f =>
       let d := set_fileSize (fileSize f) (set_fileRef (Some file) d) in
       (* if image is valid... *)
       (let* r := loadFile d in
        if fst r then ret (true, snd r)
        else ret (false, set_fileRef None (snd r))) f)
    s.

Definition getType (d : DiskImage) : ImageType := m_type d.
Definition getSectorSize (d : DiskImage) : Z := m_sectorSize d.
Definition hasImage (d : DiskImage) : bool :=
  match m_fileRef d with Some _ => true | None => false end.
Definition hasCopyProtection (d : DiskImage) : bool :=
  ImageType_eqb (m_type d) TYPE_PRO || ImageType_eqb (m_type d) TYPE_ATX.
Definition isEnhancedDensity (d : DiskImage) : bool :=
  (m_fileSize d =? to_ulong (FORMAT_SS_ED_35 + m_headerSize d))
  || (m_fileSize d =? to_ulong (FORMAT_SS_ED_40 + m_headerSize d)).
Definition isDoubleDensity (d : DiskImage) : bool :=
  (m_fileSize d =? to_ulong (FORMAT_SS_DD_35 + m_headerSize d))
  || (m_fileSize d =? to_ulong (FORMAT_SS_DD_40 + m_headerSize d)).
Definition isReadOnly (d : DiskImage) : bool := m_readOnly d.

(** The search of [getSectorData] through [m_sectorHeaders]: [n] slots are
    left from slot [i] on, [ix] is the match kept so far.  The loop leaves
    at a match unless [m_phantomFlip] is set. *)
Fixpoint find_slot (t : Z -> ATXSectorHeader) (key : Z) (flip : bool)
    (n : nat) (i ix : Z) : Z :=
  match n with
  | O => ix
  | S n' =>
      if sectorNumber (t i) =? key then
        if negb flip then i else find_slot t key flip n' (i + 1) i
      else find_slot t key flip n' (i + 1) ix
  end.

(** Read data from drive image.  The result of the source is the address of
    [m_sectorBuffer]; here it is that field of the object returned.  The
    pause of [delay] leaves no trace in the object or in the file. *)
Definition getSectorData (sector : Z) (d : DiskImage) (s : gmap nat SdFile)
    : option (DiskImage * gmap nat SdFile) :=
  match m_fileRef d with
  | None => None
  | Some p =>
    on_file p
      (let b := set_validStatusFrame false
                  (set_error false
                     (set_length (m_sectorSize d) (m_sectorBuffer d))) in
       let d := set_sectorBuffer b d in
       (* seek to proper offset in file *)
       let* d :=
         match m_type d with
         | TYPE_PRO =>
             seekSet (to_ulong (m_headerSize d
                        + (sector - 1) * (m_sectorSize d + sizeof_PROSectorHeader))) ;;
             (* then we read the sector header *)
             let* h := read_bytes (Z.to_nat sizeof_PROSectorHeader) in
             let d := set_proSectorHeader h d in
             let b := set_validStatusFrame true
                        (set_statusFrame (PRO_statusFrame h) (m_sectorBuffer d)) in
             let* b :=
               if negb (crcError h) || negb (dataLostOrTrack0 h)
                  || negb (recordNotFound h)
               then ret (set_error true b)
               else if m_usePhantoms d && (0 <? totalPhantoms h) && m_phantomFlip d
               then
                 seekSet (to_ulong (m_headerSize d
                            + ((720 + phantom1 h) - 1)
                              * (m_sectorSize d + sizeof_PROSectorHeader)
                            + sizeof_PROSectorHeader)) ;;
                 ret b
               else ret b in
             ret (set_phantomFlip (negb (m_phantomFlip d)) (set_sectorBuffer b d))
         | TYPE_ATX =>
             let t := m_sectorHeaders d in
             let ix := find_slot t (to_ulong (sector - 1)) (m_phantomFlip d)
                         720 0 (-1) in
             let b := set_validStatusFrame true (m_sectorBuffer d) in
             let* b :=
               if -1 <? ix then
                 seekSet (fileIndex (t ix)) ;;
                 let b := if 0 <? sstatus (t ix) then set_error true b else b in
                 (* hardware status bits are active low, so bit flip *)
                 ret (set_statusFrame
                        (set_status (byte_not (sstatus (t ix))) (statusFrame b)) b)
               else
                 seekSet 0 ;;
                 let b := set_error true b in
                 (* set the missing sector data bit (active low) *)
                 ret (set_statusFrame (set_status 0xF7 (statusFrame b)) b) in
             ret (set_phantomFlip (negb (m_phantomFlip d)) (set_sectorBuffer b d))
         | _ =>
             (* ATR or XFD: seek based on the sector number *)
             seekSet (to_ulong (m_headerSize d + (sector - 1) * m_sectorSize d)) ;;
             ret d
         end in
       (* read sector data into buffer *)
       let* bs := read_bytes (Z.to_nat (m_sectorSize d)) in
       ret (set_sectorBuffer (set_data bs (m_sectorBuffer d)) d))
      s
  end.

(** Write data to drive image: the number of bytes written.  [data] holds
    the bytes at the pointer passed in. *)
Definition writeSectorData (sector : Z) (data : list Z) (len : Z)
    (d : DiskImage) (s : gmap nat SdFile) : option (Z * gmap nat SdFile) :=
  if negb (m_readOnly d) then
    match m_fileRef d with
    | None => None
    | Some p =>
      if len <=? Z.of_nat (List.length data) then
        on_file p
          (let offset := to_ulong (m_headerSize d + (sector - 1) * m_sectorSize d) in
           seekSet offset ;;
           write_buf (firstn (Z.to_nat len) data))
          s
      else None
    end
  else Some (0, s).

(** [for (unsigned long i = 0; i < length; i++) file->write((byte)0);] *)
Fixpoint write_zeros (n : nat) : io unit :=
  match n with
  | O => ret tt
  | S n' => write 0 ;; write_zeros n'
  end.

(** Format drive image. *)
Definition format (file : nat) (density : Z) (d : DiskImage)
    (s : gmap nat SdFile) : option (bool * gmap nat SdFile) :=
  if negb (m_readOnly d) then
    on_file file
      ((* determine file length *)
       let length := if density =? DENSITY_ED then FORMAT_SS_ED_40
                     else FORMAT_SS_SD_40 in
       (* make sure we're at beginning of file *)
       seekSet 0 ;;
       (* if disk is an ATR, write the header *)
       (if ImageType_eqb (m_type d) TYPE_ATR
        then write_buf (ATRHeader_bytes ATR_SIGNATURE (length / 16) SECTOR_SIZE_SD) ;;
             ret tt
        else ret tt) ;;
       (* create empty byte buffer *)
       write_zeros (Z.to_nat length) ;;
       ret true)
      s
  else Some (false, s).

(** ** Images

    An object starts with no file, its other fields holding whatever the
    memory held, and then goes through the public operations.  [image d s]
    says that [d] can be met this way together with the files [s]. *)
Inductive image : DiskImage -> gmap nat SdFile -> Prop :=
  | image_new d s :
      m_fileRef d = None ->
      wf_store s ->
      image d s
  | image_setFile d s file ok d' s' :
      image d s ->
      setFile file d s = Some (ok, d', s') ->
      image d' s'
  | image_getSectorData d s sector d' s' :
      image d s ->
      getSectorData sector d s = Some (d', s') ->
      image d' s'
  | image_writeSectorData d s sector data len n s' :
      image d s ->
      writeSectorData sector data len d s = Some (n, s') ->
      image d s'
  | image_format d s file density ok s' :
      image d s ->
      format file density d s = Some (ok, s') ->
      image d s'.

End DiskImage.

(** ** Auxiliary notions *)

(** What [getSectorData] leaves of the object [d] in [d']: the fields it
    never assigns to, the phantom flip, and the length of the packet. *)
Definition read_frame {H : disk_image_h} (d d' : DiskImage) : Prop :=
  m_fileRef d' = m_fileRef d
  /\ m_fileSize d' = m_fileSize d
  /\ m_type d' = m_type d
  /\ m_headerSize d' = m_headerSize d
  /\ m_sectorSize d' = m_sectorSize d
  /\ m_readOnly d' = m_readOnly d
  /\ m_phantomFlip d' =
       (if hasCopyProtection d then negb (m_phantomFlip d) else m_phantomFlip d)
  /\ length (m_sectorBuffer d') = m_sectorSize d.

(** The index that the ATX branch of [loadFile] builds, lines 262 to 336,
    from the index [t] the object holds: the slots cleared, the offset of
    the first track record read at byte 28, and the 40 track records
    read. *)
Definition ATX_index (t : Z -> ATXSectorHeader) : io (Z -> ATXSectorHeader) :=
  seekSet 28 ;;
  let* fileIndex := read_header_size in
  seekSet fileIndex ;;
  read_tracks 40 fileIndex (clear_sectorHeaders t).

(** ** Sample objects and files *)

(** An object as its constructor leaves it: [m_fileRef] is null and the
    other fields hold what the storage held, here zeroes and, for the
    kind, [TYPE_ATR]. *)
Definition fresh : DiskImage :=
  mkDiskImage None 0 TYPE_ATR 0 0 false 0 false false
    (fun _ => mkATXSectorHeader 0 0 0) []
    (mkSectorPacket 0 false false (mkStatusFrame 0 0 0 0) []).

(** A file of [size] bytes that starts with [prefix] and goes on with
    zeroes, its position at the start. *)
Definition file_of (prefix : list Z) (size : Z) (name : string) : SdFile :=
  mkSdFile (fun i => if i <? 0 then 0 else nth (Z.to_nat i) prefix 0) size 0 name.

(** A plain single-density ATR image: signature, 5760 paragraphs,
    128-byte sectors. *)
Definition atr_file : SdFile :=
  file_of [0x96; 0x02; 0x80; 0x16; 0x80; 0x00] (16 + 720 * 128) "DOS.ATR".

(** A PRO image of 720 sectors in the global flip-flop mode. *)
Definition pro_file : SdFile :=
  file_of [2; 208; 80; 0; 2; 0] (16 + 720 * 140) "GAME.PRO".

(** A file that opens with the ATR signature and whose size makes the PRO
    test hold as well: 0x9602 sectors of 140 bytes, and 'P'. *)
Definition atr_pro_file : SdFile :=
  file_of [0x96; 0x02; 80] (16 + 38402 * 140) "BOTH.ATR".

(** A file that passes the cross-check of the PRO format with a sector
    count of 0x8000, whose high byte is 0x80. *)
Definition pro_big_file : SdFile :=
  file_of [0x80; 0x00; 80] (16 + 32768 * 140) "BIG.PRO".

(** A raw dump of a single-density disk. *)
Definition xfd_file : SdFile := file_of [] (720 * 128) "GAME.XFD".

(** A raw dump of the right size whose extension is in mixed case. *)
Definition xfd_mixed_file : SdFile := file_of [] (720 * 128) "GAME.Xfd".

(** A raw dump of a file no test accepts, of the size of an
    enhanced-density disk. *)
Definition unknown_file : SdFile := file_of [] (40 * 26 * 128) "DISK.IMG".

(** An ATX image whose directory starts at byte 32 and holds 40 track
    records of 40 bytes: a 24-byte header, an 8-byte list header and one
    sector entry.  Track [t] has the number [t] and one good sector, number
    1, whose start offset is stored as the bytes 00 00 01 00. *)
Definition atx_bytes (i : Z) : Z :=
  if i <? 32 then nth (Z.to_nat i) [65; 84; 56; 88] 0 + (if i =? 28 then 32 else 0)
  else
    let r := (i - 32) mod 40 in
    let t := (i - 32) / 40 in
    if 40 <=? t then 0
    else if r =? 0 then 40          (* record length *)
    else if r =? 8 then t           (* track number *)
    else if r =? 10 then 1          (* sector count *)
    else if r =? 20 then 24         (* start of the sector list *)
    else if r =? 32 then 1          (* sector number *)
    else if r =? 38 then 1          (* start offset, third byte *)
    else 0.

Definition atx_file : SdFile :=
  mkSdFile atx_bytes (32 + 40 * 40 + 65536 + 128) 0 "GAME.ATX".

(** An ATX image whose 40 track records hold no sector at all: the
    directory at byte 32 is all zeroes, so each record has length 0 and
    is read again as the next one. *)
Definition atx_empty_file : SdFile :=
  mkSdFile (fun i => if i <? 32
                     then nth (Z.to_nat i) [65; 84; 56; 88] 0
                          + (if i =? 28 then 32 else 0)
                     else 0)
           (40 * 26 * 128 + 16) 0 "EMPTY.ATX".

(** Attaching the file [f], held under the handle 0, with the layout
    [ape]; [attached] is the object and [store_after] the files this
    leaves. *)
Definition attach (f : SdFile) (d : DiskImage)
    : option (bool * DiskImage * gmap nat SdFile) :=
  setFile (H := ape) 0 d {[ 0%nat := f ]}.

Definition attached (f : SdFile) (d : DiskImage) : DiskImage :=
  match attach f d with Some (_, d', _) => d' | None => d end.

Definition store_after (f : SdFile) (d : DiskImage) : gmap nat SdFile :=
  match attach f d with Some (_, _, s') => s' | None => ∅ end.

(** The sector buffer after [getSectorData sector]. *)
Definition sector_read (sector : Z) (d : DiskImage) (s : gmap nat SdFile)
    : option SectorPacket :=
  match getSectorData (H := ape) sector d s with
  | Some (d', _) => Some (m_sectorBuffer d')
  | None => None
  end.

(** What holds of every image: the files are well formed; when the object
    holds a file, the file is in the store, an ATR image has a 16-byte
    header, is writable and has a sector size that fits 16 bits, and a
    copy-protected image is read-only. *)
Definition image_inv {H : disk_image_h} (d : DiskImage) (s : gmap nat SdFile)
    : Prop :=
  wf_store s
  /\ forall p, m_fileRef d = Some p ->
       (exists f, s !! p = Some f)
       /\ (m_type d = TYPE_ATR ->
           m_headerSize d = 16 /\ m_readOnly d = false
           /\ 0 <= m_sectorSize d < 65536)
       /\ (hasCopyProtection d = true -> m_readOnly d = true).

(** The value of four bytes read as a little-endian integer, in the words
    of the specification. *)
Definition little_endian (b0 b1 b2 b3 : Z) : Z :=
  b0 + b1 * 2 ^ 8 + b2 * 2 ^ 16 + b3 * 2 ^ 24.

(** The objects and stores the sample files give. *)
Definition pro_image : DiskImage := attached pro_file fresh.
Definition pro_store : gmap nat SdFile := store_after pro_file fresh.
Definition atr_image : DiskImage := attached atr_file fresh.
Definition atr_store : gmap nat SdFile := store_after atr_file fresh.
Definition atx_image : DiskImage := attached atx_file fresh.
Definition atx_store : gmap nat SdFile := store_after atx_file fresh.

(** The empty ATX image attached to the object that held [atx_file]. *)
Definition atx_empty_image : DiskImage := attached atx_empty_file atx_image.
Definition atx_empty_store : gmap nat SdFile :=
  store_after atx_empty_file atx_image.

(** ** Notions for the further properties *)

(** The byte that a read at offset [i] of [f] stores in a buffer: the byte
    of the file, or 0xFF, the low byte of -1, past its end. *)
Definition byte_at (f : SdFile) (i : Z) : Z :=
  if i <? len f then to_byte (bytes f i) else 255.

(** The [n] bytes that successive reads store from offset [off] on. *)
Fixpoint window (f : SdFile) (off : Z) (n : nat) : list Z :=
  match n with
  | O => []
  | S n' => byte_at f off :: window f (off + 1) n'
  end.

(** The position that [seekSet(p)] leaves. *)
Definition seek_to (p : Z) (f : SdFile) : Z :=
  if (0 <=? p) && (p <=? len f) then p else curPosition f.

(** Two states of a file that differ in the position at most. *)
Definition same_data (f f' : SdFile) : Prop :=
  bytes f' = bytes f /\ len f' = len f /\ name f' = name f.

(** The number of zero bytes [format] writes. *)
Definition format_length {H : disk_image_h} (density : Z) : Z :=
  if density =? DENSITY_ED then FORMAT_SS_ED_40 else FORMAT_SS_SD_40.

(** The offsets [getSectorData] and [writeSectorData] compute. *)
Definition plain_offset (d : DiskImage) (sector : Z) : Z :=
  to_ulong (m_headerSize d + (sector - 1) * m_sectorSize d).

Definition pro_offset {H : disk_image_h} (d : DiskImage) (sector : Z) : Z :=
  to_ulong (m_headerSize d
            + (sector - 1) * (m_sectorSize d + sizeof_PROSectorHeader)).

Definition phantom_offset {H : disk_image_h} (d : DiskImage) (h : list Z) : Z :=
  to_ulong (m_headerSize d
            + ((720 + phantom1 h) - 1) * (m_sectorSize d + sizeof_PROSectorHeader)
            + sizeof_PROSectorHeader).

(** The file as the second rewind of [loadFile] leaves it when its length
    is not negative. *)
Definition at_start (f : SdFile) : SdFile :=
  mkSdFile (bytes f) (len f) 0 (name f).

(** The seven values of [phantomSectorMode] that [loadFile] tells apart are
    distinct, as the labels of a [switch] are. *)
Definition PSM_distinct {H : disk_image_h} : Prop :=
  NoDup [PSM_SIMPLE; PSM_MINDSCAPE_SPECIAL; PSM_STICKY; PSM_SHIMMERING;
         PSM_REVERSE_SHIMMER; PSM_GLOBAL_FLIP_FLOP; PSM_GLOBAL_FLOP_FLIP].

(** The five fields of [PROFileHeader] that [loadFile] reads lie within
    the 16 bytes of [header]. *)
Definition PROFileHeader_fits {H : disk_image_h} : Prop :=
  (off_sectorCountHi < 16)%nat /\ (off_sectorCountLo < 16)%nat
  /\ (off_magic < 16)%nat /\ (off_phantomSectorMode < 16)%nat
  /\ (off_sectorReadDelay < 16)%nat.

(** The fields of the PRO header of a file, by its bytes. *)
Definition PRO_count {H : disk_image_h} (f : SdFile) : Z :=
  byte_at f (Z.of_nat off_sectorCountHi) * 256
  + byte_at f (Z.of_nat off_sectorCountLo).
Definition PRO_mode {H : disk_image_h} (f : SdFile) : Z :=
  byte_at f (Z.of_nat off_phantomSectorMode).

(** The modes for which [loadFile] turns phantoms off. *)
Definition PSM_plain {H : disk_image_h} (mode : Z) : Prop :=
  mode = PSM_SIMPLE \/ mode = PSM_MINDSCAPE_SPECIAL \/ mode = PSM_STICKY
  \/ mode = PSM_SHIMMERING \/ mode = PSM_REVERSE_SHIMMER.

(** What holds of the geometry of every image that holds a file. *)
Definition image_geometry_inv {H : disk_image_h} (d : DiskImage) : Prop :=
  m_readOnly d = hasCopyProtection d
  /\ (m_type d <> TYPE_ATR -> m_sectorSize d = 128)
  /\ (m_type d = TYPE_XFD ->
      m_headerSize d = 0 /\ m_fileSize d = FORMAT_SS_SD_40)
  /\ (m_type d = TYPE_PRO ->
      m_headerSize d = 16 /\ 0 <= m_sectorReadDelay d <= 16 * 255)
  /\ (m_type d <> TYPE_PRO -> m_sectorReadDelay d = 0)
  /\ 0 <= m_fileSize d < 4294967296.

(** The number of bytes [format] writes before the zeroes: the ATR header
    on an ATR image, nothing on any other. *)
Definition format_header {H : disk_image_h} (d : DiskImage) (density : Z)
    : list Z :=
  if ImageType_eqb (m_type d) TYPE_ATR
  then ATRHeader_bytes ATR_SIGNATURE (format_length density / 16) SECTOR_SIZE_SD
  else [].

(** ** Further sample files and objects *)

(** A PRO image of 724 sectors in the global flip-flop mode.  The header of
    its sector 1 reports no error (hardware status 0xFF) and links one
    phantom, whose number is 1: the copy in slot 721. *)
Definition pro_phantom_file : SdFile :=
  file_of ([2; 212; 80; 0; 2; 0] ++ repeat 0 10 ++ [0; 0xFF; 0; 0; 0; 1; 1])
          (16 + 724 * 140) "COPY.PRO".

Definition pro_phantom_image : DiskImage := attached pro_phantom_file fresh.

(** An ATX image whose 40 track records of 48 bytes hold two sector
    entries each, both for sector 1 of the track: the first good, its
    start offset stored as 00 00 01 00, the second with status 8 and the
    start offset 200. *)
Definition atx_dup_bytes (i : Z) : Z :=
  if i <? 32 then nth (Z.to_nat i) [65; 84; 56; 88] 0 + (if i =? 28 then 32 else 0)
  else
    let r := (i - 32) mod 48 in
    let t := (i - 32) / 48 in
    if 40 <=? t then 0
    else if r =? 0 then 48          (* record length *)
    else if r =? 8 then t           (* track number *)
    else if r =? 10 then 2          (* sector count *)
    else if r =? 20 then 24         (* start of the sector list *)
    else if r =? 32 then 1          (* sector number *)
    else if r =? 38 then 1          (* start offset, third byte *)
    else if r =? 40 then 1          (* sector number, a second time *)
    else if r =? 41 then 8          (* its status *)
    else if r =? 44 then 200        (* its start offset, first byte *)
    else 0.

Definition atx_dup_file : SdFile :=
  mkSdFile atx_dup_bytes (32 + 40 * 48 + 65536 + 128) 0 "COPY.ATX".

Definition atx_dup_image : DiskImage := attached atx_dup_file fresh.

(** A file of no bytes. *)
Definition empty_file : SdFile := file_of [] 0 "NONE.XFD".

(** The object and the store that [xfd_file] gives. *)
Definition xfd_image : DiskImage := attached xfd_file fresh.
Definition xfd_store : gmap nat SdFile := store_after xfd_file fresh.

(** * Properties *)

(** ** Machine integers *)

Lemma to_byte_range x : 0 <= to_byte x < 256.
Proof. unfold to_byte. apply Z.mod_pos_bound. lia. Qed.

Lemma to_ulong_range x : 0 <= to_ulong x < 4294967296.
Proof. unfold to_ulong. apply Z.mod_pos_bound. lia. Qed.

Lemma to_ulong_small x : 0 <= x < 4294967296 -> to_ulong x = x.
Proof. intros Hx. unfold to_ulong. apply Z.mod_small. exact Hx. Qed.

Lemma to_int_range x : -32768 <= to_int x < 32768.
Proof. unfold to_int. pose proof (Z.mod_pos_bound (x + 32768) 65536). lia. Qed.

Lemma to_int_small x : -32768 <= x < 32768 -> to_int x = x.
Proof. intros Hx. unfold to_int. rewrite Z.mod_small; lia. Qed.

(** The sector count of line 218, [sectorCountHi * 256 + sectorCountLo]
    formed in [int] and converted to [unsigned long]: the count itself when
    the high byte is below 0x80, and a value of 2^32 - 32768 or more from
    there on. *)
Lemma int_count hi lo :
  0 <= hi < 256 -> 0 <= lo < 256 ->
  to_ulong (to_int (to_int (hi * 256) + lo))
  = if hi <? 128 then hi * 256 + lo else hi * 256 + lo + 4294901760.
Proof.
  intros Hhi Hlo. destruct (hi <? 128) eqn:E.
  - apply Z.ltb_lt in E.
    rewrite (to_int_small (hi * 256)) by lia.
    rewrite to_int_small by lia. apply to_ulong_small. lia.
  - apply Z.ltb_ge in E.
    assert (E1 : to_int (hi * 256) = hi * 256 - 65536).
    { unfold to_int.
      replace (hi * 256 + 32768) with (hi * 256 - 32768 + 1 * 65536) by lia.
      rewrite Z.mod_add by lia. rewrite Z.mod_small by lia. lia. }
    rewrite E1. rewrite to_int_small by lia. unfold to_ulong.
    replace (hi * 256 - 65536 + lo)
      with (hi * 256 + lo + 4294901760 + (-1) * 4294967296) by lia.
    rewrite Z.mod_add by lia. apply Z.mod_small. lia.
Qed.

(** ** Computations on a file *)

Lemma bind_Some {A B} (c : io A) (k : A -> io B) f r :
  bind c k f = Some r <-> exists a f1, c f = Some (a, f1) /\ k a f1 = Some r.
Proof.
  unfold bind. split.
  - destruct (c f) as [[a f1]|]; [eauto | discriminate].
  - intros (a & f1 & -> & Hk). exact Hk.
Qed.

Ltac inv_bind :=
  repeat match goal with
  | Hb : bind _ _ _ = Some _ |- _ =>
      apply bind_Some in Hb; destruct Hb as (? & ? & ? & Hb)
  | Hr : ret _ _ = Some _ |- _ => unfold ret in Hr; injection Hr as ? ?; subst
  end.


Lemma total_ret {A} (a : A) : total (ret a).
Proof. intros f. exists a, f. reflexivity. Qed.

Lemma total_bind {A B} (c : io A) (k : A -> io B) :
  total c -> (forall a, total (k a)) -> total (bind c k).
Proof.
  intros Hc Hk f. destruct (Hc f) as (a & f1 & Ha).
  destruct (Hk a f1) as (b & f2 & Hb).
  exists b, f2. unfold bind. rewrite Ha. exact Hb.
Qed.

Lemma total_seekSet p : total (seekSet p).
Proof. intros f. unfold seekSet. destruct (_ && _); eauto. Qed.

Lemma total_read : total read.
Proof. intros f. unfold read. destruct (_ && _); eauto. Qed.

Lemma total_write b : total (write b).
Proof. intros f. unfold write. eauto. Qed.

Create HintDb io_total.
#[local] Hint Resolve total_ret total_bind total_seekSet total_read total_write
  : io_total.

Lemma total_skip n : total (skip n).
Proof. induction n; simpl; auto with io_total. Qed.

Lemma total_read_bytes n : total (read_bytes n).
Proof. induction n; simpl; auto 10 with io_total. Qed.

Lemma total_write_buf l : total (write_buf l).
Proof. induction l; simpl; auto 10 with io_total. Qed.

Lemma total_write_zeros n : total (write_zeros n).
Proof. induction n; simpl; auto with io_total. Qed.

Lemma total_read_long : total read_long.
Proof. unfold read_long. cbv zeta. auto 10 with io_total. Qed.

Lemma total_read_header_size : total read_header_size.
Proof. unfold read_header_size. auto 10 with io_total. Qed.

#[local] Hint Resolve total_skip total_read_bytes total_write_buf
  total_write_zeros total_read_long total_read_header_size : io_total.


Lemma keeps_ret {A} P (a : A) : keeps P (ret a).
Proof. intros f b f' HP [= _ <-]. exact HP. Qed.

Lemma keeps_undefined {A} P : keeps P (@undefined A).
Proof. intros f b f' _ [=]. Qed.

Lemma keeps_bind {A B} P (c : io A) (k : A -> io B) :
  keeps P c -> (forall a, keeps P (k a)) -> keeps P (bind c k).
Proof.
  intros Hc Hk f b f' HP Hb. apply bind_Some in Hb as (a & f1 & Ha & Hb).
  eapply Hk; [eapply Hc|]; eauto.
Qed.

Lemma keeps_if {A} P (b : bool) (c1 c2 : io A) :
  keeps P c1 -> keeps P c2 -> keeps P (if b then c1 else c2).
Proof. destruct b; auto. Qed.

Lemma wf_seekSet p : keeps wf_file (seekSet p).
Proof.
  intros f a f' Hwf. unfold seekSet.
  destruct (_ && _) eqn:E; intros [= _ <-]; [|exact Hwf].
  unfold wf_file. simpl. lia.
Qed.

Lemma wf_read : keeps wf_file read.
Proof.
  intros f a f' Hwf. unfold read.
  destruct (_ && _) eqn:E; intros [= _ <-]; [|exact Hwf].
  unfold wf_file in *. simpl. lia.
Qed.

Lemma wf_write b : keeps wf_file (write b).
Proof.
  intros f a f' Hwf. unfold write. intros [= _ <-].
  unfold wf_file in *. simpl. lia.
Qed.

Lemma wf_getFilename : keeps wf_file getFilename.
Proof. intros f a f' Hwf [= _ <-]. exact Hwf. Qed.

Create HintDb io_wf.
#[local] Hint Resolve keeps_ret keeps_undefined keeps_bind keeps_if
  wf_seekSet wf_read wf_write wf_getFilename : io_wf.

Lemma wf_skip n : keeps wf_file (skip n).
Proof. induction n; simpl; auto with io_wf. Qed.

Lemma wf_read_bytes n : keeps wf_file (read_bytes n).
Proof. induction n; simpl; auto 10 with io_wf. Qed.

Lemma wf_write_buf l : keeps wf_file (write_buf l).
Proof. induction l; simpl; auto 10 with io_wf. Qed.

Lemma wf_write_zeros n : keeps wf_file (write_zeros n).
Proof. induction n; simpl; auto with io_wf. Qed.

Lemma wf_read_long : keeps wf_file read_long.
Proof. unfold read_long. cbv zeta. auto 10 with io_wf. Qed.

Lemma wf_read_header_size : keeps wf_file read_header_size.
Proof. unfold read_header_size. auto 10 with io_wf. Qed.

#[local] Hint Resolve wf_skip wf_read_bytes wf_write_buf wf_write_zeros
  wf_read_long wf_read_header_size : io_wf.

Lemma wf_read_sectors n : forall i2 trackNumber fileIndex t,
  keeps wf_file (read_sectors n i2 trackNumber fileIndex t).
Proof.
  induction n; intros; simpl; auto 20 with io_wf.
Qed.

#[local] Hint Resolve wf_read_sectors : io_wf.

Lemma wf_read_tracks n : forall fileIndex t,
  keeps wf_file (read_tracks n fileIndex t).
Proof.
  induction n; intros; simpl; auto 30 with io_wf.
Qed.

#[local] Hint Resolve wf_read_tracks : io_wf.

(** ** Detection *)

Section Detection.
Context {H : disk_image_h}.

Lemma probe_total f : probe f = Some (file_header f, rewound f).
Proof.
  unfold file_header, rewound.
  assert (Ht : total probe) by (unfold probe; auto 10 with io_total).
  destruct (Ht f) as (h & f' & ->). reflexivity.
Qed.

Lemma probe_bind {A} (k : list Z -> io A) f :
  (seekSet 0 ;; let* header := read_bytes 16 in seekSet 0 ;; k header) f
  = k (file_header f) (rewound f).
Proof.
  pose proof (probe_total f) as Hp. revert Hp.
  unfold probe, bind, ret.
  destruct (seekSet 0 f) as [[? f1]|]; [|discriminate].
  destruct (read_bytes 16 f1) as [[h f2]|]; [|discriminate].
  destruct (seekSet 0 f2) as [[? f3]|]; [|discriminate].
  intros [= <- <-]. reflexivity.
Qed.

Lemma name_rewound f : name (rewound f) = name f.
Proof.
  assert (Hk : keeps (fun f' => name f' = name f) probe).
  { assert (Hs : forall p, keeps (fun f' => name f' = name f) (seekSet p)).
    { intros p g a g' Hg. unfold seekSet.
      destruct (_ && _); intros [= _ <-]; assumption. }
    assert (Hr : keeps (fun f' => name f' = name f) read).
    { intros g a g' Hg. unfold read.
      destruct (_ && _); intros [= _ <-]; assumption. }
    assert (Hb : forall n, keeps (fun f' => name f' = name f) (read_bytes n)).
    { induction n; simpl; auto 10 using keeps_ret, keeps_bind. }
    unfold probe. auto 10 using keeps_ret, keeps_bind. }
  eapply Hk; [reflexivity | apply probe_total].
Qed.

(** The object each successful test leaves. *)
Lemma read_bytes_range n : forall f bs f',
  read_bytes n f = Some (bs, f') -> Forall (fun b => 0 <= b < 256) bs.
Proof.
  induction n as [|n IH]; intros f bs f' Hr; simpl in Hr.
  - injection Hr as <- _. constructor.
  - inv_bind. constructor; [apply to_byte_range | eauto].
Qed.

Lemma nth_range (bs : list Z) i :
  Forall (fun b => 0 <= b < 256) bs -> 0 <= nth i bs 0 < 256.
Proof.
  intros Hb. revert i. induction Hb as [|b bs Hb _ IH]; intros [|i]; simpl;
    try lia; apply IH.
Qed.

Lemma file_header_range f : Forall (fun b => 0 <= b < 256) (file_header f).
Proof.
  pose proof (probe_total f) as Hp. unfold probe in Hp. inv_bind.
  match goal with Hr : read_bytes 16 _ = Some _ |- _ =>
    apply read_bytes_range in Hr; exact Hr end.
Qed.

(** The PRO test holds only where the count of line 218 does not leave
    the range of [int], and there it is the cross-check on the count the
    header declares. *)
Lemma is_PRO_count f size :
  0 <= sizeof_PROSectorHeader ->
  is_PRO (file_header f) size = true ->
  sectorCountHi (file_header f) < 128
  /\ sectorCountHi (file_header f) * 256 + sectorCountLo (file_header f)
     = to_ulong (size - 16) / (128 + sizeof_PROSectorHeader)
  /\ magic (file_header f) = 80.
Proof.
  intros Hz Hp. unfold is_PRO in Hp. apply andb_true_iff in Hp as [Hc Hm].
  apply Z.eqb_eq in Hc. apply Z.eqb_eq in Hm.
  pose proof (nth_range (file_header f) off_sectorCountHi (file_header_range f))
    as Hhi.
  pose proof (nth_range (file_header f) off_sectorCountLo (file_header_range f))
    as Hlo.
  fold (sectorCountHi (file_header f)) in Hhi.
  fold (sectorCountLo (file_header f)) in Hlo.
  rewrite (int_count _ _ Hhi Hlo) in Hc. unfold SECTOR_SIZE_SD in Hc.
  assert (Hq : to_ulong (size - 16) / (128 + sizeof_PROSectorHeader)
               <= to_ulong (size - 16) / 128).
  { pose proof (to_ulong_range (size - 16)).
    apply Z.div_le_compat_l; lia. }
  assert (Hq' : to_ulong (size - 16) / 128 < 33554432).
  { pose proof (to_ulong_range (size - 16)).
    apply Z.div_lt_upper_bound; lia. }
  destruct (sectorCountHi (file_header f) <? 128) eqn:E.
  - apply Z.ltb_lt in E. auto.
  - lia.
Qed.

Lemma is_PRO_below f size :
  sectorCountHi (file_header f) < 128 ->
  sectorCountHi (file_header f) * 256 + sectorCountLo (file_header f)
  = to_ulong (size - 16) / (128 + sizeof_PROSectorHeader) ->
  magic (file_header f) = 80 ->
  is_PRO (file_header f) size = true.
Proof.
  intros Hlt Hc Hm. unfold is_PRO. apply andb_true_iff. split.
  - pose proof (nth_range (file_header f) off_sectorCountHi
                  (file_header_range f)) as Hhi.
    pose proof (nth_range (file_header f) off_sectorCountLo
                  (file_header_range f)) as Hlo.
    fold (sectorCountHi (file_header f)) in Hhi.
    fold (sectorCountLo (file_header f)) in Hlo.
    rewrite (int_count _ _ Hhi Hlo).
    replace (sectorCountHi (file_header f) <? 128) with true
      by (symmetry; apply Z.ltb_lt; exact Hlt).
    apply Z.eqb_eq. exact Hc.
  - apply Z.eqb_eq. exact Hm.
Qed.

Lemma loadFile_ATR d f :
  is_ATR (file_header f) = true ->
  loadFile d f =
    Some (true,
          set_sectorReadDelay 0
            (set_sectorSize (ATR_secSize (file_header f))
               (set_readOnly false (set_headerSize 16 (set_type TYPE_ATR d)))),
          rewound f).
Proof.
  intros Ha. unfold loadFile. rewrite probe_bind, Ha. reflexivity.
Qed.

Lemma loadFile_PRO d f :
  is_ATR (file_header f) = false ->
  is_PRO (file_header f) (m_fileSize d) = true ->
  loadFile d f =
    Some (true,
          set_phantom_mode (phantomSectorMode (file_header f))
            (set_sectorReadDelay (sectorReadDelay (file_header f) * (1000 / 60))
               (set_sectorSize SECTOR_SIZE_SD
                  (set_headerSize 16
                     (set_readOnly true (set_type TYPE_PRO d))))),
          rewound f).
Proof.
  intros Ha Hp. unfold loadFile. rewrite probe_bind, Ha, Hp. reflexivity.
Qed.

Lemma loadFile_ATX d f ok d' f' :
  is_ATR (file_header f) = false ->
  is_PRO (file_header f) (m_fileSize d) = false ->
  is_ATX (file_header f) = true ->
  loadFile d f = Some (ok, d', f') ->
  ok = true /\
  exists t,
    d' = set_sectorHeaders t
           (set_phantomFlip false
              (set_sectorSize 128
                 (set_sectorReadDelay 0
                    (set_readOnly true (set_type TYPE_ATX d))))).
Proof.
  intros Ha Hp Hx. unfold loadFile. rewrite probe_bind, Ha, Hp, Hx.
  intros Hl. inv_bind. split; [reflexivity|]. eexists. reflexivity.
Qed.

(** The ATX branch as a whole: its result is that of [ATX_index]. *)
Lemma loadFile_ATX_index d f :
  is_ATR (file_header f) = false ->
  is_PRO (file_header f) (m_fileSize d) = false ->
  is_ATX (file_header f) = true ->
  loadFile d f =
    match ATX_index (m_sectorHeaders d) (rewound f) with
    | Some (t, f') =>
        Some (true,
              set_sectorHeaders t
                (set_phantomFlip false
                   (set_sectorSize 128
                      (set_sectorReadDelay 0
                         (set_readOnly true (set_type TYPE_ATX d))))),
              f')
    | None => None
    end.
Proof.
  intros Ha Hp Hx. unfold loadFile. rewrite probe_bind, Ha, Hp, Hx.
  cbv zeta. unfold ATX_index.
  cbn [m_sectorHeaders set_phantomFlip set_sectorSize set_sectorReadDelay
       set_readOnly set_type].
  unfold bind, ret.
  destruct (seekSet 28 (rewound f)) as [[b1 f1]|]; [|reflexivity].
  destruct (read_header_size f1) as [[ix f2]|]; [|reflexivity].
  destruct (seekSet ix f2) as [[b3 f3]|]; [|reflexivity].
  destruct (read_tracks 40 ix _ f3) as [[t f4]|]; reflexivity.
Qed.

Lemma loadFile_other d f :
  is_ATR (file_header f) = false ->
  is_PRO (file_header f) (m_fileSize d) = false ->
  is_ATX (file_header f) = false ->
  loadFile d f =
    if Z.of_nat (String.length (name f)) <? 4 then None
    else if is_XFD (name f) (m_fileSize d)
    then Some (true,
               set_sectorReadDelay 0
                 (set_sectorSize SECTOR_SIZE_SD
                    (set_headerSize 0
                       (set_readOnly false (set_type TYPE_XFD d)))),
               rewound f)
    else Some (false, d, rewound f).
Proof.
  intros Ha Hp Hx. unfold loadFile. rewrite probe_bind, Ha, Hp, Hx.
  unfold bind, getFilename, is_XFD. rewrite name_rewound.
  destruct (_ <? 4); [reflexivity|].
  destruct (_ && _); reflexivity.
Qed.

Lemma setFile_unfold file d s f :
  s !! file = Some f ->
  setFile file d s =
    match loadFile (set_fileSize (fileSize f) (set_fileRef (Some file) d)) f with
    | Some (true, d', f') => Some (true, d', <[file := f']> s)
    | Some (false, d', f') => Some (false, set_fileRef None d', <[file := f']> s)
    | None => None
    end.
Proof.
  intros Hf. unfold setFile, on_file. rewrite Hf. unfold bind.
  destruct (loadFile _ f) as [[[[] d'] f']|]; reflexivity.
Qed.

Lemma setFile_Some file d s r :
  setFile file d s = Some r -> exists f, s !! file = Some f.
Proof.
  unfold setFile, on_file. destruct (s !! file); [eauto | discriminate].
Qed.

Lemma set_phantom_mode_frame mode d :
  m_fileRef (set_phantom_mode mode d) = m_fileRef d
  /\ m_fileSize (set_phantom_mode mode d) = m_fileSize d
  /\ m_type (set_phantom_mode mode d) = m_type d
  /\ m_headerSize (set_phantom_mode mode d) = m_headerSize d
  /\ m_sectorSize (set_phantom_mode mode d) = m_sectorSize d
  /\ m_readOnly (set_phantom_mode mode d) = m_readOnly d.
Proof.
  unfold set_phantom_mode.
  repeat match goal with |- context [if ?b then _ else _] => destruct b end;
    repeat split.
Qed.

(** Every way [setFile] can end, by the tests on the header. *)
Lemma setFile_cases file d s f r :
  s !! file = Some f ->
  setFile file d s = Some r ->
  let h := file_header f in
  let d0 := set_fileSize (fileSize f) (set_fileRef (Some file) d) in
  exists f',
  (is_ATR h = true /\
   r = (true,
        set_sectorReadDelay 0
          (set_sectorSize (ATR_secSize h)
             (set_readOnly false (set_headerSize 16 (set_type TYPE_ATR d0)))),
        <[file := f']> s))
  \/ (is_ATR h = false /\ is_PRO h (fileSize f) = true /\
      r = (true,
           set_phantom_mode (phantomSectorMode h)
             (set_sectorReadDelay (sectorReadDelay h * (1000 / 60))
                (set_sectorSize SECTOR_SIZE_SD
                   (set_headerSize 16
                      (set_readOnly true (set_type TYPE_PRO d0))))),
           <[file := f']> s))
  \/ (is_ATR h = false /\ is_PRO h (fileSize f) = false /\ is_ATX h = true /\
      exists t,
        r = (true,
             set_sectorHeaders t
               (set_phantomFlip false
                  (set_sectorSize 128
                     (set_sectorReadDelay 0
                        (set_readOnly true (set_type TYPE_ATX d0))))),
             <[file := f']> s))
  \/ (is_ATR h = false /\ is_PRO h (fileSize f) = false /\ is_ATX h = false /\
      (4 <= String.length (name f))%nat /\
      is_XFD (name f) (fileSize f) = true /\
      r = (true,
           set_sectorReadDelay 0
             (set_sectorSize SECTOR_SIZE_SD
                (set_headerSize 0
                   (set_readOnly false (set_type TYPE_XFD d0)))),
           <[file := f']> s))
  \/ (is_ATR h = false /\ is_PRO h (fileSize f) = false /\ is_ATX h = false /\
      (4 <= String.length (name f))%nat /\
      is_XFD (name f) (fileSize f) = false /\
      r = (false, set_fileSize (fileSize f) (set_fileRef None d),
           <[file := f']> s)).
Proof.
  intros Hf Hs h d0. rewrite (setFile_unfold _ _ _ _ Hf) in Hs.
  fold d0 in Hs.
  destruct (is_ATR h) eqn:Ha.
  { rewrite (loadFile_ATR d0 f Ha) in Hs. injection Hs as <-.
    exists (rewound f). left. split; reflexivity. }
  destruct (is_PRO h (fileSize f)) eqn:Hp.
  { rewrite (loadFile_PRO d0 f Ha Hp) in Hs. injection Hs as <-.
    exists (rewound f). right; left. repeat split; reflexivity. }
  destruct (is_ATX h) eqn:Hx.
  { destruct (loadFile d0 f) as [[[ok d'] f']|] eqn:Hl; [|discriminate].
    destruct (loadFile_ATX d0 f ok d' f' Ha Hp Hx Hl) as [-> [t ->]].
    injection Hs as <-. exists f'. right; right; left.
    repeat split; try reflexivity. exists t. reflexivity. }
  rewrite (loadFile_other d0 f Ha Hp Hx) in Hs.
  destruct (Z.of_nat (String.length (name f)) <? 4) eqn:Hn; [discriminate|].
  apply Z.ltb_ge in Hn.
  change (m_fileSize d0) with (fileSize f) in Hs.
  destruct (is_XFD (name f) (fileSize f)) eqn:Hxfd; injection Hs as <-;
    exists (rewound f); do 3 right; [left | right];
    repeat split; try reflexivity; lia.
Qed.

(** When [setFile] has a result. *)
Lemma setFile_defined file d s f :
  s !! file = Some f ->
  is_ATR (file_header f) = true
  \/ is_PRO (file_header f) (fileSize f) = true
  \/ (is_ATX (file_header f) = false /\ (4 <= String.length (name f))%nat) ->
  exists r, setFile file d s = Some r.
Proof.
  intros Hf Hc. rewrite (setFile_unfold _ _ _ _ Hf).
  set (d0 := set_fileSize (fileSize f) (set_fileRef (Some file) d)).
  destruct (is_ATR (file_header f)) eqn:Ha.
  { rewrite (loadFile_ATR d0 f Ha). eauto. }
  destruct (is_PRO (file_header f) (fileSize f)) eqn:Hp.
  { rewrite (loadFile_PRO d0 f Ha Hp). eauto. }
  destruct Hc as [Hc | [Hc | [Hx Hn]]]; try discriminate.
  rewrite (loadFile_other d0 f Ha Hp Hx).
  destruct (Z.of_nat (String.length (name f)) <? 4) eqn:Hl.
  { apply Z.ltb_lt in Hl. lia. }
  destruct (is_XFD _ _); eauto.
Qed.

End Detection.

(** ** What the specification claims about detection *)

Section DetectionClaims.
Context {H : disk_image_h}.

(** C1, as amended.  A file classified as PRO does not start with the ATR
    signature and passes the cross-check: the sector count its header
    declares (high byte times 256 plus low byte) equals
    (fileSize - 16) / (128 + sectorHeaderSize), and the magic byte is 'P';
    so a file that fails either part of the cross-check is never
    classified as PRO.  Among the files that declare fewer than 32768
    sectors, the high byte being below 0x80, the files classified as PRO
    are exactly these.  The difference is the one of [unsigned long]; it
    is the plain difference for a file of 16 bytes or more. *)
Theorem PRO_classification file d s f :
  s !! file = Some f ->
  0 <= sizeof_PROSectorHeader ->
  ((exists d' s', setFile file d s = Some (true, d', s')
                  /\ getType d' = TYPE_PRO)
   -> (ATR_signature (file_header f) <> ATR_SIGNATURE
       /\ sectorCountHi (file_header f) * 256 + sectorCountLo (file_header f)
          = to_ulong (fileSize f - 16) / (128 + sizeof_PROSectorHeader)
       /\ magic (file_header f) = 80))
  /\ (sectorCountHi (file_header f) < 128 ->
      ((exists d' s', setFile file d s = Some (true, d', s')
                      /\ getType d' = TYPE_PRO)
       <-> (ATR_signature (file_header f) <> ATR_SIGNATURE
            /\ sectorCountHi (file_header f) * 256
               + sectorCountLo (file_header f)
               = to_ulong (fileSize f - 16) / (128 + sizeof_PROSectorHeader)
            /\ magic (file_header f) = 80)))
  /\ (16 <= fileSize f -> to_ulong (fileSize f - 16) = fileSize f - 16).
Proof.
  intros Hf Hz.
  assert (Honly :
    (exists d' s', setFile file d s = Some (true, d', s')
                   /\ getType d' = TYPE_PRO)
    -> (ATR_signature (file_header f) <> ATR_SIGNATURE
        /\ sectorCountHi (file_header f) * 256 + sectorCountLo (file_header f)
           = to_ulong (fileSize f - 16) / (128 + sizeof_PROSectorHeader)
        /\ magic (file_header f) = 80)).
  { intros (d' & s' & Hs & Ht).
    destruct (setFile_cases _ _ _ _ _ Hf Hs)
      as (f' & [(Ha & E) | [(Ha & Hp & E) | [(Ha & Hp & Hx & t & E)
               | [(Ha & Hp & Hx & Hn & Hxfd & E)
               | (Ha & Hp & Hx & Hn & Hxfd & E)]]]]);
      injection E as E1 E2; subst d'; try discriminate.
    unfold is_ATR in Ha. apply Z.eqb_neq in Ha.
    destruct (is_PRO_count f (fileSize f) Hz Hp) as (_ & Hc & Hm).
    auto. }
  split; [exact Honly|]. split.
  - intros Hlt. split; [exact Honly|].
    intros (Ha & Hc & Hm).
    assert (Ha' : is_ATR (file_header f) = false)
      by (unfold is_ATR; apply Z.eqb_neq; exact Ha).
    pose proof (is_PRO_below f (fileSize f) Hlt Hc Hm) as Hp.
    rewrite (setFile_unfold _ _ _ _ Hf).
    rewrite (loadFile_PRO
               (set_fileSize (fileSize f) (set_fileRef (Some file) d))
               f Ha' Hp).
    do 2 eexists. split; [reflexivity|].
    unfold getType.
    match goal with |- m_type (set_phantom_mode ?m ?x) = _ =>
      destruct (set_phantom_mode_frame m x) as (_ & _ & -> & _) end.
    reflexivity.
  - intros Hs. apply to_ulong_small.
    pose proof (to_ulong_range (len f)) as Hr. unfold fileSize in *. lia.
Qed.

(** C2.  Detection is a function of the object and the file, and tries ATR,
    then PRO, then ATX, then XFD, stopping at the first test that holds.  A
    file whose header carries the ATR signature is classified as ATR,
    whatever the later tests say of it.  A file that fails the ATR test
    and passes the PRO test is classified as PRO.  A file that fails both
    and starts with AT8X is classified as ATX, with the index read from
    it, whenever that index can be built; the attach is undefined
    otherwise.  A file that fails the three tests is classified as XFD
    when the XFD test holds and is refused when it does not, its name
    having four characters or more; the attach is undefined for a shorter
    name. *)
Theorem detection_order file d s f :
  s !! file = Some f ->
  if is_ATR (file_header f) then
    exists d' s', setFile file d s = Some (true, d', s')
                  /\ getType d' = TYPE_ATR
  else if is_PRO (file_header f) (fileSize f) then
    exists d' s', setFile file d s = Some (true, d', s')
                  /\ getType d' = TYPE_PRO
  else if is_ATX (file_header f) then
    match ATX_index (m_sectorHeaders d) (rewound f) with
    | Some (t, _) =>
        exists d' s', setFile file d s = Some (true, d', s')
                      /\ getType d' = TYPE_ATX
                      /\ m_sectorHeaders d' = t
    | None => setFile file d s = None
    end
  else if (String.length (name f) <? 4)%nat then setFile file d s = None
  else if is_XFD (name f) (fileSize f) then
    exists d' s', setFile file d s = Some (true, d', s')
                  /\ getType d' = TYPE_XFD
  else
    exists d' s', setFile file d s = Some (false, d', s')
                  /\ hasImage d' = false.
Proof.
  intros Hf. rewrite (setFile_unfold _ _ _ _ Hf).
  set (d0 := set_fileSize (fileSize f) (set_fileRef (Some file) d)).
  destruct (is_ATR (file_header f)) eqn:Ha.
  { rewrite (loadFile_ATR d0 f Ha). do 2 eexists. split; reflexivity. }
  destruct (is_PRO (file_header f) (fileSize f)) eqn:Hp.
  { rewrite (loadFile_PRO d0 f Ha Hp). do 2 eexists. split; [reflexivity|].
    unfold getType.
    match goal with |- m_type (set_phantom_mode ?m ?x) = _ =>
      destruct (set_phantom_mode_frame m x) as (_ & _ & -> & _) end.
    reflexivity. }
  destruct (is_ATX (file_header f)) eqn:Hx.
  { rewrite (loadFile_ATX_index d0 f Ha Hp Hx).
    change (m_sectorHeaders d0) with (m_sectorHeaders d).
    destruct (ATX_index (m_sectorHeaders d) (rewound f)) as [[t f']|];
      [|reflexivity].
    do 2 eexists. split; [reflexivity|]. split; reflexivity. }
  rewrite (loadFile_other d0 f Ha Hp Hx).
  change (m_fileSize d0) with (fileSize f).
  destruct (String.length (name f) <? 4)%nat eqn:Hn.
  { apply Nat.ltb_lt in Hn.
    replace (Z.of_nat (String.length (name f)) <? 4) with true
      by (symmetry; apply Z.ltb_lt; lia).
    reflexivity. }
  apply Nat.ltb_ge in Hn.
  replace (Z.of_nat (String.length (name f)) <? 4) with false
    by (symmetry; apply Z.ltb_ge; lia).
  destruct (is_XFD (name f) (fileSize f)).
  - do 2 eexists. split; reflexivity.
  - do 2 eexists. split; reflexivity.
Qed.

(** C6, as amended.  A file classified as XFD has the extension .xfd, up to
    case, and the size of a single-sided single-density 40-track image; the
    object then has headerSize 0, sectorSize 128 and is writable.  A file
    that none of the ATR, PRO and ATX tests accepts, whose extension is
    .XFD or .xfd and whose size is that size, is classified as XFD. *)
Theorem XFD_classification file d s f :
  s !! file = Some f ->
  (forall d' s',
     setFile file d s = Some (true, d', s') -> getType d' = TYPE_XFD ->
     lower (extension_of (name f)) = ".xfd"%string
     /\ fileSize f = FORMAT_SS_SD_40
     /\ m_headerSize d' = 0 /\ getSectorSize d' = 128
     /\ isReadOnly d' = false)
  /\ (is_ATR (file_header f) = false ->
      is_PRO (file_header f) (fileSize f) = false ->
      is_ATX (file_header f) = false ->
      (4 <= String.length (name f))%nat ->
      extension_of (name f) = ".XFD"%string
      \/ extension_of (name f) = ".xfd"%string ->
      fileSize f = FORMAT_SS_SD_40 ->
      exists d' s', setFile file d s = Some (true, d', s')
                    /\ getType d' = TYPE_XFD).
Proof.
  intros Hf. split.
  - intros d' s' Hs Ht.
    destruct (setFile_cases _ _ _ _ _ Hf Hs)
      as (f' & [(Ha & E) | [(Ha & Hp & E) | [(Ha & Hp & Hx & t & E)
               | [(Ha & Hp & Hx & Hn & Hxfd & E)
               | (Ha & Hp & Hx & Hn & Hxfd & E)]]]]);
      injection E as E1 E2; subst d'; try discriminate.
    + exfalso. unfold getType in Ht.
      match type of Ht with m_type (set_phantom_mode ?m ?x) = _ =>
        destruct (set_phantom_mode_frame m x) as (_ & _ & Hm & _) end.
      rewrite Hm in Ht. discriminate.
    + unfold is_XFD in Hxfd. apply andb_true_iff in Hxfd as [He Hz].
      apply Z.eqb_eq in Hz. repeat split; try assumption.
      apply orb_true_iff in He as [He | He]; apply String.eqb_eq in He;
        rewrite <- He; reflexivity.
  - intros Ha Hp Hx Hn He Hz.
    rewrite (setFile_unfold _ _ _ _ Hf).
    rewrite (loadFile_other
               (set_fileSize (fileSize f) (set_fileRef (Some file) d))
               f Ha Hp Hx).
    destruct (Z.of_nat (String.length (name f)) <? 4) eqn:Hl.
    { apply Z.ltb_lt in Hl. lia. }
    assert (Hxfd : is_XFD (name f)
              (m_fileSize (set_fileSize (fileSize f)
                             (set_fileRef (Some file) d))) = true).
    { unfold is_XFD. apply andb_true_iff. split.
      - apply orb_true_iff.
        destruct He as [-> | ->]; [left | right]; reflexivity.
      - apply Z.eqb_eq. exact Hz. }
    rewrite Hxfd. do 2 eexists. split; reflexivity.
Qed.

(** C8, as amended.  When detection fails, attach reports failure, the
    object holds no file (hasImage() is false), and its fields are the ones
    it had before the call except [m_fileRef], now null, and [m_fileSize],
    now the size of the file that was refused. *)
Theorem failed_attach file d s f d' s' :
  s !! file = Some f ->
  setFile file d s = Some (false, d', s') ->
  hasImage d' = false
  /\ d' = set_fileSize (fileSize f) (set_fileRef None d).
Proof.
  intros Hf Hs.
  destruct (setFile_cases _ _ _ _ _ Hf Hs)
    as (f' & [(Ha & E) | [(Ha & Hp & E) | [(Ha & Hp & Hx & t & E)
             | [(Ha & Hp & Hx & Hn & Hxfd & E)
             | (Ha & Hp & Hx & Hn & Hxfd & E)]]]]);
    try discriminate.
  injection E as -> _. split; reflexivity.
Qed.

(** C10.  A successful attach of an ATX image sets the kind, readOnly,
    sectorReadDelay, sectorSize and phantomFlip, and leaves headerSize as
    it was before the call; isEnhancedDensity() and isDoubleDensity() then
    compare the size of the file with the reference sizes plus that earlier
    headerSize. *)
Theorem ATX_attach_keeps_headerSize file d s f d' s' :
  s !! file = Some f ->
  setFile file d s = Some (true, d', s') ->
  getType d' = TYPE_ATX ->
  m_headerSize d' = m_headerSize d
  /\ isReadOnly d' = true
  /\ m_sectorReadDelay d' = 0
  /\ getSectorSize d' = 128
  /\ m_phantomFlip d' = false
  /\ isEnhancedDensity d' =
       (fileSize f =? to_ulong (FORMAT_SS_ED_35 + m_headerSize d))
       || (fileSize f =? to_ulong (FORMAT_SS_ED_40 + m_headerSize d))
  /\ isDoubleDensity d' =
       (fileSize f =? to_ulong (FORMAT_SS_DD_35 + m_headerSize d))
       || (fileSize f =? to_ulong (FORMAT_SS_DD_40 + m_headerSize d)).
Proof.
  intros Hf Hs Ht.
  destruct (setFile_cases _ _ _ _ _ Hf Hs)
    as (f' & [(Ha & E) | [(Ha & Hp & E) | [(Ha & Hp & Hx & t & E)
             | [(Ha & Hp & Hx & Hn & Hxfd & E)
             | (Ha & Hp & Hx & Hn & Hxfd & E)]]]]);
    injection E as E1 E2; subst d'; try discriminate.
  - exfalso. unfold getType in Ht.
    match type of Ht with m_type (set_phantom_mode ?m ?x) = _ =>
      destruct (set_phantom_mode_frame m x) as (_ & _ & Hm & _) end.
    rewrite Hm in Ht. discriminate.
  - repeat split.
Qed.

End DetectionClaims.

(** ** Reading sectors *)

Lemma yields_ret {A} (a : A) (Q : A -> Prop) : Q a -> yields (ret a) Q.
Proof. intros HQ f b f' [= <- _]. exact HQ. Qed.

Lemma yields_bind {A B} (c : io A) (k : A -> io B) (P : A -> Prop) Q :
  yields c P -> (forall a, P a -> yields (k a) Q) -> yields (bind c k) Q.
Proof.
  intros Hc Hk f b f' Hb. apply bind_Some in Hb as (a & f1 & Ha & Hb).
  eapply Hk; [eapply Hc|]; eauto.
Qed.

Lemma yields_then {A B} (c : io A) (k : A -> io B) Q :
  (forall a, yields (k a) Q) -> yields (bind c k) Q.
Proof.
  intros Hk. apply yields_bind with (P := fun _ => True).
  - intros f a f' _. exact I.
  - intros a _. apply Hk.
Qed.

Lemma yields_if {A} (b : bool) (c1 c2 : io A) Q :
  yields c1 Q -> yields c2 Q -> yields (if b then c1 else c2) Q.
Proof. destruct b; auto. Qed.

Ltac yields_steps :=
  repeat first
    [ apply yields_ret
    | apply yields_then; intros ?
    | apply yields_if ].

Ltac totals :=
  repeat first
    [ apply total_ret | apply total_seekSet | apply total_read
    | apply total_write | apply total_skip | apply total_read_bytes
    | apply total_read_long | apply total_write_buf | apply total_write_zeros
    | apply total_bind; [|intros ?]
    | match goal with |- total (if ?b then _ else _) => destruct b end ].

(** Projections of the objects built by the assignments. *)
Ltac fields :=
  cbn [m_fileRef m_fileSize m_type m_headerSize m_sectorSize m_readOnly
       m_sectorReadDelay m_usePhantoms m_phantomFlip m_sectorHeaders
       m_proSectorHeader m_sectorBuffer
       set_fileRef set_fileSize set_type set_headerSize set_sectorSize
       set_readOnly set_sectorReadDelay set_usePhantoms set_phantomFlip
       set_sectorHeaders set_proSectorHeader set_sectorBuffer
       length error validStatusFrame statusFrame data
       set_length set_error set_validStatusFrame set_statusFrame set_data
       commandStatus hardwareStatus timeout_lsb timeout_msb set_status] in *.

Section Reading.
Context {H : disk_image_h}.

(** [getSectorData] has a result on an object whose file is in the store. *)
Lemma getSectorData_defined sector d s p f :
  m_fileRef d = Some p -> s !! p = Some f ->
  exists d' s', getSectorData sector d s = Some (d', s').
Proof.
  intros Hp Hf. unfold getSectorData, on_file. rewrite Hp, Hf.
  match goal with |- context [match ?c f with _ => _ end] =>
    assert (Ht : total c) end.
  { apply total_bind.
    - destruct (m_type _); totals.
    - intros d1. totals. }
  destruct (Ht f) as (d' & f' & ->). eauto.
Qed.

Lemma getSectorData_frame sector d s d' s' :
  getSectorData sector d s = Some (d', s') -> read_frame d d'.
Proof.
  unfold getSectorData, on_file.
  destruct (m_fileRef d) as [p|]; [|discriminate].
  destruct (s !! p) as [f|]; [|discriminate].
  match goal with |- context [match ?c f with _ => _ end] =>
    assert (Hy : yields c (read_frame d)) end.
  { apply yields_bind with (P := read_frame d).
    - assert (Hb : forall (c : io SectorPacket) (k : SectorPacket -> DiskImage),
                yields c (fun b => length b = m_sectorSize d) ->
                (forall b, length b = m_sectorSize d -> read_frame d (k b)) ->
                yields (let* b := c in ret (k b)) (read_frame d)).
      { intros c k Hc Hk. eapply yields_bind; [exact Hc|].
        intros b Hb. apply yields_ret. auto. }
      unfold read_frame, hasCopyProtection in *.
      destruct (m_type d) eqn:Ht; fields; rewrite ?Ht; cbv zeta.
      + yields_steps. fields. rewrite Ht. repeat split; reflexivity.
      + yields_steps. fields. rewrite Ht. repeat split; reflexivity.
      + apply yields_then; intros _. apply yields_then; intros h.
        apply Hb.
        * yields_steps; fields; reflexivity.
        * intros b Hl. fields. rewrite Ht. repeat split; try reflexivity.
          exact Hl.
      + apply Hb.
        * yields_steps; fields; try destruct (0 <? _); reflexivity.
        * intros b Hl. fields. rewrite Ht. repeat split; try reflexivity.
          exact Hl.
    - intros d1 Hd1. yields_steps. unfold read_frame in *. fields. exact Hd1. }
  match goal with |- context [match ?c f with _ => _ end] =>
    destruct (c f) as [[d1 f1]|] eqn:Hc; [|discriminate] end.
  intros [= <- _]. eapply Hy. exact Hc.
Qed.

(** The search finds nothing where no slot holds the key. *)
Lemma find_slot_none t key flip n : forall i ix,
  (forall j, i <= j < i + Z.of_nat n -> sectorNumber (t j) <> key) ->
  find_slot t key flip n i ix = ix.
Proof.
  induction n as [|n IH]; intros i ix Hn; [reflexivity|].
  cbn [find_slot].
  destruct (sectorNumber (t i) =? key) eqn:E.
  - apply Z.eqb_eq in E. exfalso. apply (Hn i); [lia | exact E].
  - apply IH. intros j Hj. apply Hn. lia.
Qed.

End Reading.

Section ReadingClaims.
Context {H : disk_image_h}.

(** C3.  On an object that holds a file, a call of readSector has a result;
    it inverts phantomFlip once when the kind is PRO or ATX, whichever
    branch is taken, and leaves phantomFlip as it was when the kind is ATR
    or XFD. *)
Theorem phantomFlip_alternates sector d s p f :
  m_fileRef d = Some p -> s !! p = Some f ->
  exists d' s',
    getSectorData sector d s = Some (d', s')
    /\ m_phantomFlip d' =
         match getType d with
         | TYPE_PRO | TYPE_ATX => negb (m_phantomFlip d)
         | TYPE_ATR | TYPE_XFD => m_phantomFlip d
         end.
Proof.
  intros Hp Hf.
  destruct (getSectorData_defined sector d s p f Hp Hf) as (d' & s' & Hg).
  exists d', s'. split; [exact Hg|].
  destruct (getSectorData_frame _ _ _ _ _ Hg) as (_ & _ & _ & _ & _ & _ & Hflip & _).
  rewrite Hflip. unfold hasCopyProtection, getType.
  destruct (m_type d); reflexivity.
Qed.

(** C5, as amended.  On an ATX image, a call of readSector for a logical
    sector other than 60001 that no populated slot of the index holds (a
    slot is populated when its sector number is not the sentinel 60000)
    reports an error and the status frame hardwareStatus 0xF7,
    commandStatus 0x10, timeout 0xE0. *)
Theorem ATX_missing_sector sector d s p f :
  m_fileRef d = Some p -> s !! p = Some f ->
  getType d = TYPE_ATX ->
  to_ulong (sector - 1) <> 60000 ->
  (forall i, 0 <= i < 720 ->
     sectorNumber (m_sectorHeaders d i) <> 60000 ->
     sectorNumber (m_sectorHeaders d i) <> to_ulong (sector - 1)) ->
  exists d' s',
    getSectorData sector d s = Some (d', s')
    /\ error (m_sectorBuffer d') = true
    /\ validStatusFrame (m_sectorBuffer d') = true
    /\ hardwareStatus (statusFrame (m_sectorBuffer d')) = 0xF7
    /\ commandStatus (statusFrame (m_sectorBuffer d')) = 0x10
    /\ timeout_lsb (statusFrame (m_sectorBuffer d')) = 0xE0.
Proof.
  intros Hp Hf Ht Hs Hnone.
  destruct (getSectorData_defined sector d s p f Hp Hf) as (d' & s' & Hg).
  exists d', s'. split; [exact Hg|].
  assert (Hix : find_slot (m_sectorHeaders d) (to_ulong (sector - 1))
                  (m_phantomFlip d) 720 0 (-1) = -1).
  { apply find_slot_none. intros j Hj.
    destruct (Z.eq_dec (sectorNumber (m_sectorHeaders d j)) 60000) as [E | E].
    - rewrite E. auto.
    - apply Hnone; [lia | exact E]. }
  revert Hg. unfold getSectorData, on_file. rewrite Hp, Hf.
  set (Q := fun d1 : DiskImage =>
    error (m_sectorBuffer d1) = true
    /\ validStatusFrame (m_sectorBuffer d1) = true
    /\ hardwareStatus (statusFrame (m_sectorBuffer d1)) = 0xF7
    /\ commandStatus (statusFrame (m_sectorBuffer d1)) = 0x10
    /\ timeout_lsb (statusFrame (m_sectorBuffer d1)) = 0xE0).
  match goal with |- context [match ?c f with _ => _ end] =>
    assert (Hy : yields c Q) end.
  { apply yields_bind with (P := Q).
    - unfold getType in Ht. fields. rewrite Ht, Hix.
      change (-1 <? -1) with false. cbv iota.
      cbv zeta.
      apply yields_bind with (P := fun b : SectorPacket =>
        error b = true /\ validStatusFrame b = true
        /\ hardwareStatus (statusFrame b) = 0xF7
        /\ commandStatus (statusFrame b) = 0x10
        /\ timeout_lsb (statusFrame b) = 0xE0).
      + yields_steps. fields. repeat split.
      + intros b Hb. apply yields_ret. unfold Q. fields. exact Hb.
    - intros d1 Hd1. yields_steps. unfold Q in *. fields. exact Hd1. }
  match goal with |- context [match ?c f with _ => _ end] =>
    destruct (c f) as [[d1 f1]|] eqn:Hc; [|discriminate] end.
  intros [= <- _]. eapply Hy. exact Hc.
Qed.

End ReadingClaims.

(** ** Images *)

Lemma on_file_Some {A} p (c : io A) s a s' :
  on_file p c s = Some (a, s') ->
  exists f f', s !! p = Some f /\ c f = Some (a, f') /\ s' = <[p := f']> s.
Proof.
  unfold on_file. destruct (s !! p) as [f|]; [|discriminate].
  destruct (c f) as [[b f']|] eqn:Hc; [|discriminate].
  intros [= <- <-]. exists f, f'. auto.
Qed.

Lemma wf_store_insert (s : gmap nat SdFile) p f :
  wf_store s -> wf_file f -> wf_store (<[p := f]> s).
Proof.
  intros Hs Hf q g. destruct (decide (p = q)) as [<- | Hne].
  - rewrite lookup_insert_eq. intros [= <-]. exact Hf.
  - rewrite lookup_insert_ne by exact Hne. apply Hs.
Qed.

Lemma lookup_insert_some (s : gmap nat SdFile) p f q :
  (exists g, s !! q = Some g) -> exists g, <[p := f]> s !! q = Some g.
Proof.
  intros [g Hg]. destruct (decide (p = q)) as [<- | Hne].
  - rewrite lookup_insert_eq. eauto.
  - rewrite lookup_insert_ne by exact Hne. eauto.
Qed.

Lemma on_file_wf {A} p (c : io A) s a s' :
  keeps wf_file c -> wf_store s -> on_file p c s = Some (a, s') -> wf_store s'.
Proof.
  intros Hk Hs Ho. apply on_file_Some in Ho as (f & f' & Hf & Hc & ->).
  apply wf_store_insert; [exact Hs|]. eapply Hk; [|exact Hc]. eapply Hs, Hf.
Qed.

Lemma ATR_secSize_range f : 0 <= ATR_secSize (file_header f) < 65536.
Proof.
  unfold ATR_secSize.
  pose proof (nth_range (file_header f) 4 (file_header_range f)).
  pose proof (nth_range (file_header f) 5 (file_header_range f)).
  lia.
Qed.

Section Images.
Context {H : disk_image_h}.

Lemma wf_loadFile d : keeps wf_file (loadFile d).
Proof. unfold loadFile. cbv zeta. auto 40 with io_wf. Qed.

Lemma wf_setFile file d s r :
  wf_store s -> setFile file d s = Some r -> wf_store (snd r).
Proof.
  intros Hs Hr. destruct r as [[ok d'] s']. unfold setFile in Hr.
  apply on_file_Some in Hr as (f & f' & Hf & Hc & ->).
  apply wf_store_insert; [exact Hs|]. simpl.
  apply bind_Some in Hc as ([ok1 d1] & f1 & Hl & Hc).
  assert (Hw : wf_file f1) by (eapply wf_loadFile; [eapply Hs, Hf | exact Hl]).
  simpl in Hc. destruct ok1; injection Hc as; subst; exact Hw.
Qed.

Lemma wf_getSectorData sector d s d' s' :
  wf_store s -> getSectorData sector d s = Some (d', s') ->
  wf_store s' /\ forall q, (exists g, s !! q = Some g) -> exists g, s' !! q = Some g.
Proof.
  intros Hs. unfold getSectorData.
  destruct (m_fileRef d) as [p|]; [|discriminate].
  intros Ho. split.
  - eapply on_file_wf; [|exact Hs|exact Ho].
    cbv zeta. apply keeps_bind; [|auto 10 with io_wf].
    destruct (m_type _); auto 20 with io_wf.
  - apply on_file_Some in Ho as (f & f' & _ & _ & ->).
    intros q. apply lookup_insert_some.
Qed.

Lemma wf_writeSectorData sector data len d s n s' :
  wf_store s -> writeSectorData sector data len d s = Some (n, s') ->
  wf_store s' /\ forall q, (exists g, s !! q = Some g) -> exists g, s' !! q = Some g.
Proof.
  intros Hs. unfold writeSectorData.
  destruct (negb (m_readOnly d)); [|intros [= _ <-]; auto].
  destruct (m_fileRef d) as [p|]; [|discriminate].
  destruct (len <=? _); [|discriminate].
  intros Ho. split.
  - eapply on_file_wf; [|exact Hs|exact Ho]. cbv zeta. auto 10 with io_wf.
  - apply on_file_Some in Ho as (f & f' & _ & _ & ->).
    intros q. apply lookup_insert_some.
Qed.

Lemma wf_format file density d s ok s' :
  wf_store s -> format file density d s = Some (ok, s') ->
  wf_store s' /\ forall q, (exists g, s !! q = Some g) -> exists g, s' !! q = Some g.
Proof.
  intros Hs. unfold format.
  destruct (negb (m_readOnly d)); [|intros [= _ <-]; auto].
  intros Ho. split.
  - eapply on_file_wf; [|exact Hs|exact Ho]. cbv zeta. auto 20 with io_wf.
  - apply on_file_Some in Ho as (f & f' & _ & _ & ->).
    intros q. apply lookup_insert_some.
Qed.

Lemma image_inv_frame d d' s s' :
  image_inv d s ->
  wf_store s' ->
  (forall q, (exists g, s !! q = Some g) -> exists g, s' !! q = Some g) ->
  m_fileRef d' = m_fileRef d -> m_type d' = m_type d ->
  m_headerSize d' = m_headerSize d -> m_sectorSize d' = m_sectorSize d ->
  m_readOnly d' = m_readOnly d ->
  image_inv d' s'.
Proof.
  intros [_ Hi] Hs' Hdom Hr Ht Hh Hz Ho. split; [exact Hs'|].
  intros p Hp. rewrite Hr in Hp. destruct (Hi p Hp) as (Hf & Ha & Hc).
  unfold hasCopyProtection in *. rewrite Ht, Hh, Hz, Ho. auto.
Qed.

(** Every image satisfies [image_inv]. *)
Lemma image_invariant d s : image d s -> image_inv d s.
Proof.
  induction 1 as [d s Hn Hs | d s file ok d' s' _ IH Hset
                 | d s sector d' s' _ IH Hget
                 | d s sector data len n s' _ IH Hw
                 | d s file density ok s' _ IH Hfmt].
  - split; [exact Hs|]. intros p Hp. congruence.
  - destruct IH as [Hs _]. split; [exact (wf_setFile _ _ _ _ Hs Hset)|].
    destruct (setFile_Some _ _ _ _ Hset) as [f Hf].
    destruct (setFile_cases _ _ _ _ _ Hf Hset)
      as (f' & [(Ha & E) | [(Ha & Hp & E) | [(Ha & Hp & Hx & t & E)
               | [(Ha & Hp & Hx & Hn & Hxfd & E)
               | (Ha & Hp & Hx & Hn & Hxfd & E)]]]]);
      injection E as -> -> ->; intros p Hp'.
    + injection Hp' as <-. rewrite lookup_insert_eq.
      split; [eauto|]. split; [|discriminate].
      intros _. fields. pose proof (ATR_secSize_range f). auto.
    + match type of Hp' with m_fileRef (set_phantom_mode ?m ?x) = _ =>
        destruct (set_phantom_mode_frame m x) as (Hr & _ & Ht & _ & _ & Ho) end.
      rewrite Hr in Hp'. injection Hp' as <-. rewrite lookup_insert_eq.
      split; [eauto|]. unfold hasCopyProtection. rewrite Ht, Ho.
      split; [discriminate | reflexivity].
    + injection Hp' as <-. rewrite lookup_insert_eq.
      split; [eauto|]. split; [discriminate | reflexivity].
    + injection Hp' as <-. rewrite lookup_insert_eq.
      split; [eauto|]. split; discriminate.
    + discriminate.
  - destruct (wf_getSectorData _ _ _ _ _ (proj1 IH) Hget) as [Hs' Hdom].
    destruct (getSectorData_frame _ _ _ _ _ Hget)
      as (Hr & _ & Ht & Hh & Hz & Ho & _).
    eapply image_inv_frame; eauto.
  - destruct (wf_writeSectorData _ _ _ _ _ _ _ (proj1 IH) Hw) as [Hs' Hdom].
    eapply image_inv_frame; eauto.
  - destruct (wf_format _ _ _ _ _ _ (proj1 IH) Hfmt) as [Hs' Hdom].
    eapply image_inv_frame; eauto.
Qed.

(** C7.  On a read-only image, and so on every PRO and every ATX image, a
    call of writeSector returns 0 bytes written and leaves the files as
    they were: the file is neither sought nor written. *)
Theorem read_only_write sector data len d s :
  image d s ->
  hasImage d = true ->
  isReadOnly d = true \/ hasCopyProtection d = true ->
  writeSectorData sector data len d s = Some (0, s).
Proof.
  intros Hi Hh Hro. apply image_invariant in Hi as [_ Hi].
  unfold hasImage in Hh. destruct (m_fileRef d) as [p|] eqn:Hp; [|discriminate].
  destruct (Hi p eq_refl) as (_ & _ & Hc).
  assert (Hr : m_readOnly d = true) by (destruct Hro; auto).
  unfold writeSectorData. rewrite Hr. reflexivity.
Qed.

End Images.

(** ** Formatting *)

Lemma bind_eq {A B} (c : io A) (k : A -> io B) f a f1 :
  c f = Some (a, f1) -> bind c k f = k a f1.
Proof. intros Hc. unfold bind. rewrite Hc. reflexivity. Qed.

Lemma seekSet_in p f :
  0 <= p <= len f ->
  seekSet p f = Some (true, mkSdFile (bytes f) (len f) p (name f)).
Proof.
  intros Hp. unfold seekSet.
  replace (0 <=? p) with true by (symmetry; apply Z.leb_le; lia).
  replace (p <=? len f) with true by (symmetry; apply Z.leb_le; lia).
  reflexivity.
Qed.




Section Formatting.
Context {H : disk_image_h}.


End Formatting.

(** ** The sample files *)

Lemma wf_singleton (f : SdFile) :
  0 <= curPosition f <= len f -> wf_store {[ 0%nat := f ]}.
Proof.
  intros Hf p g Hg. apply lookup_singleton_Some in Hg as [_ <-]. exact Hf.
Qed.

Lemma lookup_only (f : SdFile) :
  ({[ 0%nat := f ]} : gmap nat SdFile) !! 0%nat = Some f.
Proof. apply lookup_singleton_eq. Qed.

Lemma attach_image f d ok d' s' :
  0 <= curPosition f <= len f -> m_fileRef d = None ->
  attach f d = Some (ok, d', s') ->
  image (H := ape) d' s'.
Proof.
  intros Hf Hd Ha. eapply image_setFile; [|exact Ha].
  apply image_new; [exact Hd | apply wf_singleton; exact Hf].
Qed.

Lemma pro_image_attached :
  attach pro_file fresh = Some (true, pro_image, pro_store).
Proof. vm_compute. reflexivity. Qed.

Lemma atr_image_attached :
  attach atr_file fresh = Some (true, atr_image, atr_store).
Proof. vm_compute. reflexivity. Qed.

Lemma pro_image_is_image : image (H := ape) pro_image pro_store.
Proof.
  eapply attach_image; [| |exact pro_image_attached];
    [vm_compute; split; discriminate | reflexivity].
Qed.

Lemma atr_image_is_image : image (H := ape) atr_image atr_store.
Proof.
  eapply attach_image; [| |exact atr_image_attached];
    [vm_compute; split; discriminate | reflexivity].
Qed.

(** A property of the 720 slots checked slot by slot. *)
Lemma all_slots (P : Z -> bool) :
  forallb P (map Z.of_nat (seq 0 720)) = true ->
  forall i, 0 <= i < 720 -> P i = true.
Proof.
  intros Hall i Hi. rewrite forallb_forall in Hall. apply Hall.
  apply in_map_iff. exists (Z.to_nat i). split; [lia|].
  apply in_seq. lia.
Qed.

Lemma all_slots_eq (t : Z -> ATXSectorHeader) k :
  forallb (fun i => sectorNumber (t i) =? k) (map Z.of_nat (seq 0 720)) = true ->
  forall i, 0 <= i < 720 -> sectorNumber (t i) = k.
Proof.
  intros Hall i Hi. apply Z.eqb_eq.
  exact (all_slots (fun i => sectorNumber (t i) =? k) Hall i Hi).
Qed.

Lemma all_slots_ne (t : Z -> ATXSectorHeader) k :
  forallb (fun i => negb (sectorNumber (t i) =? k)) (map Z.of_nat (seq 0 720))
  = true ->
  forall i, 0 <= i < 720 -> sectorNumber (t i) <> k.
Proof.
  intros Hall i Hi. apply Z.eqb_neq, negb_true_iff.
  exact (all_slots (fun i => negb (sectorNumber (t i) =? k)) Hall i Hi).
Qed.

(** C1: the amended claim at [pro_file], which declares 720 sectors and
    is classified as PRO. *)
Lemma PRO_classification_witness :
  exists d' s', attach pro_file fresh = Some (true, d', s')
                /\ getType d' = TYPE_PRO.
Proof.
  destruct (PRO_classification (H := ape) 0 fresh {[ 0%nat := pro_file ]}
              pro_file (lookup_only pro_file))
    as (_ & Hw & _).
  - vm_compute. discriminate.
  - apply Hw.
    + vm_compute. reflexivity.
    + vm_compute. repeat split; discriminate.
Defined.

(** C1: the claim fails at [atr_pro_file].  The sector count its header
    declares is (fileSize - 16) / (128 + 12) and its magic byte is 'P', and
    it is classified as ATR, not as PRO. *)
Lemma PRO_cross_check_on_ATR_signature :
  (sectorCountHi (H := ape) (file_header atr_pro_file) * 256
   + sectorCountLo (H := ape) (file_header atr_pro_file)
   = (fileSize atr_pro_file - 16) / (128 + sizeof_PROSectorHeader (disk_image_h := ape))
   /\ magic (H := ape) (file_header atr_pro_file) = 80)
  /\ ~ (exists d' s', attach atr_pro_file fresh = Some (true, d', s')
                      /\ getType d' = TYPE_PRO).
Proof.
  split; [vm_compute; split; reflexivity|].
  intros (d' & s' & Ha & Ht). vm_compute in Ha.
  injection Ha as <- _. discriminate Ht.
Qed.

(** The file [pro_big_file] passes the cross-check with a sector count of
    32768 and does not start with the ATR signature.  The count of line 218
    leaves the range of [int], the PRO test fails, and the file is
    refused. *)
Lemma PRO_count_overflow_refused :
  (sectorCountHi (H := ape) (file_header pro_big_file) * 256
   + sectorCountLo (H := ape) (file_header pro_big_file)
   = (fileSize pro_big_file - 16)
     / (128 + sizeof_PROSectorHeader (disk_image_h := ape))
   /\ magic (H := ape) (file_header pro_big_file) = 80)
  /\ is_ATR (file_header pro_big_file) = false
  /\ is_PRO (H := ape) (file_header pro_big_file) (fileSize pro_big_file)
     = false
  /\ exists d' s', attach pro_big_file fresh = Some (false, d', s').
Proof.
  split; [vm_compute; split; reflexivity|].
  split; [vm_compute; reflexivity|]. split; [vm_compute; reflexivity|].
  exists (attached pro_big_file fresh), (store_after pro_big_file fresh).
  vm_compute. reflexivity.
Qed.

(** C2: the theorem at [atr_pro_file], which carries the ATR signature and
    passes the cross-check of the PRO format, and is classified as ATR;
    and at [atx_file], which fails the ATR and the PRO test and is
    classified as ATX. *)
Lemma detection_order_witness :
  (is_ATR (file_header atr_pro_file) = true
   /\ (sectorCountHi (H := ape) (file_header atr_pro_file) * 256
       + sectorCountLo (H := ape) (file_header atr_pro_file)
       = (fileSize atr_pro_file - 16)
         / (128 + sizeof_PROSectorHeader (disk_image_h := ape))
       /\ magic (H := ape) (file_header atr_pro_file) = 80)
   /\ exists d' s', attach atr_pro_file fresh = Some (true, d', s')
                    /\ getType d' = TYPE_ATR)
  /\ exists d' s', attach atx_file fresh = Some (true, d', s')
                   /\ getType d' = TYPE_ATX.
Proof.
  split.
  - split; [vm_compute; reflexivity|].
    split; [vm_compute; split; reflexivity|].
    pose proof (detection_order (H := ape) 0 fresh {[ 0%nat := atr_pro_file ]}
                  atr_pro_file (lookup_only atr_pro_file)) as Hw.
    replace (is_ATR (file_header atr_pro_file)) with true in Hw
      by (vm_compute; reflexivity).
    exact Hw.
  - pose proof (detection_order (H := ape) 0 fresh {[ 0%nat := atx_file ]}
                  atx_file (lookup_only atx_file)) as Hw.
    replace (is_ATR (file_header atx_file)) with false in Hw
      by (vm_compute; reflexivity).
    replace (is_PRO (file_header atx_file) (fileSize atx_file)) with false
      in Hw by (vm_compute; reflexivity).
    replace (is_ATX (file_header atx_file)) with true in Hw
      by (vm_compute; reflexivity).
    destruct (ATX_index (m_sectorHeaders fresh) (rewound atx_file))
      as [[t f']|] eqn:E; [|vm_compute in E; discriminate E].
    destruct Hw as (d' & s' & Hs & Ht & _).
    exists d', s'. split; [exact Hs | exact Ht].
Defined.

(** What [read_long] computes on four bytes of the file, and when this is
    their little-endian value. *)
Lemma to_ulong_sum a b c d :
  to_ulong (to_ulong (to_ulong (to_ulong a + to_ulong b) + to_ulong c)
            + to_ulong d)
  = to_ulong (a + b + c + d).
Proof.
  unfold to_ulong. rewrite <- (Z.add_mod a b) by lia.
  rewrite <- (Z.add_mod (a + b) c) by lia.
  rewrite <- (Z.add_mod (a + b + c) d) by lia. reflexivity.
Qed.

Lemma read_long_value f :
  0 <= curPosition f -> curPosition f + 4 <= len f ->
  read_long f =
    Some (to_ulong (bytes f (curPosition f)
                    + to_int (bytes f (curPosition f + 1) * 256)
                    + to_int (bytes f (curPosition f + 2) * 512)
                    + to_int (bytes f (curPosition f + 3) * 768)),
          mkSdFile (bytes f) (len f) (curPosition f + 4) (name f)).
Proof.
  intros Hp Hl.
  assert (Hr : forall k, 0 <= k < 4 ->
            read (mkSdFile (bytes f) (len f) (curPosition f + k) (name f))
            = Some (bytes f (curPosition f + k),
                    mkSdFile (bytes f) (len f) (curPosition f + (k + 1)) (name f))).
  { intros k Hk. unfold read. cbn [curPosition len bytes name].
    replace (0 <=? curPosition f + k) with true by (symmetry; apply Z.leb_le; lia).
    replace (curPosition f + k <? len f) with true
      by (symmetry; apply Z.ltb_lt; lia).
    rewrite Z.add_assoc. reflexivity. }
  assert (Hf : f = mkSdFile (bytes f) (len f) (curPosition f + 0) (name f))
    by (destruct f; cbn; rewrite Z.add_0_r; reflexivity).
  unfold read_long. cbv zeta. rewrite Hf at 1.
  rewrite (bind_eq _ _ _ _ _ (Hr 0 ltac:(lia))).
  rewrite (bind_eq _ _ _ _ _ (Hr 1 ltac:(lia))).
  rewrite (bind_eq _ _ _ _ _ (Hr 2 ltac:(lia))).
  rewrite (bind_eq _ _ _ _ _ (Hr 3 ltac:(lia))).
  rewrite Z.add_0_r. rewrite to_ulong_sum. reflexivity.
Qed.

(** With the second byte below 0x80, so that its product with 256 fits an
    [int], the value is the little-endian one exactly when the two high
    bytes are zero. *)
Lemma read_long_little_endian b0 b1 b2 b3 :
  0 <= b0 < 256 -> 0 <= b1 < 128 -> 0 <= b2 < 256 -> 0 <= b3 < 256 ->
  to_ulong (b0 + to_int (b1 * 256) + to_int (b2 * 512) + to_int (b3 * 768))
  = little_endian b0 b1 b2 b3
  <-> b2 = 0 /\ b3 = 0.
Proof.
  intros H0 H1 H2 H3. unfold little_endian.
  change (2 ^ 8) with 256. change (2 ^ 16) with 65536.
  change (2 ^ 24) with 16777216.
  rewrite (to_int_small (b1 * 256)) by lia.
  pose proof (to_int_range (b2 * 512)) as R2.
  pose proof (to_int_range (b3 * 768)) as R3.
  split.
  - intros E.
    assert (E3 : b3 = 0 \/ b3 = 255).
    { unfold to_ulong in E.
      pose proof (Z.mod_pos_bound
                    (b0 + b1 * 256 + to_int (b2 * 512) + to_int (b3 * 768))
                    4294967296 ltac:(lia)) as Hm.
      destruct (Z_lt_le_dec
                  (b0 + b1 * 256 + to_int (b2 * 512) + to_int (b3 * 768)) 0)
        as [Hneg | Hpos].
      - replace (b0 + b1 * 256 + to_int (b2 * 512) + to_int (b3 * 768))
          with (b0 + b1 * 256 + to_int (b2 * 512) + to_int (b3 * 768)
                + 4294967296 + (-1) * 4294967296) in E by lia.
        rewrite Z.mod_add in E by lia. rewrite Z.mod_small in E by lia. lia.
      - rewrite Z.mod_small in E by lia. lia. }
    destruct E3 as [-> | ->].
    + change (to_int (0 * 768)) with 0 in *.
      unfold to_ulong in E.
      destruct (Z_lt_le_dec (b0 + b1 * 256 + to_int (b2 * 512) + 0) 0)
        as [Hneg | Hpos].
      * replace (b0 + b1 * 256 + to_int (b2 * 512) + 0)
          with (b0 + b1 * 256 + to_int (b2 * 512) + 0
                + 4294967296 + (-1) * 4294967296) in E by lia.
        rewrite Z.mod_add in E by lia. rewrite Z.mod_small in E by lia. lia.
      * rewrite Z.mod_small in E by lia.
        assert (b2 = 0) by lia. auto.
    + change (to_int (255 * 768)) with (-768) in *.
      unfold to_ulong in E.
      destruct (Z_lt_le_dec (b0 + b1 * 256 + to_int (b2 * 512) + -768) 0)
        as [Hneg | Hpos].
      * replace (b0 + b1 * 256 + to_int (b2 * 512) + -768)
          with (b0 + b1 * 256 + to_int (b2 * 512) + -768
                + 4294967296 + (-1) * 4294967296) in E by lia.
        rewrite Z.mod_add in E by lia. rewrite Z.mod_small in E by lia.
        assert (Hb2 : b2 = 255) by lia. subst b2.
        change (to_int (255 * 512)) with (-512) in E. lia.
      * rewrite Z.mod_small in E by lia. lia.
  - intros [-> ->]. change (to_int (0 * 512)) with 0.
    change (to_int (0 * 768)) with 0. apply to_ulong_small. lia.
Qed.

(** C3: the theorem at the first read of [pro_image], whose phantom flip
    starts cleared. *)
Lemma phantomFlip_alternates_witness :
  exists d' s',
    getSectorData (H := ape) 1 pro_image pro_store = Some (d', s')
    /\ m_phantomFlip pro_image = false /\ m_phantomFlip d' = true.
Proof.
  destruct (phantomFlip_alternates (H := ape) 1 pro_image pro_store 0 pro_file)
    as (d' & s' & Hg & Hflip);
    [vm_compute; reflexivity | vm_compute; reflexivity |].
  exists d', s'. split; [exact Hg|]. split; [vm_compute; reflexivity|].
  rewrite Hflip. vm_compute. reflexivity.
Defined.

(** C4: the code at [atx_file].  The start offset of its first sector entry
    is stored as the bytes 00 00 01 00, which is 65536 in little-endian
    order; the directory starts at byte 32; the index built by the attach
    places the sector at 32 + 512. *)
Theorem ATX_offset_not_little_endian :
  map (bytes atx_file) [68; 69; 70; 71] = [0; 0; 1; 0]
  /\ little_endian 0 0 1 0 = 65536
  /\ attach atx_file fresh = Some (true, atx_image, atx_store)
  /\ fileIndex (m_sectorHeaders atx_image 0) = 32 + 512
  /\ fileIndex (m_sectorHeaders atx_image 0) <> 32 + little_endian 0 0 1 0.
Proof.
  split; [vm_compute; reflexivity|]. split; [vm_compute; reflexivity|].
  split; [vm_compute; reflexivity|]. split; [vm_compute; reflexivity|].
  vm_compute. discriminate.
Qed.

(** C5: the amended claim at sector 5 of [atx_image], whose index holds the
    first sector of each track only. *)
Lemma ATX_missing_sector_witness :
  exists d' s',
    getSectorData (H := ape) 5 atx_image atx_store = Some (d', s')
    /\ error (m_sectorBuffer d') = true
    /\ hardwareStatus (statusFrame (m_sectorBuffer d')) = 0xF7.
Proof.
  assert (Hf : exists f, atx_store !! 0%nat = Some f)
    by (eexists; vm_compute; reflexivity).
  destruct Hf as [f Hf].
  destruct (ATX_missing_sector (H := ape) 5 atx_image atx_store 0 f)
    as (d' & s' & Hg & He & _ & Hh & _).
  - vm_compute. reflexivity.
  - exact Hf.
  - vm_compute. reflexivity.
  - vm_compute. discriminate.
  - intros i Hi Hpop.
    exact (all_slots_ne (m_sectorHeaders atx_image) (to_ulong (5 - 1))
             ltac:(vm_compute; reflexivity) i Hi).
  - exists d', s'. auto.
Defined.

(** C5: the claim fails at sector 60001 of [atx_empty_image].  Every slot of
    its index holds the sentinel, so no populated slot holds the sector.
    The search stops at slot 0, whose status and offset are still those of
    the image attached before, and the read reports no error and the
    hardware status 0xFF. *)
Lemma ATX_sentinel_sector_found :
  getType atx_empty_image = TYPE_ATX
  /\ (forall i, 0 <= i < 720 ->
        sectorNumber (m_sectorHeaders atx_empty_image i) = 60000)
  /\ exists p,
       sector_read 60001 atx_empty_image atx_empty_store = Some p
       /\ error p = false
       /\ hardwareStatus (statusFrame p) = 0xFF.
Proof.
  split; [vm_compute; reflexivity|]. split.
  - intros i Hi.
    exact (all_slots_eq (m_sectorHeaders atx_empty_image) 60000
             ltac:(vm_compute; reflexivity) i Hi).
  - destruct (sector_read 60001 atx_empty_image atx_empty_store)
      as [p|] eqn:Hr; [|vm_compute in Hr; discriminate Hr].
    exists p. split; [reflexivity|].
    vm_compute in Hr. injection Hr as <-. split; reflexivity.
Qed.

(** C6: the amended claim at [xfd_file], which is classified as XFD. *)
Lemma XFD_classification_witness :
  exists d' s', attach xfd_file fresh = Some (true, d', s')
                /\ getType d' = TYPE_XFD.
Proof.
  apply (proj2 (XFD_classification (H := ape) 0 fresh {[ 0%nat := xfd_file ]}
                  xfd_file (lookup_only xfd_file))).
  - vm_compute. reflexivity.
  - vm_compute. reflexivity.
  - vm_compute. reflexivity.
  - simpl. lia.
  - left. vm_compute. reflexivity.
  - vm_compute. reflexivity.
Defined.

(** C6: the claim fails at [xfd_mixed_file].  Its extension is .xfd up to
    case and its size is that of a single-density disk, and the attach
    fails. *)
Lemma XFD_mixed_case_refused :
  lower (extension_of (name xfd_mixed_file)) = ".xfd"%string
  /\ fileSize xfd_mixed_file = FORMAT_SS_SD_40
  /\ exists d' s', attach xfd_mixed_file fresh = Some (false, d', s').
Proof.
  split; [vm_compute; reflexivity|]. split; [vm_compute; reflexivity|].
  exists (attached xfd_mixed_file fresh), (store_after xfd_mixed_file fresh).
  vm_compute. reflexivity.
Qed.

(** C7: the theorem at [pro_image]. *)
Lemma read_only_write_witness :
  writeSectorData 1 (repeat 0 128) 128 pro_image pro_store
  = Some (0, pro_store).
Proof.
  apply (read_only_write (H := ape) 1 (repeat 0 128) 128 pro_image pro_store
           pro_image_is_image).
  - vm_compute. reflexivity.
  - right. vm_compute. reflexivity.
Defined.

(** C8: the amended claim at [unknown_file]. *)
Lemma failed_attach_witness :
  hasImage (attached unknown_file fresh) = false
  /\ attached unknown_file fresh
     = set_fileSize (fileSize unknown_file) (set_fileRef None fresh).
Proof.
  apply (failed_attach (H := ape) 0 fresh {[ 0%nat := unknown_file ]}
           unknown_file (attached unknown_file fresh)
           (store_after unknown_file fresh) (lookup_only unknown_file)).
  vm_compute. reflexivity.
Defined.

(** C8: the claim fails at [unknown_file].  The attach fails, and
    isEnhancedDensity(), false before the call, is true after it. *)
Lemma failed_attach_changes_fileSize :
  isEnhancedDensity (H := ape) fresh = false
  /\ exists d' s',
       attach unknown_file fresh = Some (false, d', s')
       /\ isEnhancedDensity (H := ape) d' = true.
Proof.
  split; [vm_compute; reflexivity|].
  exists (attached unknown_file fresh), (store_after unknown_file fresh).
  split; vm_compute; reflexivity.
Qed.


(** C10: the theorem at [atx_empty_file], of 133136 bytes, attached to the
    object that held [atr_file]: headerSize stays 16, and the image counts
    as enhanced density. *)
Lemma ATX_attach_keeps_headerSize_witness :
  m_headerSize (attached atx_empty_file atr_image) = 16
  /\ isEnhancedDensity (H := ape) (attached atx_empty_file atr_image) = true.
Proof.
  assert (Ha : attach atx_empty_file atr_image
               = Some (true, attached atx_empty_file atr_image,
                       store_after atx_empty_file atr_image))
    by (vm_compute; reflexivity).
  assert (Ht : getType (attached atx_empty_file atr_image) = TYPE_ATX)
    by (vm_compute; reflexivity).
  destruct (ATX_attach_keeps_headerSize (H := ape) 0 atr_image
              {[ 0%nat := atx_empty_file ]} atx_empty_file
              (attached atx_empty_file atr_image)
              (store_after atx_empty_file atr_image)
              (lookup_only atx_empty_file) Ha Ht)
    as (Hh & _ & _ & _ & _ & He & _).
  split.
  - rewrite Hh. vm_compute. reflexivity.
  - rewrite He. vm_compute. reflexivity.
Defined.

(** The same file attached to a fresh object, whose headerSize is 0, does
    not count as enhanced density. *)
Lemma ATX_density_depends_on_earlier_headerSize :
  isEnhancedDensity (H := ape) (attached atx_empty_file atr_image) = true
  /\ isEnhancedDensity (H := ape) (attached atx_empty_file fresh) = false.
Proof. split; vm_compute; reflexivity. Qed.

(** * Further properties *)

(** ** Reads and seeks on a file *)

Lemma window_same f g off n :
  bytes g = bytes f -> len g = len f -> window g off n = window f off n.
Proof.
  intros Hb Hl. revert off. induction n as [|n IH]; intros off; [reflexivity|].
  cbn [window]. unfold byte_at. rewrite Hb, Hl, IH. reflexivity.
Qed.

Lemma window_past f off n : len f <= off -> window f off n = repeat 255 n.
Proof.
  revert off. induction n as [|n IH]; intros off Ho; [reflexivity|].
  cbn [window repeat]. rewrite IH by lia. unfold byte_at.
  replace (off <? len f) with false by (symmetry; apply Z.ltb_ge; lia).
  reflexivity.
Qed.

Lemma window_length f off n : List.length (window f off n) = n.
Proof.
  revert off. induction n as [|n IH]; intros off; [reflexivity|].
  cbn [window List.length]. rewrite IH. reflexivity.
Qed.

Lemma window_nth f n : forall off k,
  (k < n)%nat -> nth k (window f off n) 0 = byte_at f (off + Z.of_nat k).
Proof.
  induction n as [|n IH]; intros off k Hk; [lia|].
  destruct k as [|k]; cbn [window nth].
  - rewrite Z.add_0_r. reflexivity.
  - rewrite IH by lia. f_equal. lia.
Qed.

Lemma window_range f off n : Forall (fun b => 0 <= b < 256) (window f off n).
Proof.
  revert off. induction n as [|n IH]; intros off; constructor; [|apply IH].
  unfold byte_at. destruct (off <? len f); [apply to_byte_range | lia].
Qed.

(** A list is the window at [off] when it holds its bytes one by one. *)
Lemma window_eq f (l : list Z) : forall off,
  (forall k, (k < List.length l)%nat -> byte_at f (off + Z.of_nat k) = nth k l 0) ->
  window f off (List.length l) = l.
Proof.
  induction l as [|b l IH]; intros off Hk; [reflexivity|].
  cbn [List.length window]. f_equal.
  - specialize (Hk 0%nat ltac:(cbn; lia)). rewrite Z.add_0_r in Hk. exact Hk.
  - apply IH. intros k Hlt. specialize (Hk (S k) ltac:(cbn; lia)).
    cbn [nth] in Hk. rewrite <- Hk. f_equal. lia.
Qed.

Lemma file_eta f :
  mkSdFile (bytes f) (len f) (curPosition f) (name f) = f.
Proof. destruct f. reflexivity. Qed.

Lemma seekSet_eq p f :
  seekSet p f =
    Some ((0 <=? p) && (p <=? len f),
          mkSdFile (bytes f) (len f) (seek_to p f) (name f)).
Proof.
  unfold seekSet, seek_to. destruct (_ && _); [reflexivity|].
  rewrite file_eta. reflexivity.
Qed.

Lemma seek_to_wf p f : wf_file f -> 0 <= seek_to p f <= len f.
Proof.
  unfold wf_file, seek_to. intros Hwf.
  destruct ((0 <=? p) && (p <=? len f)) eqn:E; [|exact Hwf].
  apply andb_true_iff in E as [E1 E2]. apply Z.leb_le in E1, E2. lia.
Qed.

(** What [n] reads store and where they leave the file: the end of the
    file stops the position, and each read there gives 0xFF. *)
Lemma read_bytes_window n : forall f,
  0 <= curPosition f <= len f ->
  read_bytes n f =
    Some (window f (curPosition f) n,
          mkSdFile (bytes f) (len f)
            (Z.min (curPosition f + Z.of_nat n) (len f)) (name f)).
Proof.
  induction n as [|n IH]; intros f Hwf.
  - cbn [read_bytes window]. unfold ret.
    replace (Z.min (curPosition f + Z.of_nat 0) (len f)) with (curPosition f)
      by lia.
    rewrite file_eta. reflexivity.
  - cbn [read_bytes window].
    destruct (Z.eq_dec (curPosition f) (len f)) as [Heq | Hne].
    + assert (Hr : read f = Some (-1, f)).
      { unfold read.
        replace (curPosition f <? len f) with false
          by (symmetry; apply Z.ltb_ge; lia).
        rewrite andb_false_r. reflexivity. }
      rewrite (bind_eq _ _ _ _ _ Hr), (bind_eq _ _ _ _ _ (IH f Hwf)).
      unfold ret. rewrite !window_past by lia.
      unfold byte_at.
      replace (curPosition f <? len f) with false
        by (symmetry; apply Z.ltb_ge; lia).
      change (to_byte (-1)) with 255.
      replace (Z.min (curPosition f + Z.of_nat (S n)) (len f))
        with (Z.min (curPosition f + Z.of_nat n) (len f)) by lia.
      reflexivity.
    + set (f1 := mkSdFile (bytes f) (len f) (curPosition f + 1) (name f)).
      assert (Hr : read f = Some (bytes f (curPosition f), f1)).
      { unfold read.
        replace (0 <=? curPosition f) with true
          by (symmetry; apply Z.leb_le; lia).
        replace (curPosition f <? len f) with true
          by (symmetry; apply Z.ltb_lt; lia).
        reflexivity. }
      assert (Hwf1 : 0 <= curPosition f1 <= len f1) by (cbn; lia).
      rewrite (bind_eq _ _ _ _ _ Hr), (bind_eq _ _ _ _ _ (IH f1 Hwf1)).
      unfold ret. cbn [bytes len curPosition name f1].
      rewrite (window_same f f1) by reflexivity.
      unfold byte_at at 1.
      replace (curPosition f <? len f) with true
        by (symmetry; apply Z.ltb_lt; lia).
      replace (Z.min (curPosition f + 1 + Z.of_nat n) (len f))
        with (Z.min (curPosition f + Z.of_nat (S n)) (len f)) by lia.
      reflexivity.
Qed.

(** ** Reading a sector of an ATR or XFD image *)

Section PlainRead.
Context {H : disk_image_h}.

(** The object and the file a read of an ATR or XFD image leaves. *)
Lemma getSectorData_plain sector d s p f :
  m_fileRef d = Some p -> s !! p = Some f -> wf_file f ->
  m_type d = TYPE_ATR \/ m_type d = TYPE_XFD ->
  let at_ := seek_to (plain_offset d sector) f in
  let n := Z.to_nat (m_sectorSize d) in
  getSectorData sector d s =
    Some (set_sectorBuffer
            (set_data (window f at_ n)
               (set_validStatusFrame false
                  (set_error false
                     (set_length (m_sectorSize d) (m_sectorBuffer d)))))
            d,
          <[p := mkSdFile (bytes f) (len f)
                   (Z.min (at_ + Z.of_nat n) (len f)) (name f)]> s).
Proof.
  intros Hp Hf Hwf Ht. unfold plain_offset in *.
  set (off := to_ulong (m_headerSize d + (sector - 1) * m_sectorSize d)).
  set (f1 := mkSdFile (bytes f) (len f) (seek_to off f) (name f)).
  assert (Hwf1 : 0 <= curPosition f1 <= len f1)
    by (change (0 <= seek_to off f <= len f); apply seek_to_wf; exact Hwf).
  pose proof (read_bytes_window (Z.to_nat (m_sectorSize d)) f1 Hwf1) as Hrd.
  rewrite (window_same f f1) in Hrd by reflexivity.
  cbn [curPosition f1 bytes len name] in Hrd.
  cbv zeta. unfold getSectorData, on_file. rewrite Hp, Hf. cbv zeta. fields.
  assert (Hbranch :
    forall b : SectorPacket,
      (seekSet off ;; ret (set_sectorBuffer b d)) f
      = Some (set_sectorBuffer b d, f1)).
  { intros b. rewrite (bind_eq _ _ _ _ _ (seekSet_eq off f)). reflexivity. }
  destruct Ht as [Ht | Ht]; rewrite Ht; fold off;
    rewrite (bind_eq _ _ _ _ _ (Hbranch _)); fields;
    rewrite (bind_eq _ _ _ _ _ Hrd); unfold ret; reflexivity.
Qed.


End PlainRead.

(** ** Writing a sector *)

(** The file a buffer written at the position leaves. *)
Lemma write_buf_file l : forall f,
  curPosition f <= len f ->
  exists f',
    write_buf l f = Some (Z.of_nat (List.length l), f')
    /\ curPosition f' = curPosition f + Z.of_nat (List.length l)
    /\ len f' = Z.max (len f) (curPosition f + Z.of_nat (List.length l))
    /\ name f' = name f
    /\ forall i,
         bytes f' i =
           if (curPosition f <=? i)
              && (i <? curPosition f + Z.of_nat (List.length l))
           then to_byte (nth (Z.to_nat (i - curPosition f)) l 0)
           else bytes f i.
Proof.
  induction l as [|b l IH]; intros f Hpos.
  - exists f. cbn [write_buf List.length]. unfold ret.
    repeat split; try lia. intros i.
    replace ((curPosition f <=? i) && (i <? curPosition f + Z.of_nat 0))
      with false; [reflexivity|].
    symmetry. apply andb_false_iff.
    destruct (Z.leb_spec (curPosition f) i); [right; apply Z.ltb_ge; lia | auto].
  - set (f1 := mkSdFile (fun i => if i =? curPosition f then to_byte b
                                  else bytes f i)
                 (Z.max (len f) (curPosition f + 1))
                 (curPosition f + 1) (name f)).
    destruct (IH f1) as (f' & Hw & Hp' & Hl' & Hn' & Hb'); [cbn; lia|].
    cbn [curPosition len name bytes f1] in Hp', Hl', Hn', Hb'.
    exists f'. cbn [write_buf List.length].
    assert (Hw1 : write b f = Some (1, f1)) by reflexivity.
    rewrite (bind_eq _ _ _ _ _ Hw1), (bind_eq _ _ _ _ _ Hw). unfold ret.
    split; [f_equal; f_equal; lia|].
    split; [lia|]. split; [lia|]. split; [exact Hn'|].
    intros i. rewrite Hb'.
    destruct (Z.eq_dec i (curPosition f)) as [-> | Hne].
    + replace (curPosition f + 1 <=? curPosition f) with false
        by (symmetry; apply Z.leb_gt; lia).
      rewrite Z.leb_refl.
      replace (curPosition f <? curPosition f + Z.of_nat (S (List.length l)))
        with true by (symmetry; apply Z.ltb_lt; lia).
      cbn [andb]. rewrite Z.eqb_refl, Z.sub_diag. reflexivity.
    + replace (i =? curPosition f) with false
        by (symmetry; apply Z.eqb_neq; exact Hne).
      destruct (Z.leb_spec (curPosition f + 1) i) as [Hge | Hlt].
      * replace (curPosition f <=? i) with true
          by (symmetry; apply Z.leb_le; lia).
        replace (i <? curPosition f + Z.of_nat (S (List.length l)))
          with (i <? curPosition f + 1 + Z.of_nat (List.length l))
          by (f_equal; lia).
        cbn [andb]. destruct (i <? _); [|reflexivity].
        replace (Z.to_nat (i - curPosition f))
          with (S (Z.to_nat (i - (curPosition f + 1)))) by lia.
        reflexivity.
      * replace (curPosition f <=? i) with false
          by (symmetry; apply Z.leb_gt; lia).
        reflexivity.
Qed.

Section Writing.
Context {H : disk_image_h}.

(** The file a write to a writable image leaves. *)
Lemma writeSectorData_file sector buf n d s p f :
  m_readOnly d = false -> m_fileRef d = Some p -> s !! p = Some f ->
  wf_file f ->
  0 <= n <= Z.of_nat (List.length buf) ->
  let at_ := seek_to (plain_offset d sector) f in
  exists f',
    writeSectorData sector buf n d s = Some (n, <[p := f']> s)
    /\ curPosition f' = at_ + n
    /\ len f' = Z.max (len f) (at_ + n)
    /\ name f' = name f
    /\ forall i,
         bytes f' i =
           if (at_ <=? i) && (i <? at_ + n)
           then to_byte (nth (Z.to_nat (i - at_)) buf 0)
           else bytes f i.
Proof.
  intros Hro Hp Hf Hwf Hn at_.
  set (f1 := mkSdFile (bytes f) (len f) at_ (name f)).
  assert (Hat : 0 <= at_ <= len f) by (apply seek_to_wf; exact Hwf).
  destruct (write_buf_file (firstn (Z.to_nat n) buf) f1)
    as (f' & Hw & Hp' & Hl' & Hn' & Hb'); [cbn; lia|].
  assert (Hlen : Z.of_nat (List.length (firstn (Z.to_nat n) buf)) = n)
    by (rewrite length_firstn; lia).
  rewrite Hlen in *. cbn [curPosition len name bytes f1] in Hp', Hl', Hn', Hb'.
  exists f'. unfold writeSectorData, on_file. rewrite Hro, Hp, Hf.
  cbn [negb]. replace (n <=? Z.of_nat (List.length buf)) with true
    by (symmetry; apply Z.leb_le; lia).
  cbv zeta. fold (plain_offset d sector).
  rewrite (bind_eq _ _ _ _ _ (seekSet_eq _ f)). fold at_. fold f1.
  rewrite Hw. repeat split; try assumption.
  intros i. rewrite Hb'.
  destruct ((at_ <=? i) && (i <? at_ + n)) eqn:E; [|reflexivity].
  apply andb_true_iff in E as [E1 E2]. apply Z.leb_le in E1. apply Z.ltb_lt in E2.
  rewrite nth_firstn.
  replace (Z.to_nat (i - at_) <? Z.to_nat n)%nat with true
    by (symmetry; apply Nat.ltb_lt; lia).
  reflexivity.
Qed.

(** X2.  On a writable image, writeSector reports the number of bytes it
    was given and stores them at headerSize + (sector - 1) * sectorSize,
    growing the file when they reach past its end and leaving every other
    byte as it was.  When that offset lies past the end of the file the
    seek fails unnoticed, and the bytes are stored at the position the
    file had. *)
Theorem write_lands sector buf n d s p f :
  isReadOnly d = false -> m_fileRef d = Some p -> s !! p = Some f ->
  wf_file f ->
  0 <= n <= Z.of_nat (List.length buf) ->
  exists f',
    writeSectorData sector buf n d s = Some (n, <[p := f']> s)
    /\ len f' = Z.max (len f) (seek_to (plain_offset d sector) f + n)
    /\ forall i,
         bytes f' i =
           if (seek_to (plain_offset d sector) f <=? i)
              && (i <? seek_to (plain_offset d sector) f + n)
           then to_byte (nth (Z.to_nat (i - seek_to (plain_offset d sector) f))
                           buf 0)
           else bytes f i.
Proof.
  intros Hro Hp Hf Hwf Hn.
  destruct (writeSectorData_file sector buf n d s p f Hro Hp Hf Hwf Hn)
    as (f' & Hw & _ & Hl & _ & Hb).
  exists f'. auto.
Qed.

(** The bytes of a sector after a write of whole sectors elsewhere or
    there. *)
Lemma window_after_write f f' at_ (buf : list Z) off :
  0 <= at_ -> 0 <= off ->
  len f' = Z.max (len f) (at_ + Z.of_nat (List.length buf)) ->
  (forall i,
     bytes f' i =
       if (at_ <=? i) && (i <? at_ + Z.of_nat (List.length buf))
       then to_byte (nth (Z.to_nat (i - at_)) buf 0)
       else bytes f i) ->
  (Forall (fun b => 0 <= b < 256) buf -> off = at_ ->
   window f' off (List.length buf) = buf)
  /\ (off + Z.of_nat (List.length buf) <= at_
      \/ at_ + Z.of_nat (List.length buf) <= off ->
      off + Z.of_nat (List.length buf) <= len f ->
      window f' off (List.length buf) = window f off (List.length buf)).
Proof.
  intros Hat Hoff Hl Hb. split.
  - intros Hr ->. apply window_eq. intros k Hk. unfold byte_at.
    replace (at_ + Z.of_nat k <? len f') with true
      by (symmetry; apply Z.ltb_lt; lia).
    rewrite Hb.
    replace ((at_ <=? at_ + Z.of_nat k)
             && (at_ + Z.of_nat k <? at_ + Z.of_nat (List.length buf)))
      with true
      by (symmetry; apply andb_true_iff; split;
          [apply Z.leb_le | apply Z.ltb_lt]; lia).
    replace (Z.to_nat (at_ + Z.of_nat k - at_)) with k by lia.
    unfold to_byte. rewrite Z.mod_mod by lia.
    apply Z.mod_small. apply nth_range. exact Hr.
  - intros Hdis Hin.
    rewrite <- (window_length f off (List.length buf)) at 1.
    apply window_eq. rewrite window_length. intros k Hk.
    rewrite window_nth by exact Hk. unfold byte_at.
    replace (off + Z.of_nat k <? len f') with true
      by (symmetry; apply Z.ltb_lt; lia).
    replace (off + Z.of_nat k <? len f) with true
      by (symmetry; apply Z.ltb_lt; lia).
    rewrite Hb.
    replace ((at_ <=? off + Z.of_nat k)
             && (off + Z.of_nat k <? at_ + Z.of_nat (List.length buf)))
      with false; [reflexivity|].
    symmetry. apply andb_false_iff.
    destruct Hdis; [left; apply Z.leb_gt | right; apply Z.ltb_ge]; lia.
Qed.

Lemma seek_to_in p f : 0 <= p <= len f -> seek_to p f = p.
Proof.
  intros Hp. unfold seek_to.
  replace (0 <=? p) with true by (symmetry; apply Z.leb_le; lia).
  replace (p <=? len f) with true by (symmetry; apply Z.leb_le; lia).
  reflexivity.
Qed.



(** X4.  On a writable ATR or XFD image, a sector written whole leaves the
    other sectors of the file as they were: readSector of another sector
    returns after the write what it returned before. *)
Theorem write_keeps_other_sectors sector other buf d s p f :
  isReadOnly d = false -> m_fileRef d = Some p -> s !! p = Some f ->
  wf_file f ->
  getType d = TYPE_ATR \/ getType d = TYPE_XFD ->
  Z.of_nat (List.length buf) = getSectorSize d ->
  0 <= m_headerSize d -> len f < 4294967296 ->
  1 <= sector -> 1 <= other -> sector <> other ->
  m_headerSize d + sector * getSectorSize d <= len f ->
  m_headerSize d + other * getSectorSize d <= len f ->
  exists d0 s0 s1 d2 s2,
    getSectorData other d s = Some (d0, s0)
    /\ writeSectorData sector buf (getSectorSize d) d s
       = Some (getSectorSize d, s1)
    /\ getSectorData other d s1 = Some (d2, s2)
    /\ data (m_sectorBuffer d2) = data (m_sectorBuffer d0).
Proof.
  intros Hro Hp Hf Hwf Ht Hn Hh Hlen Hs Ho Hne Hin Hin'.
  unfold isReadOnly, getType, getSectorSize in *.
  set (z := m_sectorSize d) in *.
  assert (Hz : 0 <= z) by lia.
  assert (Hoff : forall k, 1 <= k -> m_headerSize d + k * z <= len f ->
            plain_offset d k = m_headerSize d + (k - 1) * z).
  { intros k Hk Hkin. unfold plain_offset. fold z. apply to_ulong_small. nia. }
  pose proof (Hoff sector Hs Hin) as Es. pose proof (Hoff other Ho Hin') as Eo.
  destruct (writeSectorData_file sector buf z d s p f Hro Hp Hf Hwf ltac:(lia))
    as (f' & Hw & Hp' & Hl' & _ & Hb').
  rewrite (seek_to_in _ f) in Hp', Hl', Hb' by nia.
  assert (Hwf' : wf_file f') by (unfold wf_file; nia).
  pose proof (getSectorData_plain other d s p f Hp Hf Hwf Ht) as Hg0.
  pose proof (getSectorData_plain other d (<[p := f']> s) p f' Hp
                (lookup_insert_eq _ _ _) Hwf' Ht) as Hg.
  cbv zeta in Hg0, Hg. fold z in Hg0, Hg.
  rewrite (seek_to_in _ f) in Hg0 by nia.
  rewrite (seek_to_in _ f') in Hg by nia.
  do 5 eexists. split; [exact Hg0|]. split; [exact Hw|]. split; [exact Hg|].
  fields. rewrite <- Hn in *. rewrite Nat2Z.id.
  apply (proj2 (window_after_write f f' (plain_offset d sector) buf
                  (plain_offset d other) ltac:(nia) ltac:(nia) Hl' Hb'));
    [|nia].
  destruct (Z.lt_total sector other) as [Hlt | [Heq | Hgt]];
    [right | contradiction | left]; nia.
Qed.

End Writing.

(** ** Reading a sector of a PRO image *)

Lemma bind_assoc {A B C} (c : io A) (k0 : A -> io B) (k : B -> io C) f :
  bind (bind c k0) k f = bind c (fun x => bind (k0 x) k) f.
Proof. unfold bind. destruct (c f) as [[a f1]|]; reflexivity. Qed.

Lemma same_data_window f f' off n :
  same_data f f' -> window f' off n = window f off n.
Proof. intros (Hb & Hl & _). apply window_same; assumption. Qed.

Section ProRead.
Context {H : disk_image_h}.

(** The object and the file a read of a PRO image leaves. *)
Lemma getSectorData_pro sector d s p f :
  m_fileRef d = Some p -> s !! p = Some f -> wf_file f ->
  m_type d = TYPE_PRO ->
  let at0 := seek_to (pro_offset d sector) f in
  let nH := Z.to_nat sizeof_PROSectorHeader in
  let h := window f at0 nH in
  let p1 := Z.min (at0 + Z.of_nat nH) (len f) in
  let err := negb (crcError h) || negb (dataLostOrTrack0 h)
             || negb (recordNotFound h) in
  let redirect := negb err
                  && (m_usePhantoms d && (0 <? totalPhantoms h)
                      && m_phantomFlip d) in
  let at1 := if redirect && (phantom_offset d h <=? len f)
             then phantom_offset d h else p1 in
  exists d' f',
    getSectorData sector d s = Some (d', <[p := f']> s)
    /\ same_data f f' /\ wf_file f'
    /\ data (m_sectorBuffer d') = window f at1 (Z.to_nat (m_sectorSize d))
    /\ error (m_sectorBuffer d') = err
    /\ validStatusFrame (m_sectorBuffer d') = true
    /\ statusFrame (m_sectorBuffer d') = PRO_statusFrame h
    /\ length (m_sectorBuffer d') = m_sectorSize d
    /\ m_proSectorHeader d' = h
    /\ m_phantomFlip d' = negb (m_phantomFlip d)
    /\ m_usePhantoms d' = m_usePhantoms d
    /\ m_fileRef d' = m_fileRef d /\ m_type d' = m_type d
    /\ m_headerSize d' = m_headerSize d /\ m_sectorSize d' = m_sectorSize d.
Proof.
  intros Hp Hf Hwf Ht at0 nH h p1 err redirect at1.
  set (f0 := mkSdFile (bytes f) (len f) at0 (name f)).
  assert (Hat0 : 0 <= at0 <= len f) by (apply seek_to_wf; exact Hwf).
  pose proof (read_bytes_window nH f0 ltac:(cbn; lia)) as Hrh.
  rewrite (window_same f f0) in Hrh by reflexivity.
  cbn [curPosition f0 bytes len name] in Hrh. fold h p1 in Hrh.
  set (f1 := mkSdFile (bytes f) (len f) p1 (name f)) in Hrh.
  assert (Hp1 : 0 <= p1 <= len f) by (unfold p1; lia).
  pose proof (phantom_offset d h) as poff_.
  assert (Hpo : 0 <= phantom_offset d h) by (apply to_ulong_range).
  set (f2 := mkSdFile (bytes f) (len f) at1 (name f)).
  assert (Hat1 : 0 <= at1 <= len f).
  { unfold at1. destruct (redirect && _) eqn:E; [|exact Hp1].
    apply andb_true_iff in E as [_ E]. apply Z.leb_le in E. lia. }
  pose proof (read_bytes_window (Z.to_nat (m_sectorSize d)) f2 ltac:(cbn; lia))
    as Hrd.
  rewrite (window_same f f2) in Hrd by reflexivity.
  cbn [curPosition f2 bytes len name] in Hrd.
  (* the phantom step *)
  assert (Hstep : forall b : SectorPacket,
    (if err then ret (set_error true b)
     else if m_usePhantoms d && (0 <? totalPhantoms h) && m_phantomFlip d
     then seekSet (phantom_offset d h) ;; ret b
     else ret b) f1
    = Some ((if err then set_error true b else b), f2)).
  { intros b. unfold f2, at1, redirect.
    destruct err; cbn [negb andb]; [reflexivity|].
    destruct (m_usePhantoms d && (0 <? totalPhantoms h) && m_phantomFlip d);
      [|reflexivity].
    rewrite (bind_eq _ _ _ _ _ (seekSet_eq _ f1)). unfold ret, seek_to.
    cbn [len curPosition bytes name f1].
    replace (0 <=? phantom_offset d h) with true
      by (symmetry; apply Z.leb_le; exact Hpo).
    cbn [andb]. reflexivity. }
  do 2 eexists. split.
  { unfold getSectorData, on_file. rewrite Hp, Hf. cbv zeta. fields. rewrite Ht.
    fold (pro_offset d sector). fold nH.
    rewrite bind_assoc.
    rewrite (bind_eq _ _ _ _ _ (seekSet_eq (pro_offset d sector) f)).
    fold at0. fold f0.
    rewrite bind_assoc, (bind_eq _ _ _ _ _ Hrh). fields.
    fold (phantom_offset d h). fold err.
    rewrite bind_assoc, (bind_eq _ _ _ _ _ (Hstep _)).
    rewrite (bind_eq _ _ _ _ _ (eq_refl : ret _ f2 = Some (_, f2))). fields.
    rewrite (bind_eq _ _ _ _ _ Hrd). unfold ret. reflexivity. }
  split; [repeat split|]. split; [unfold wf_file; cbn; lia|].
  fields. destruct err; fields; repeat split; assumption.
Qed.

(** X5.  On a PRO image, readSector takes the sector header that precedes
    the payload as the status frame, and reports an error exactly when one
    of the three hardware-status flags of that header is clear.  The data
    come from the phantom copy, slot 720 + phantom1, when there is no
    error, phantoms are in use, the header links at least one phantom and
    phantomFlip is set; in every other case, and after an error, they are
    the payload that follows the header. *)
Theorem pro_read sector d s p f :
  m_fileRef d = Some p -> s !! p = Some f -> wf_file f ->
  getType d = TYPE_PRO ->
  0 <= sizeof_PROSectorHeader ->
  pro_offset d sector + sizeof_PROSectorHeader <= len f ->
  let h := window f (pro_offset d sector) (Z.to_nat sizeof_PROSectorHeader) in
  phantom_offset d h <= len f ->
  exists d' s',
    getSectorData sector d s = Some (d', s')
    /\ statusFrame (m_sectorBuffer d') = PRO_statusFrame h
    /\ validStatusFrame (m_sectorBuffer d') = true
    /\ error (m_sectorBuffer d')
       = negb (crcError h && dataLostOrTrack0 h && recordNotFound h)
    /\ data (m_sectorBuffer d')
       = window f
           (if crcError h && dataLostOrTrack0 h && recordNotFound h
               && m_usePhantoms d && (0 <? totalPhantoms h) && m_phantomFlip d
            then phantom_offset d h
            else pro_offset d sector + sizeof_PROSectorHeader)
           (Z.to_nat (getSectorSize d)).
Proof.
  intros Hp Hf Hwf Ht HH Hin h Hph. unfold getType, getSectorSize in *.
  pose proof (to_ulong_range
    (m_headerSize d + (sector - 1) * (m_sectorSize d + sizeof_PROSectorHeader)))
    as Ho. fold (pro_offset d sector) in Ho.
  destruct (getSectorData_pro sector d s p f Hp Hf Hwf Ht)
    as (d' & f' & Hg & _ & _ & Hd & He & Hv & Hs & _).
  rewrite (seek_to_in _ f) in Hd, He, Hs by lia.
  fold h in Hd, He, Hs.
  exists d', (<[p := f']> s). split; [exact Hg|]. split; [exact Hs|].
  split; [exact Hv|]. split.
  - rewrite He. destruct (crcError h), (dataLostOrTrack0 h), (recordNotFound h);
      reflexivity.
  - rewrite Hd. f_equal.
    replace (phantom_offset d h <=? len f) with true
      by (symmetry; apply Z.leb_le; exact Hph).
    rewrite Z2Nat.id by lia.
    replace (Z.min (pro_offset d sector + sizeof_PROSectorHeader) (len f))
      with (pro_offset d sector + sizeof_PROSectorHeader) by lia.
    destruct (crcError h), (dataLostOrTrack0 h), (recordNotFound h),
      (m_usePhantoms d), (0 <? totalPhantoms h), (m_phantomFlip d);
      reflexivity.
Qed.

(** X6.  On a PRO image that uses phantoms, two successive reads of a good
    sector that links a phantom alternate: with phantomFlip clear, the
    first read returns the payload of the sector itself and the second the
    payload of the phantom copy, and phantomFlip is clear again. *)
Theorem pro_phantom_alternation sector d s p f :
  m_fileRef d = Some p -> s !! p = Some f -> wf_file f ->
  getType d = TYPE_PRO ->
  m_usePhantoms d = true -> m_phantomFlip d = false ->
  0 <= sizeof_PROSectorHeader ->
  pro_offset d sector + sizeof_PROSectorHeader <= len f ->
  let h := window f (pro_offset d sector) (Z.to_nat sizeof_PROSectorHeader) in
  crcError h = true -> dataLostOrTrack0 h = true -> recordNotFound h = true ->
  0 < totalPhantoms h ->
  phantom_offset d h <= len f ->
  exists d1 s1 d2 s2,
    getSectorData sector d s = Some (d1, s1)
    /\ getSectorData sector d1 s1 = Some (d2, s2)
    /\ error (m_sectorBuffer d1) = false
    /\ data (m_sectorBuffer d1)
       = window f (pro_offset d sector + sizeof_PROSectorHeader)
           (Z.to_nat (getSectorSize d))
    /\ error (m_sectorBuffer d2) = false
    /\ data (m_sectorBuffer d2)
       = window f (phantom_offset d h) (Z.to_nat (getSectorSize d))
    /\ m_phantomFlip d2 = false.
Proof.
  intros Hp Hf Hwf Ht Hu Hfl HH Hin h Hc Hl Hr Htp Hph.
  unfold getType, getSectorSize in *.
  pose proof (to_ulong_range
    (m_headerSize d + (sector - 1) * (m_sectorSize d + sizeof_PROSectorHeader)))
    as Ho. fold (pro_offset d sector) in Ho.
  assert (Htp' : (0 <? totalPhantoms h) = true) by (apply Z.ltb_lt; exact Htp).
  assert (Hph' : (phantom_offset d h <=? len f) = true)
    by (apply Z.leb_le; exact Hph).
  assert (Hmin : Z.min (pro_offset d sector
                        + Z.of_nat (Z.to_nat sizeof_PROSectorHeader)) (len f)
                 = pro_offset d sector + sizeof_PROSectorHeader) by lia.
  destruct (getSectorData_pro sector d s p f Hp Hf Hwf Ht)
    as (d1 & f1 & Hg1 & Hsame & Hwf1 & Hd1 & He1 & _ & _ & _ & _
        & Hfl1 & Hu1 & Hp1 & Ht1 & Hh1 & Hz1).
  rewrite (seek_to_in _ f) in Hd1, He1 by lia. fold h in Hd1, He1.
  rewrite Hc, Hl, Hr, Hu, Htp', Hfl, Hmin in Hd1. cbn in Hd1, He1.
  rewrite Hc, Hl, Hr in He1. cbn in He1.
  assert (Eo : pro_offset d1 sector = pro_offset d sector)
    by (unfold pro_offset; rewrite Hh1, Hz1; reflexivity).
  assert (Ep : phantom_offset d1 h = phantom_offset d h)
    by (unfold phantom_offset; rewrite Hh1, Hz1; reflexivity).
  destruct Hsame as (Hb & Hlen & Hn).
  destruct (getSectorData_pro sector d1 (<[p := f1]> s) p f1
              ltac:(congruence) (lookup_insert_eq _ _ _) Hwf1
              ltac:(congruence))
    as (d2 & f2 & Hg2 & _ & _ & Hd2 & He2 & _ & _ & _ & _ & Hfl2 & _).
  rewrite Eo, (seek_to_in _ f1) in Hd2, He2 by lia.
  rewrite (window_same f f1 (pro_offset d sector)) in Hd2, He2 by assumption.
  fold h in Hd2, He2.
  rewrite (window_same f f1) in Hd2 by assumption.
  rewrite Ep, Hlen, Hz1, Hfl1, Hu1, Hu, Hfl, Hc, Hl, Hr, Htp', Hph' in Hd2.
  rewrite Hc, Hl, Hr in He2. cbn in Hd2, He2.
  rewrite Hfl1, Hfl in Hfl2.
  exists d1, (<[p := f1]> s), d2, (<[p := f2]> (<[p := f1]> s)).
  repeat split; assumption.
Qed.

End ProRead.

(** ** Reading a sector of an ATX image *)

Lemma find_slot_first t key n : forall i ix j,
  i <= j < i + Z.of_nat n ->
  sectorNumber (t j) = key ->
  (forall k, i <= k < j -> sectorNumber (t k) <> key) ->
  find_slot t key false n i ix = j.
Proof.
  induction n as [|n IH]; intros i ix j Hj Hm Hbefore; [lia|].
  cbn [find_slot negb].
  destruct (sectorNumber (t i) =? key) eqn:E.
  - apply Z.eqb_eq in E. destruct (Z.eq_dec i j) as [-> | Hne]; [reflexivity|].
    exfalso. apply (Hbefore i); [lia | exact E].
  - apply Z.eqb_neq in E. apply IH; try assumption.
    + destruct (Z.eq_dec i j) as [-> | Hne]; [contradiction | lia].
    + intros k Hk. apply Hbefore. lia.
Qed.

Lemma find_slot_last t key n : forall i ix j,
  i <= j < i + Z.of_nat n ->
  sectorNumber (t j) = key ->
  (forall k, j < k < i + Z.of_nat n -> sectorNumber (t k) <> key) ->
  find_slot t key true n i ix = j.
Proof.
  induction n as [|n IH]; intros i ix j Hj Hm Hafter; [lia|].
  cbn [find_slot negb].
  destruct (Z.eq_dec i j) as [-> | Hne].
  - rewrite Hm, Z.eqb_refl. apply find_slot_none.
    intros k Hk. apply Hafter. lia.
  - destruct (sectorNumber (t i) =? key); apply IH; try assumption; try lia;
      intros k Hk; apply Hafter; lia.
Qed.

Section AtxRead.
Context {H : disk_image_h}.

(** The object and the file a read of an ATX image leaves. *)
Lemma getSectorData_atx sector d s p f :
  m_fileRef d = Some p -> s !! p = Some f -> wf_file f ->
  m_type d = TYPE_ATX ->
  let t := m_sectorHeaders d in
  let ix := find_slot t (to_ulong (sector - 1)) (m_phantomFlip d) 720 0 (-1) in
  let at_ := if -1 <? ix then seek_to (fileIndex (t ix)) f else 0 in
  exists d' f',
    getSectorData sector d s = Some (d', <[p := f']> s)
    /\ same_data f f' /\ wf_file f'
    /\ data (m_sectorBuffer d') = window f at_ (Z.to_nat (m_sectorSize d))
    /\ error (m_sectorBuffer d')
       = (if -1 <? ix then 0 <? sstatus (t ix) else true)
    /\ validStatusFrame (m_sectorBuffer d') = true
    /\ hardwareStatus (statusFrame (m_sectorBuffer d'))
       = (if -1 <? ix then byte_not (sstatus (t ix)) else 0xF7)
    /\ commandStatus (statusFrame (m_sectorBuffer d')) = 0x10
    /\ timeout_lsb (statusFrame (m_sectorBuffer d')) = 0xE0
    /\ m_phantomFlip d' = negb (m_phantomFlip d)
    /\ m_sectorHeaders d' = m_sectorHeaders d
    /\ m_fileRef d' = m_fileRef d /\ m_type d' = m_type d
    /\ m_sectorSize d' = m_sectorSize d.
Proof.
  intros Hp Hf Hwf Ht. cbv zeta.
  unfold getSectorData, on_file. rewrite Hp, Hf. cbv zeta. fields. rewrite Ht.
  generalize (find_slot (m_sectorHeaders d) (to_ulong (sector - 1))
                (m_phantomFlip d) 720 0 (-1)).
  intros ix.
  set (at_ := if -1 <? ix then seek_to (fileIndex (m_sectorHeaders d ix)) f
              else 0).
  assert (Hat : 0 <= at_ <= len f).
  { unfold at_. destruct (-1 <? ix); [apply seek_to_wf; exact Hwf|].
    unfold wf_file in Hwf. lia. }
  set (f1 := mkSdFile (bytes f) (len f) at_ (name f)).
  pose proof (read_bytes_window (Z.to_nat (m_sectorSize d)) f1 ltac:(cbn; lia))
    as Hrd.
  rewrite (window_same f f1) in Hrd by reflexivity.
  cbn [curPosition f1 bytes len name] in Hrd.
  destruct (-1 <? ix) eqn:E.
  - do 2 eexists. split.
    { rewrite !bind_assoc.
      rewrite (bind_eq _ _ _ _ _ (seekSet_eq (fileIndex (m_sectorHeaders d ix)) f)).
      change (seek_to (fileIndex (m_sectorHeaders d ix)) f) with at_ at 1.
      fold f1.
      rewrite (bind_eq _ _ _ _ _ (eq_refl : ret _ f1 = Some (_, f1))).
      rewrite (bind_eq _ _ _ _ _ (eq_refl : ret _ f1 = Some (_, f1))). fields.
      rewrite (bind_eq _ _ _ _ _ Hrd). unfold ret. reflexivity. }
    split; [repeat split|]. split; [unfold wf_file; cbn; lia|].
    fields.
    destruct (0 <? sstatus _); fields; repeat split; assumption.
  - assert (Hs0 : seekSet 0 f = Some (true, f1))
      by (apply seekSet_in; unfold wf_file in Hwf; lia).
    do 2 eexists. split.
    { rewrite !bind_assoc.
      rewrite (bind_eq _ _ _ _ _ Hs0).
      rewrite (bind_eq _ _ _ _ _ (eq_refl : ret _ f1 = Some (_, f1))).
      rewrite (bind_eq _ _ _ _ _ (eq_refl : ret _ f1 = Some (_, f1))). fields.
      rewrite (bind_eq _ _ _ _ _ Hrd). unfold ret. reflexivity. }
    split; [repeat split|]. split; [unfold wf_file; cbn; lia|].
    fields. repeat split; assumption.
Qed.

(** The slot the search of an ATX read ends on. *)
Lemma find_slot_chosen (t : Z -> ATXSectorHeader) key flip j :
  0 <= j < 720 ->
  sectorNumber (t j) = key ->
  (if flip : bool
   then forall k, j < k < 720 -> sectorNumber (t k) <> key
   else forall k, 0 <= k < j -> sectorNumber (t k) <> key) ->
  find_slot t key flip 720 0 (-1) = j.
Proof.
  intros Hj Hm Hsel. destruct flip.
  - apply find_slot_last; [lia | exact Hm | intros k Hk; apply Hsel; lia].
  - apply find_slot_first; [lia | exact Hm | exact Hsel].
Qed.

(** X7.  On an ATX image, readSector serves the slot of the index that
    holds the sector: the first such slot when phantomFlip is clear, the
    last when it is set.  The data are the sectorSize bytes at the file
    offset of that slot, the error flag is set exactly when its status
    byte is not zero, and the status frame holds the complement of the
    status byte, command status 0x10 and timeout 0xE0. *)
Theorem atx_read sector d s p f j :
  m_fileRef d = Some p -> s !! p = Some f -> wf_file f ->
  getType d = TYPE_ATX ->
  0 <= j < 720 ->
  sectorNumber (m_sectorHeaders d j) = to_ulong (sector - 1) ->
  (if m_phantomFlip d
   then forall k, j < k < 720 ->
          sectorNumber (m_sectorHeaders d k) <> to_ulong (sector - 1)
   else forall k, 0 <= k < j ->
          sectorNumber (m_sectorHeaders d k) <> to_ulong (sector - 1)) ->
  0 <= fileIndex (m_sectorHeaders d j) <= len f ->
  exists d' s',
    getSectorData sector d s = Some (d', s')
    /\ data (m_sectorBuffer d')
       = window f (fileIndex (m_sectorHeaders d j)) (Z.to_nat (getSectorSize d))
    /\ error (m_sectorBuffer d') = (0 <? sstatus (m_sectorHeaders d j))
    /\ validStatusFrame (m_sectorBuffer d') = true
    /\ hardwareStatus (statusFrame (m_sectorBuffer d'))
       = byte_not (sstatus (m_sectorHeaders d j))
    /\ commandStatus (statusFrame (m_sectorBuffer d')) = 0x10
    /\ timeout_lsb (statusFrame (m_sectorBuffer d')) = 0xE0.
Proof.
  intros Hp Hf Hwf Ht Hj Hm Hsel Hfi. unfold getType, getSectorSize in *.
  destruct (getSectorData_atx sector d s p f Hp Hf Hwf Ht)
    as (d' & f' & Hg & _ & _ & Hd & He & Hv & Hh & Hc & Hto & _).
  rewrite (find_slot_chosen _ _ _ j Hj Hm Hsel) in Hd, He, Hh.
  replace (-1 <? j) with true in Hd, He, Hh by (symmetry; apply Z.ltb_lt; lia).
  rewrite (seek_to_in _ f Hfi) in Hd.
  exists d', (<[p := f']> s). repeat split; assumption.
Qed.

(** X8.  On an ATX image whose index holds a sector in several slots, two
    successive reads of the sector alternate: with phantomFlip clear, the
    first read serves the first of these slots and the second the last of
    them, and phantomFlip is clear again. *)
Theorem atx_duplicate_alternation sector d s p f j1 j2 :
  m_fileRef d = Some p -> s !! p = Some f -> wf_file f ->
  getType d = TYPE_ATX ->
  m_phantomFlip d = false ->
  0 <= j1 <= j2 -> j2 < 720 ->
  sectorNumber (m_sectorHeaders d j1) = to_ulong (sector - 1) ->
  sectorNumber (m_sectorHeaders d j2) = to_ulong (sector - 1) ->
  (forall k, 0 <= k < j1 ->
     sectorNumber (m_sectorHeaders d k) <> to_ulong (sector - 1)) ->
  (forall k, j2 < k < 720 ->
     sectorNumber (m_sectorHeaders d k) <> to_ulong (sector - 1)) ->
  0 <= fileIndex (m_sectorHeaders d j1) <= len f ->
  0 <= fileIndex (m_sectorHeaders d j2) <= len f ->
  exists d1 s1 d2 s2,
    getSectorData sector d s = Some (d1, s1)
    /\ getSectorData sector d1 s1 = Some (d2, s2)
    /\ data (m_sectorBuffer d1)
       = window f (fileIndex (m_sectorHeaders d j1)) (Z.to_nat (getSectorSize d))
    /\ hardwareStatus (statusFrame (m_sectorBuffer d1))
       = byte_not (sstatus (m_sectorHeaders d j1))
    /\ data (m_sectorBuffer d2)
       = window f (fileIndex (m_sectorHeaders d j2)) (Z.to_nat (getSectorSize d))
    /\ hardwareStatus (statusFrame (m_sectorBuffer d2))
       = byte_not (sstatus (m_sectorHeaders d j2))
    /\ m_phantomFlip d2 = false.
Proof.
  intros Hp Hf Hwf Ht Hfl Hj Hj2 Hm1 Hm2 Hbefore Hafter Hfi1 Hfi2.
  unfold getType, getSectorSize in *.
  destruct (getSectorData_atx sector d s p f Hp Hf Hwf Ht)
    as (d1 & f1 & Hg1 & Hsame & Hwf1 & Hd1 & _ & _ & Hh1 & _ & _
        & Hfl1 & Ht1 & Hp1 & Hty1 & Hz1).
  rewrite Hfl in Hd1, Hh1, Hfl1.
  rewrite (find_slot_chosen _ _ false j1 ltac:(lia) Hm1 Hbefore) in Hd1, Hh1.
  replace (-1 <? j1) with true in Hd1, Hh1 by (symmetry; apply Z.ltb_lt; lia).
  rewrite (seek_to_in _ f Hfi1) in Hd1.
  destruct Hsame as (Hb & Hlen & Hn).
  destruct (getSectorData_atx sector d1 (<[p := f1]> s) p f1
              ltac:(congruence) (lookup_insert_eq _ _ _) Hwf1
              ltac:(congruence))
    as (d2 & f2 & Hg2 & _ & _ & Hd2 & _ & _ & Hh2 & _ & _ & Hfl2 & _).
  rewrite Ht1, Hfl1 in Hd2, Hh2. rewrite Hz1 in Hd2.
  cbn [negb] in Hd2, Hh2, Hfl1.
  rewrite (find_slot_chosen _ _ true j2 ltac:(lia) Hm2 Hafter) in Hd2, Hh2.
  replace (-1 <? j2) with true in Hd2, Hh2 by (symmetry; apply Z.ltb_lt; lia).
  rewrite (seek_to_in _ f1) in Hd2 by lia.
  rewrite (window_same f f1) in Hd2 by assumption.
  rewrite Hfl1 in Hfl2.
  exists d1, (<[p := f1]> s), d2, (<[p := f2]> (<[p := f1]> s)).
  repeat split; assumption.
Qed.

End AtxRead.

(** ** Operations that only read the file *)

Lemma same_data_refl f : same_data f f.
Proof. repeat split. Qed.

Lemma ro_seekSet f0 p : keeps (same_data f0) (seekSet p).
Proof.
  intros f a f' Hs. unfold seekSet.
  destruct (_ && _); intros [= _ <-]; exact Hs.
Qed.

Lemma ro_read f0 : keeps (same_data f0) read.
Proof.
  intros f a f' Hs. unfold read.
  destruct (_ && _); intros [= _ <-]; exact Hs.
Qed.

Lemma ro_getFilename f0 : keeps (same_data f0) getFilename.
Proof. intros f a f' Hs [= _ <-]. exact Hs. Qed.

Create HintDb io_ro.
#[local] Hint Resolve keeps_ret keeps_undefined keeps_bind keeps_if
  ro_seekSet ro_read ro_getFilename : io_ro.

Lemma ro_skip f0 n : keeps (same_data f0) (skip n).
Proof. induction n; simpl; auto with io_ro. Qed.

Lemma ro_read_bytes f0 n : keeps (same_data f0) (read_bytes n).
Proof. induction n; simpl; auto 10 with io_ro. Qed.

Lemma ro_read_long f0 : keeps (same_data f0) read_long.
Proof. unfold read_long. cbv zeta. auto 10 with io_ro. Qed.

Lemma ro_read_header_size f0 : keeps (same_data f0) read_header_size.
Proof. unfold read_header_size. auto 10 with io_ro. Qed.

#[local] Hint Resolve ro_skip ro_read_bytes ro_read_long
  ro_read_header_size : io_ro.

Lemma ro_read_sectors f0 n : forall i2 trackNumber fileIndex t,
  keeps (same_data f0) (read_sectors n i2 trackNumber fileIndex t).
Proof. induction n; intros; simpl; auto 20 with io_ro. Qed.

#[local] Hint Resolve ro_read_sectors : io_ro.

Lemma ro_read_tracks f0 n : forall fileIndex t,
  keeps (same_data f0) (read_tracks n fileIndex t).
Proof. induction n; intros; simpl; auto 30 with io_ro. Qed.

#[local] Hint Resolve ro_read_tracks : io_ro.

Section ReadOnlyOperations.
Context {H : disk_image_h}.

Lemma ro_loadFile f0 d : keeps (same_data f0) (loadFile d).
Proof. unfold loadFile. cbv zeta. auto 40 with io_ro. Qed.

(** X9.  An attach, whether it succeeds or fails, only reads: the file it
    is given keeps its bytes, its length and its name, and no other file
    of the store is touched. *)
Theorem attach_keeps_files file d s ok d' s' :
  setFile file d s = Some (ok, d', s') ->
  exists f f',
    s !! file = Some f /\ s' = <[file := f']> s /\ same_data f f'.
Proof.
  intros Hs. unfold setFile in Hs.
  apply on_file_Some in Hs as (f & f' & Hf & Hc & ->).
  exists f, f'. split; [exact Hf|]. split; [reflexivity|].
  apply bind_Some in Hc as ([ok1 d1] & f1 & Hl & Hc).
  assert (Hsame : same_data f f1)
    by (eapply ro_loadFile; [apply same_data_refl | exact Hl]).
  simpl in Hc. destruct ok1; injection Hc as; subst; exact Hsame.
Qed.

(** X10.  A read of a sector, of any kind of image, only reads: the file of
    the image keeps its bytes, its length and its name, and no other file
    of the store is touched. *)
Theorem read_keeps_files sector d s d' s' :
  getSectorData sector d s = Some (d', s') ->
  exists p f f',
    m_fileRef d = Some p /\ s !! p = Some f
    /\ s' = <[p := f']> s /\ same_data f f'.
Proof.
  unfold getSectorData. destruct (m_fileRef d) as [p|]; [|discriminate].
  intros Ho. apply on_file_Some in Ho as (f & f' & Hf & Hc & ->).
  exists p, f, f'. repeat split; try assumption; revert Hc;
    match goal with |- ?c f = Some _ -> _ =>
      assert (Hk : keeps (same_data f) c)
        by (cbv zeta; apply keeps_bind;
            [destruct (m_type _); auto 20 with io_ro | auto 10 with io_ro])
    end;
    intros Hc; apply (Hk f d' f' (same_data_refl f) Hc).
Qed.

End ReadOnlyOperations.

(** ** Attaching a file *)

Lemma probe_at_start f :
  0 <= len f -> probe f = Some (window f 0 16, at_start f).
Proof.
  intros Hl. unfold probe.
  rewrite (bind_eq _ _ _ _ _ (seekSet_in 0 f ltac:(lia))).
  pose proof (read_bytes_window 16 (mkSdFile (bytes f) (len f) 0 (name f))
                ltac:(cbn; lia)) as Hr.
  rewrite (bind_eq _ _ _ _ _ Hr). cbn [bytes len curPosition name].
  match goal with |- bind (seekSet 0) _ ?g = _ =>
    rewrite (bind_eq _ _ _ _ _ (seekSet_in 0 g ltac:(cbn; lia))) end.
  unfold ret. cbn [bytes len name]. rewrite (window_same f _) by reflexivity.
  reflexivity.
Qed.

Lemma file_header_window f : 0 <= len f -> file_header f = window f 0 16.
Proof.
  intros Hl. pose proof (probe_total f) as Hp.
  rewrite (probe_at_start f Hl) in Hp. injection Hp as <- _. reflexivity.
Qed.

Lemma rewound_at_start f : 0 <= len f -> rewound f = at_start f.
Proof.
  intros Hl. pose proof (probe_total f) as Hp.
  rewrite (probe_at_start f Hl) in Hp. injection Hp as _ <-. reflexivity.
Qed.

Lemma file_header_nth f k :
  0 <= len f -> (k < 16)%nat ->
  nth k (file_header f) 0 = byte_at f (Z.of_nat k).
Proof.
  intros Hl Hk. rewrite (file_header_window f Hl), window_nth by exact Hk.
  reflexivity.
Qed.

Section Attach.
Context {H : disk_image_h}.

(** X11.  A file that starts with the bytes 0x96 0x02 is attached as an ATR
    image, whatever follows: header of 16 bytes, writable, no copy
    protection, no read delay, and the sector size is the little-endian
    value of bytes 4 and 5 of the file.  The phantom settings of the object
    are left as they were.  A file cut short before byte 4 gets the
    sector size 65535, its missing bytes being read as 0xFF. *)
Theorem attach_ATR file d s f :
  s !! file = Some f -> 0 <= len f ->
  byte_at f 0 = 0x96 -> byte_at f 1 = 0x02 ->
  exists d',
    setFile file d s = Some (true, d', <[file := at_start f]> s)
    /\ getType d' = TYPE_ATR
    /\ hasImage d' = true /\ m_fileSize d' = fileSize f
    /\ m_headerSize d' = 16
    /\ getSectorSize d' = byte_at f 4 + 256 * byte_at f 5
    /\ isReadOnly d' = false /\ hasCopyProtection d' = false
    /\ m_sectorReadDelay d' = 0
    /\ m_usePhantoms d' = m_usePhantoms d
    /\ m_phantomFlip d' = m_phantomFlip d
    /\ (len f <= 4 -> getSectorSize d' = 65535).
Proof.
  intros Hf Hl H0 H1.
  assert (Ha : is_ATR (file_header f) = true).
  { unfold is_ATR, ATR_signature.
    rewrite (file_header_nth f 0 Hl), (file_header_nth f 1 Hl) by lia.
    change (Z.of_nat 0) with 0. change (Z.of_nat 1) with 1.
    rewrite H0, H1. reflexivity. }
  rewrite (setFile_unfold _ _ _ _ Hf).
  rewrite (loadFile_ATR _ f Ha), (rewound_at_start f Hl).
  eexists. split; [reflexivity|].
  unfold getType, hasImage, getSectorSize, isReadOnly, hasCopyProtection.
  fields. unfold ATR_secSize.
  rewrite (file_header_nth f 4 Hl), (file_header_nth f 5 Hl) by lia.
  change (Z.of_nat 4) with 4. change (Z.of_nat 5) with 5.
  repeat split. intros Hshort. unfold byte_at.
  replace (4 <? len f) with false by (symmetry; apply Z.ltb_ge; lia).
  replace (5 <? len f) with false by (symmetry; apply Z.ltb_ge; lia).
  reflexivity.
Qed.

Lemma PSM_distinct_neq :
  PSM_distinct ->
  (forall mode, PSM_plain mode ->
     mode <> PSM_GLOBAL_FLIP_FLOP /\ mode <> PSM_GLOBAL_FLOP_FLIP)
  /\ PSM_GLOBAL_FLIP_FLOP <> PSM_GLOBAL_FLOP_FLIP.
Proof.
  unfold PSM_distinct, PSM_plain. intros Hd.
  repeat match goal with
  | Hn : NoDup (_ :: _) |- _ => inversion_clear Hn
  end.
  repeat match goal with
  | Hn : _ ∉ _ :: _ |- _ => apply not_elem_of_cons in Hn as [? Hn]
  end.
  split.
  - intros mode Hm. split; intros E; rewrite E in Hm; intuition congruence.
  - intros E. intuition congruence.
Qed.

Lemma set_phantom_mode_delay mode d :
  m_sectorReadDelay (set_phantom_mode mode d) = m_sectorReadDelay d.
Proof.
  unfold set_phantom_mode.
  repeat match goal with |- context [if ?b then _ else _] => destruct b end;
    reflexivity.
Qed.

Lemma set_phantom_mode_cases mode d :
  PSM_distinct ->
  (PSM_plain mode ->
   set_phantom_mode mode d = set_usePhantoms false d)
  /\ (mode = PSM_GLOBAL_FLIP_FLOP ->
      set_phantom_mode mode d = set_phantomFlip false (set_usePhantoms true d))
  /\ (mode = PSM_GLOBAL_FLOP_FLIP ->
      set_phantom_mode mode d = set_phantomFlip true (set_usePhantoms true d))
  /\ (~ PSM_plain mode -> mode <> PSM_GLOBAL_FLIP_FLOP ->
      mode <> PSM_GLOBAL_FLOP_FLIP ->
      set_phantom_mode mode d = d).
Proof.
  intros Hd. destruct (PSM_distinct_neq Hd) as [Hplain Hff].
  assert (Hb : ((mode =? PSM_SIMPLE) || (mode =? PSM_MINDSCAPE_SPECIAL)
                || (mode =? PSM_STICKY) || (mode =? PSM_SHIMMERING)
                || (mode =? PSM_REVERSE_SHIMMER)) = true <-> PSM_plain mode).
  { unfold PSM_plain. rewrite !orb_true_iff, !Z.eqb_eq. tauto. }
  unfold set_phantom_mode.
  destruct ((mode =? PSM_SIMPLE) || _ || _ || _ || _) eqn:E.
  - assert (Hpl : PSM_plain mode) by (apply Hb; reflexivity).
    destruct (Hplain mode Hpl) as [N1 N2].
    repeat split; intros; try reflexivity; try contradiction.
  - assert (Hnp : ~ PSM_plain mode)
      by (intros Hp; apply Hb in Hp; discriminate).
    split; [intros; contradiction|]. split; [|split].
    + intros ->. rewrite Z.eqb_refl. reflexivity.
    + intros ->.
      replace (PSM_GLOBAL_FLOP_FLIP =? PSM_GLOBAL_FLIP_FLOP) with false
        by (symmetry; apply Z.eqb_neq; congruence).
      rewrite Z.eqb_refl. reflexivity.
    + intros _ N1 N2.
      replace (mode =? PSM_GLOBAL_FLIP_FLOP) with false
        by (symmetry; apply Z.eqb_neq; exact N1).
      replace (mode =? PSM_GLOBAL_FLOP_FLIP) with false
        by (symmetry; apply Z.eqb_neq; exact N2).
      reflexivity.
Qed.

(** X12.  A file of which the first two bytes are not 0x96 0x02, whose
    header declares fewer than 32768 sectors (high byte below 0x80), that
    many being (fileSize - 16) / (128 + sectorHeaderSize), and carries the
    magic byte 'P', is attached as a PRO image: read-only, copy-protected,
    header of 16 bytes, sectors of 128 bytes, and a read delay of 16 times
    the delay byte of its header; the file is left rewound.  The two
    global modes turn phantoms on and set phantomFlip to false (flip-flop)
    or true (flop-flip); the five plain modes turn phantoms off and leave
    phantomFlip as it was; any other mode leaves both as they were before
    the attach. *)
Theorem attach_PRO file d s f :
  s !! file = Some f -> 0 <= len f ->
  PROFileHeader_fits -> PSM_distinct ->
  ~ (byte_at f 0 = 0x96 /\ byte_at f 1 = 0x02) ->
  byte_at f (Z.of_nat off_sectorCountHi) < 128 ->
  PRO_count f = to_ulong (fileSize f - 16) / (128 + sizeof_PROSectorHeader) ->
  byte_at f (Z.of_nat off_magic) = 80 ->
  exists d',
    setFile file d s = Some (true, d', <[file := at_start f]> s)
    /\ getType d' = TYPE_PRO /\ hasImage d' = true
    /\ m_fileSize d' = fileSize f
    /\ isReadOnly d' = true /\ hasCopyProtection d' = true
    /\ m_headerSize d' = 16 /\ getSectorSize d' = 128
    /\ m_sectorReadDelay d' = byte_at f (Z.of_nat off_sectorReadDelay) * 16
    /\ (PSM_plain (PRO_mode f) ->
        m_usePhantoms d' = false /\ m_phantomFlip d' = m_phantomFlip d)
    /\ (PRO_mode f = PSM_GLOBAL_FLIP_FLOP ->
        m_usePhantoms d' = true /\ m_phantomFlip d' = false)
    /\ (PRO_mode f = PSM_GLOBAL_FLOP_FLIP ->
        m_usePhantoms d' = true /\ m_phantomFlip d' = true)
    /\ (~ PSM_plain (PRO_mode f) ->
        PRO_mode f <> PSM_GLOBAL_FLIP_FLOP ->
        PRO_mode f <> PSM_GLOBAL_FLOP_FLIP ->
        m_usePhantoms d' = m_usePhantoms d
        /\ m_phantomFlip d' = m_phantomFlip d).
Proof.
  intros Hf Hl (F1 & F2 & F3 & F4 & F5) Hd Hsig Hhi Hc Hm.
  unfold PRO_count, PRO_mode in *.
  assert (Ha : is_ATR (file_header f) = false).
  { unfold is_ATR, ATR_signature. apply Z.eqb_neq. intros E.
    pose proof (nth_range (file_header f) 0 (file_header_range f)) as R0.
    pose proof (nth_range (file_header f) 1 (file_header_range f)) as R1.
    rewrite (file_header_nth f 0 Hl), (file_header_nth f 1 Hl) in * by lia.
    change (Z.of_nat 0) with 0 in *. change (Z.of_nat 1) with 1 in *.
    unfold ATR_SIGNATURE in E. apply Hsig. lia. }
  assert (Hp : is_PRO (file_header f) (fileSize f) = true).
  { apply is_PRO_below; unfold sectorCountHi, sectorCountLo, magic;
      rewrite ?(file_header_nth f _ Hl F1), ?(file_header_nth f _ Hl F2),
        ?(file_header_nth f _ Hl F3); assumption. }
  rewrite (setFile_unfold _ _ _ _ Hf).
  rewrite (loadFile_PRO
             (set_fileSize (fileSize f) (set_fileRef (Some file) d)) f Ha Hp).
  rewrite (rewound_at_start f Hl).
  unfold phantomSectorMode, sectorReadDelay.
  rewrite (file_header_nth f _ Hl F4), (file_header_nth f _ Hl F5).
  eexists. split; [reflexivity|].
  match goal with |- context [set_phantom_mode ?m ?x] =>
    destruct (set_phantom_mode_frame m x) as (E1 & E2 & E3 & E4 & E5 & E6);
    destruct (set_phantom_mode_cases m x Hd) as (C1 & C2 & C3 & C4)
  end.
  unfold getType, hasImage, isReadOnly, hasCopyProtection, getSectorSize.
  rewrite E1, E2, E3, E4, E5, E6. fields.
  split; [reflexivity|]. split; [reflexivity|]. split; [reflexivity|].
  split; [reflexivity|]. split; [reflexivity|]. split; [reflexivity|].
  split; [reflexivity|].
  split; [rewrite set_phantom_mode_delay; reflexivity|].
  split; [intros Hmd; rewrite (C1 Hmd); split; reflexivity|].
  split; [intros Hmd; rewrite (C2 Hmd); split; reflexivity|].
  split; [intros Hmd; rewrite (C3 Hmd); split; reflexivity|].
  intros N0 N1 N2. rewrite (C4 N0 N1 N2). split; reflexivity.
Qed.

Lemma nth_repeat_not_P x k n :
  x <> 80 -> nth k (repeat x n) 0 <> 80.
Proof.
  intros Hx. revert k. induction n as [|n IH]; intros [|k]; cbn;
    try discriminate; auto.
Qed.

(** X13.  An empty file is refused: every byte of its header is read as
    0xFF, no test accepts it, and the object is left without a file and
    with file size 0.  (The name of the file has four characters or more;
    the look at the extension is undefined otherwise.) *)
Theorem attach_empty_file file d s f :
  s !! file = Some f -> len f = 0 ->
  (4 <= String.length (name f))%nat ->
  setFile file d s
  = Some (false, set_fileSize 0 (set_fileRef None d),
          <[file := at_start f]> s).
Proof.
  intros Hf Hl Hn.
  assert (Hh : file_header f = repeat 255 16).
  { rewrite (file_header_window f ltac:(lia)). apply window_past. lia. }
  assert (Hs : fileSize f = 0) by (unfold fileSize; rewrite Hl; reflexivity).
  assert (Ha : is_ATR (file_header f) = false) by (rewrite Hh; reflexivity).
  assert (Hp : is_PRO (file_header f) (fileSize f) = false).
  { unfold is_PRO, magic. rewrite Hh. apply andb_false_iff. right.
    apply Z.eqb_neq. apply nth_repeat_not_P. discriminate. }
  assert (Hx : is_ATX (file_header f) = false) by (rewrite Hh; reflexivity).
  rewrite (setFile_unfold _ _ _ _ Hf).
  rewrite (loadFile_other
             (set_fileSize (fileSize f) (set_fileRef (Some file) d))
             f Ha Hp Hx).
  replace (Z.of_nat (String.length (name f)) <? 4) with false
    by (symmetry; apply Z.ltb_ge; lia).
  fields. rewrite Hs.
  assert (Hxfd : is_XFD (name f) 0 = false)
    by (unfold is_XFD; apply andb_false_iff; right; reflexivity).
  rewrite Hxfd, (rewound_at_start f ltac:(lia)). reflexivity.
Qed.

End Attach.

(** ** The geometry of an image *)

Section Geometry.
Context {H : disk_image_h}.

(** A read leaves every member it does not assign to. *)
Lemma getSectorData_keeps {A} (g : DiskImage -> A) sector d s d' s' :
  (forall b x, g (set_sectorBuffer b x) = g x) ->
  (forall h x, g (set_proSectorHeader h x) = g x) ->
  (forall b x, g (set_phantomFlip b x) = g x) ->
  getSectorData sector d s = Some (d', s') -> g d' = g d.
Proof.
  intros G1 G2 G3. unfold getSectorData, on_file.
  destruct (m_fileRef d) as [p|]; [|discriminate].
  destruct (s !! p) as [f|]; [|discriminate].
  match goal with |- context [match ?c f with _ => _ end] =>
    assert (Hy : yields c (fun d1 => g d1 = g d)) end.
  { cbv zeta. apply yields_bind with (P := fun d1 => g d1 = g d).
    - destruct (m_type _); yields_steps; rewrite ?G3, ?G1, ?G2, ?G1;
        reflexivity.
    - intros d1 Hd1. yields_steps. rewrite G1. exact Hd1. }
  match goal with |- context [match ?c f with _ => _ end] =>
    destruct (c f) as [[d1 f1]|] eqn:Hc; [|discriminate] end.
  intros [= <- _]. eapply Hy. exact Hc.
Qed.

Lemma image_geometry_invariant d s :
  image d s -> m_fileRef d <> None -> image_geometry_inv d.
Proof.
  induction 1 as [d s Hn Hs | d s file ok d' s' _ IH Hset
                 | d s sector d' s' _ IH Hget
                 | d s sector data len n s' _ IH Hw
                 | d s file density ok s' _ IH Hfmt];
    intros Hr; auto.
  - congruence.
  - destruct (setFile_Some _ _ _ _ Hset) as [f Hf].
    pose proof (to_ulong_range (len f)) as Hsz. fold (fileSize f) in Hsz.
    destruct (setFile_cases _ _ _ _ _ Hf Hset)
      as (f' & [(Ha & E) | [(Ha & Hp & E) | [(Ha & Hp & Hx & t & E)
               | [(Ha & Hp & Hx & Hn & Hxfd & E)
               | (Ha & Hp & Hx & Hn & Hxfd & E)]]]]);
      injection E as -> -> ->.
    + unfold image_geometry_inv, hasCopyProtection. fields.
      repeat split; try congruence; try lia.
    + pose proof (nth_range (file_header f) off_sectorReadDelay
                    (file_header_range f)) as Hd.
      fold (sectorReadDelay (file_header f)) in Hd.
      unfold image_geometry_inv, hasCopyProtection, set_phantom_mode.
      repeat match goal with |- context [if ?b then _ else _] => destruct b end;
        fields; change (1000 / 60) with 16;
        repeat split; try congruence; try lia.
    + unfold image_geometry_inv, hasCopyProtection. fields.
      repeat split; try congruence; try lia.
    + unfold is_XFD in Hxfd. apply andb_true_iff in Hxfd as [_ Hz].
      apply Z.eqb_eq in Hz.
      unfold image_geometry_inv, hasCopyProtection. fields.
      repeat split; try congruence; try lia.
    + exfalso. apply Hr. reflexivity.
  - destruct (getSectorData_frame _ _ _ _ _ Hget)
      as (Hf & Hsz & Ht & Hh & Hz & Ho & _).
    assert (Hdl : m_sectorReadDelay d' = m_sectorReadDelay d)
      by (eapply (getSectorData_keeps m_sectorReadDelay); eauto).
    specialize (IH ltac:(congruence)).
    unfold image_geometry_inv, hasCopyProtection in *.
    rewrite Hsz, Ht, Hh, Hz, Ho, Hdl. exact IH.
Qed.

(** X14.  On every image that holds a file, isReadOnly() and
    hasCopyProtection() agree; the sector size is 128 unless the kind is
    ATR; an XFD image has no header and the size of a single-density disk;
    a PRO image has a header of 16 bytes and a read delay of at most
    16 * 255; every other kind has no read delay. *)
Theorem image_geometry d s :
  image d s -> hasImage d = true ->
  isReadOnly d = hasCopyProtection d
  /\ (getType d <> TYPE_ATR -> getSectorSize d = 128)
  /\ (getType d = TYPE_XFD ->
      m_headerSize d = 0 /\ m_fileSize d = FORMAT_SS_SD_40)
  /\ (getType d = TYPE_PRO ->
      m_headerSize d = 16 /\ 0 <= m_sectorReadDelay d <= 16 * 255)
  /\ (getType d <> TYPE_PRO -> m_sectorReadDelay d = 0).
Proof.
  intros Hi Hh.
  assert (Hr : m_fileRef d <> None)
    by (unfold hasImage in Hh; destruct (m_fileRef d); congruence).
  destruct (image_geometry_invariant d s Hi Hr) as (I1 & I2 & I3 & I4 & I5 & _).
  unfold isReadOnly, getType, getSectorSize. auto.
Qed.

End Geometry.

(** ** Formatting, further *)

Lemma write_zeros_as_buf n : forall f,
  write_zeros n f =
    match write_buf (repeat 0 n) f with
    | Some (_, f') => Some (tt, f')
    | None => None
    end.
Proof.
  induction n as [|n IH]; intros f; [reflexivity|].
  cbn [write_zeros repeat write_buf]. unfold bind, write.
  cbv beta iota zeta. rewrite IH. unfold ret.
  match goal with |- context [write_buf ?b ?g] =>
    destruct (write_buf b g) as [[m f2]|]; reflexivity
  end.
Qed.

Lemma nth_repeat_0 k n : nth k (repeat 0 n) 0 = 0.
Proof. revert k. induction n as [|n IH]; intros [|k]; cbn; auto. Qed.

Section FormatFile.
Context {H : disk_image_h}.

Lemma format_length_ge density : 92160 <= format_length density.
Proof.
  unfold format_length. pose proof FORMAT_SS_ED_40_ge as Hge.
  unfold FORMAT_SS_SD_40 in *. destruct (density =? DENSITY_ED); lia.
Qed.

Lemma format_header_length d density :
  Z.of_nat (List.length (format_header d density))
  = if ImageType_eqb (m_type d) TYPE_ATR then 16 else 0.
Proof. unfold format_header. destruct (ImageType_eqb _ _); reflexivity. Qed.

(** The file [format] leaves on a writable image. *)
Lemma format_file file density d s f :
  m_readOnly d = false -> s !! file = Some f -> 0 <= len f ->
  let hdr := format_header d density in
  let n := Z.of_nat (List.length hdr) in
  let L := format_length density in
  exists f',
    format file density d s = Some (true, <[file := f']> s)
    /\ curPosition f' = n + L
    /\ len f' = Z.max (len f) (n + L)
    /\ name f' = name f
    /\ forall i,
         bytes f' i =
           if (0 <=? i) && (i <? n) then to_byte (nth (Z.to_nat i) hdr 0)
           else if (n <=? i) && (i <? n + L) then 0
           else bytes f i.
Proof.
  intros Hro Hf Hl hdr n L.
  pose proof (format_length_ge density) as HL. fold L in HL.
  set (f0 := mkSdFile (bytes f) (len f) 0 (name f)).
  assert (Hseek : seekSet 0 f = Some (true, f0)) by (apply seekSet_in; lia).
  destruct (write_buf_file hdr f0) as (f1 & Hw1 & Hp1 & Hl1 & Hn1 & Hb1);
    [cbn; lia|].
  cbn [curPosition len name bytes f0] in Hp1, Hl1, Hn1, Hb1.
  fold n in Hw1, Hp1, Hl1, Hb1.
  destruct (write_buf_file (repeat 0 (Z.to_nat L)) f1)
    as (f2 & Hw2 & Hp2 & Hl2 & Hn2 & Hb2); [lia|].
  rewrite repeat_length, Z2Nat.id in Hp2, Hl2, Hb2 by lia.
  rewrite Hp1 in Hp2, Hl2, Hb2.
  assert (Hz : write_zeros (Z.to_nat L) f1 = Some (tt, f2))
    by (rewrite write_zeros_as_buf, Hw2; reflexivity).
  assert (Hhead :
    ((if ImageType_eqb (m_type d) TYPE_ATR
      then write_buf (ATRHeader_bytes ATR_SIGNATURE (L / 16) SECTOR_SIZE_SD) ;;
           ret tt
      else ret tt) f0) = Some (tt, f1)).
  { unfold hdr, format_header in Hw1. fold L in Hw1.
    destruct (ImageType_eqb (m_type d) TYPE_ATR).
    - rewrite (bind_eq _ _ _ _ _ Hw1). reflexivity.
    - cbn in Hw1. unfold ret in *. congruence. }
  exists f2. split.
  { unfold format, on_file. rewrite Hro, Hf. cbn [negb]. cbv zeta.
    fold (format_length density). fold L.
    rewrite (bind_eq _ _ _ _ _ Hseek), (bind_eq _ _ _ _ _ Hhead),
      (bind_eq _ _ _ _ _ Hz). reflexivity. }
  split; [lia|]. split; [lia|]. split; [congruence|].
  intros i. rewrite Hb2, Hb1. cbn [Z.add].
  replace (0 + n) with n by lia.
  destruct ((n <=? i) && (i <? n + L)) eqn:E2.
  - apply andb_true_iff in E2 as [E21 E22]. apply Z.leb_le in E21.
    replace ((0 <=? i) && (i <? n)) with false
      by (symmetry; apply andb_false_iff; right; apply Z.ltb_ge; lia).
    rewrite nth_repeat_0. reflexivity.
  - replace (i - 0) with i by lia. reflexivity.
Qed.

End FormatFile.

Section FormatClaims.
Context {H : disk_image_h}.

(** X15.  On a read-only image, and so on every PRO and every ATX image,
    format reports failure and leaves every file as it was, the file it is
    given included. *)
Theorem format_read_only file density d s :
  image d s -> hasImage d = true ->
  isReadOnly d = true \/ hasCopyProtection d = true ->
  format file density d s = Some (false, s).
Proof.
  intros Hi Hh Hro. apply image_invariant in Hi as [_ Hi].
  unfold hasImage in Hh. destruct (m_fileRef d) as [p|] eqn:Hp; [|discriminate].
  destruct (Hi p eq_refl) as (_ & _ & Hc).
  assert (Hr : m_readOnly d = true) by (destruct Hro; auto).
  unfold format. rewrite Hr. reflexivity.
Qed.

(** X16.  On a writable image, format succeeds and never shortens the file:
    it writes the header of 16 bytes, on an ATR image only, and then the
    zero bytes of the density from the start of the file, and a file that
    was longer keeps its length, its name and every byte beyond them. *)
Theorem format_keeps_tail file density d s f :
  isReadOnly d = false -> s !! file = Some f -> 0 <= len f ->
  let n := if ImageType_eqb (getType d) TYPE_ATR then 16 else 0 in
  exists f',
    format file density d s = Some (true, <[file := f']> s)
    /\ len f' = Z.max (len f) (n + format_length density)
    /\ name f' = name f
    /\ (forall i, n <= i < n + format_length density -> bytes f' i = 0)
    /\ (forall i, n + format_length density <= i -> bytes f' i = bytes f i).
Proof.
  intros Hro Hf Hl n. unfold isReadOnly, getType in *.
  pose proof (format_length_ge density) as HL.
  destruct (format_file file density d s f Hro Hf Hl)
    as (f' & Hfmt & _ & Hlen & Hn & Hb).
  rewrite format_header_length in Hlen, Hb. fold n in Hlen, Hb.
  assert (Hn0 : 0 <= n) by (unfold n; destruct (ImageType_eqb _ _); lia).
  exists f'. split; [exact Hfmt|]. split; [exact Hlen|]. split; [exact Hn|].
  split; intros i Hi; rewrite Hb.
  - replace ((0 <=? i) && (i <? n)) with false
      by (symmetry; apply andb_false_iff; right; apply Z.ltb_ge; lia).
    replace ((n <=? i) && (i <? n + format_length density)) with true;
      [reflexivity|].
    symmetry. apply andb_true_iff. split; [apply Z.leb_le | apply Z.ltb_lt]; lia.
  - replace ((0 <=? i) && (i <? n)) with false
      by (symmetry; apply andb_false_iff; right; apply Z.ltb_ge; lia).
    replace ((n <=? i) && (i <? n + format_length density)) with false;
      [reflexivity|].
    symmetry. apply andb_false_iff. right. apply Z.ltb_ge. lia.
Qed.



End FormatClaims.

Section FormatThenAttach.
Context {H : disk_image_h}.

(** The header that a formatted file shows to the next attach. *)
Lemma formatted_header d s p f density f' :
  m_readOnly d = false -> s !! p = Some f -> 0 <= len f ->
  format p density d s = Some (true, <[p := f']> s) ->
  0 <= len f'
  /\ len f' = Z.max (len f)
               (Z.of_nat (List.length (format_header d density))
                + format_length density)
  /\ name f' = name f
  /\ forall k, (k < 16)%nat ->
       nth k (file_header f') 0 =
         if ImageType_eqb (m_type d) TYPE_ATR
         then to_byte (nth k (format_header d density) 0)
         else 0.
Proof.
  intros Hro Hf Hl Hfmt.
  pose proof (format_length_ge density) as HL.
  destruct (format_file p density d s f Hro Hf Hl)
    as (g & Hg & _ & Hlen & Hn & Hb).
  rewrite Hg in Hfmt. injection Hfmt as Hins.
  assert (Eg : g = f').
  { apply (f_equal (fun m => m !! p)) in Hins.
    rewrite !lookup_insert_eq in Hins. congruence. }
  subst g.
  pose proof (format_header_length d density) as Hhl.
  split; [lia|]. split; [exact Hlen|]. split; [exact Hn|].
  intros k Hk. rewrite file_header_nth by lia. unfold byte_at.
  replace (Z.of_nat k <? len f') with true
    by (symmetry; apply Z.ltb_lt; destruct (ImageType_eqb _ _); lia).
  rewrite Hb, Hhl.
  destruct (ImageType_eqb (m_type d) TYPE_ATR).
  - replace ((0 <=? Z.of_nat k) && (Z.of_nat k <? 16)) with true
      by (symmetry; apply andb_true_iff; split;
          [apply Z.leb_le | apply Z.ltb_lt]; lia).
    rewrite Nat2Z.id. unfold to_byte. rewrite Z.mod_mod by lia. reflexivity.
  - replace ((0 <=? Z.of_nat k) && (Z.of_nat k <? 0)) with false
      by (symmetry; apply andb_false_iff; right; apply Z.ltb_ge; lia).
    replace ((0 <=? Z.of_nat k) && (Z.of_nat k <? 0 + format_length density))
      with true; [reflexivity|].
    symmetry. apply andb_true_iff. split; [apply Z.leb_le | apply Z.ltb_lt]; lia.
Qed.

(** X18.  Round trip of format and attach on an ATR image: the file that
    format leaves is attached again as an ATR image, by any object, with a
    header of 16 bytes and sectors of 128 bytes, whatever the sector size
    of the image was; the file size the object records is that of the
    formatted file or of the file as it was, whichever is longer. *)
Theorem format_then_attach d s p density d0 :
  image d s -> m_fileRef d = Some p -> getType d = TYPE_ATR ->
  exists f s1 d' s2,
    s !! p = Some f
    /\ format p density d s = Some (true, s1)
    /\ setFile p d0 s1 = Some (true, d', s2)
    /\ getType d' = TYPE_ATR
    /\ m_headerSize d' = 16 /\ getSectorSize d' = 128
    /\ isReadOnly d' = false
    /\ m_fileSize d' = to_ulong (Z.max (len f) (16 + format_length density)).
Proof.
  intros Hi Hp Ht. unfold getType in *.
  apply image_invariant in Hi as [Hs Hi].
  destruct (Hi p Hp) as ([f Hf] & Ha & _).
  destruct (Ha Ht) as (_ & Hro & _).
  pose proof (Hs p f Hf) as Hwf. unfold wf_file in Hwf.
  destruct (format_file p density d s f Hro Hf ltac:(lia))
    as (f' & Hfmt & _).
  destruct (formatted_header d s p f density f' Hro Hf ltac:(lia) Hfmt)
    as (Hl0 & Hlen & _ & Hhdr).
  rewrite format_header_length, Ht in Hlen. cbn [ImageType_eqb] in Hlen.
  unfold format_header in Hhdr. rewrite Ht in Hhdr. cbn [ImageType_eqb] in Hhdr.
  assert (Hatr : is_ATR (file_header f') = true).
  { unfold is_ATR, ATR_signature.
    rewrite (Hhdr 0%nat ltac:(lia)), (Hhdr 1%nat ltac:(lia)). reflexivity. }
  assert (Hsec : ATR_secSize (file_header f') = 128).
  { unfold ATR_secSize.
    rewrite (Hhdr 4%nat ltac:(lia)), (Hhdr 5%nat ltac:(lia)). reflexivity. }
  exists f, (<[p := f']> s). do 2 eexists.
  split; [exact Hf|]. split; [exact Hfmt|].
  rewrite (setFile_unfold p d0 (<[p := f']> s) f' (lookup_insert_eq _ _ _)).
  rewrite (loadFile_ATR _ f' Hatr).
  split; [reflexivity|]. unfold getType, getSectorSize, isReadOnly. fields.
  rewrite Hsec. unfold fileSize. rewrite Hlen. repeat split.
Qed.

(** X19.  Format and attach on an XFD image: the file that format leaves
    starts with zero bytes, so no signature is found in it, and the next
    attach accepts it exactly when the XFD test holds for its name and
    its new length.  A format at enhanced density, the lengths of the two
    densities differing, therefore leaves a file that the attach
    refuses. *)
Theorem format_XFD_then_attach d s p density d0 :
  image d s -> m_fileRef d = Some p -> getType d = TYPE_XFD ->
  exists f s1 d' s2,
    s !! p = Some f
    /\ format p density d s = Some (true, s1)
    /\ ((4 <= String.length (name f))%nat ->
        setFile p d0 s1
        = Some (is_XFD (name f)
                  (to_ulong (Z.max (len f) (format_length density))), d', s2))
    /\ (density = DENSITY_ED -> len f <= FORMAT_SS_ED_40 ->
        FORMAT_SS_SD_40 < FORMAT_SS_ED_40 < 4294967296 ->
        is_XFD (name f) (to_ulong (Z.max (len f) (format_length density)))
        = false).
Proof.
  intros Hi Hp Ht. unfold getType in *.
  pose proof (image_geometry_invariant d s Hi ltac:(congruence))
    as (I1 & _).
  apply image_invariant in Hi as [Hs Hi].
  destruct (Hi p Hp) as ([f Hf] & _).
  assert (Hro : m_readOnly d = false)
    by (rewrite I1; unfold hasCopyProtection; rewrite Ht; reflexivity).
  pose proof (Hs p f Hf) as Hwf. unfold wf_file in Hwf.
  destruct (format_file p density d s f Hro Hf ltac:(lia))
    as (f' & Hfmt & _).
  destruct (formatted_header d s p f density f' Hro Hf ltac:(lia) Hfmt)
    as (Hl0 & Hlen & Hname & Hhdr).
  rewrite format_header_length, Ht in Hlen. cbn [ImageType_eqb] in Hlen.
  rewrite Ht in Hhdr. cbn [ImageType_eqb] in Hhdr.
  replace (0 + format_length density) with (format_length density) in Hlen
    by lia.
  assert (Hatr : is_ATR (file_header f') = false).
  { unfold is_ATR, ATR_signature.
    rewrite (Hhdr 0%nat ltac:(lia)), (Hhdr 1%nat ltac:(lia)). reflexivity. }
  assert (Hatx : is_ATX (file_header f') = false).
  { unfold is_ATX. rewrite (Hhdr 0%nat ltac:(lia)). reflexivity. }
  assert (Hpro : forall z, is_PRO (file_header f') z = false).
  { intros z. unfold is_PRO, magic. apply andb_false_iff. right.
    apply Z.eqb_neq.
    destruct (Nat.lt_ge_cases off_magic 16) as [Hlt | Hge].
    - rewrite (Hhdr off_magic Hlt). discriminate.
    - rewrite nth_overflow; [discriminate|].
      rewrite (file_header_window f' Hl0), window_length. exact Hge. }
  set (ok := is_XFD (name f) (to_ulong (Z.max (len f) (format_length density)))).
  exists f, (<[p := f']> s),
    (if ok
     then set_sectorReadDelay 0
            (set_sectorSize SECTOR_SIZE_SD
               (set_headerSize 0
                  (set_readOnly false
                     (set_type TYPE_XFD
                        (set_fileSize (fileSize f')
                           (set_fileRef (Some p) d0))))))
     else set_fileRef None
            (set_fileSize (fileSize f') (set_fileRef (Some p) d0))),
    (<[p := rewound f']> (<[p := f']> s)).
  split; [exact Hf|]. split; [exact Hfmt|]. split.
  - intros Hn.
    rewrite (setFile_unfold p d0 (<[p := f']> s) f' (lookup_insert_eq _ _ _)).
    rewrite (loadFile_other _ f' Hatr (Hpro _) Hatx).
    rewrite Hname.
    replace (Z.of_nat (String.length (name f)) <? 4) with false
      by (symmetry; apply Z.ltb_ge; lia).
    fields. unfold fileSize. rewrite Hlen. fold ok.
    destruct ok; reflexivity.
  - intros Hd Hle Hne. unfold is_XFD. apply andb_false_iff. right.
    apply Z.eqb_neq. unfold format_length. rewrite Hd, Z.eqb_refl.
    rewrite Z.max_r by lia. rewrite to_ulong_small by (unfold FORMAT_SS_SD_40 in *; lia).
    lia.
Qed.

End FormatThenAttach.
(** ** The further properties at the sample images *)

Lemma atr_file_wf : wf_file atr_file.
Proof. vm_compute. split; discriminate. Qed.


Lemma ape_PSM_distinct : PSM_distinct (H := ape).
Proof.
  unfold PSM_distinct. apply (bool_decide_unpack _). vm_compute. exact I.
Qed.

Lemma ape_header_fits : PROFileHeader_fits (H := ape).
Proof. unfold PROFileHeader_fits. cbn. lia. Qed.

Lemma xfd_image_attached :
  attach xfd_file fresh = Some (true, xfd_image, xfd_store).
Proof. vm_compute. reflexivity. Qed.

Lemma xfd_image_is_image : image (H := ape) xfd_image xfd_store.
Proof.
  eapply attach_image; [| |exact xfd_image_attached];
    [vm_compute; split; discriminate | reflexivity].
Qed.


(** X2: three bytes written to sector 1 of [atr_file] land at offset 16. *)
Lemma write_lands_witness :
  exists f',
    writeSectorData 1 [1; 2; 3] 3 atr_image {[ 0%nat := atr_file ]}
    = Some (3, <[ 0%nat := f' ]> {[ 0%nat := atr_file ]})
    /\ len f' = len atr_file
    /\ map (bytes f') [15; 16; 17; 18; 19] = [0; 1; 2; 3; 0].
Proof.
  destruct (write_lands 1 [1; 2; 3] 3 atr_image {[ 0%nat := atr_file ]}
              0 atr_file)
    as (f' & Hw & Hl & Hb).
  - vm_compute. reflexivity.
  - vm_compute. reflexivity.
  - apply lookup_only.
  - exact atr_file_wf.
  - simpl. lia.
  - exists f'. split; [exact Hw|]. split.
    + rewrite Hl. vm_compute. reflexivity.
    + cbn [map]. rewrite !Hb. vm_compute. reflexivity.
Defined.


(** X4: the write to sector 2 of [atr_file] and the reads of sector 1. *)
Lemma write_keeps_other_sectors_witness :
  exists d0 s0 s1 d2 s2,
    getSectorData (H := ape) 1 atr_image {[ 0%nat := atr_file ]} = Some (d0, s0)
    /\ writeSectorData 2 (repeat 7 128) 128 atr_image {[ 0%nat := atr_file ]}
       = Some (128, s1)
    /\ getSectorData (H := ape) 1 atr_image s1 = Some (d2, s2)
    /\ data (m_sectorBuffer d2) = data (m_sectorBuffer d0).
Proof.
  assert (Hz : getSectorSize atr_image = 128) by (vm_compute; reflexivity).
  assert (Hh : m_headerSize atr_image = 16) by (vm_compute; reflexivity).
  assert (Hl : len atr_file = 92176) by (vm_compute; reflexivity).
  destruct (write_keeps_other_sectors (H := ape) 2 1 (repeat 7 128) atr_image
              {[ 0%nat := atr_file ]} 0 atr_file)
    as (d0 & s0 & s1 & d2 & s2 & Hg0 & Hw & Hg & Hd).
  - vm_compute. reflexivity.
  - vm_compute. reflexivity.
  - apply lookup_only.
  - exact atr_file_wf.
  - left. vm_compute. reflexivity.
  - vm_compute. reflexivity.
  - rewrite Hh. lia.
  - rewrite Hl. lia.
  - lia.
  - lia.
  - lia.
  - rewrite Hh, Hz, Hl. lia.
  - rewrite Hh, Hz, Hl. lia.
  - rewrite Hz in Hw. exists d0, s0, s1, d2, s2. auto.
Defined.

(** X5 at sector 1 of [pro_file], whose header is all zeroes, so the three
    flags are clear: the read reports an error and returns the payload of
    the sector itself. *)
Lemma pro_read_witness :
  exists d' s',
    getSectorData (H := ape) 1 pro_image {[ 0%nat := pro_file ]} = Some (d', s')
    /\ validStatusFrame (m_sectorBuffer d') = true
    /\ error (m_sectorBuffer d') = true
    /\ data (m_sectorBuffer d') = window pro_file 28 128.
Proof.
  pose proof (pro_read (H := ape) 1 pro_image {[ 0%nat := pro_file ]}
                0 pro_file) as Hr.
  cbv zeta in Hr.
  destruct Hr as (d' & s' & Hg & _ & Hv & He & Hd).
  - vm_compute. reflexivity.
  - apply lookup_only.
  - vm_compute. split; discriminate.
  - vm_compute. reflexivity.
  - vm_compute. discriminate.
  - vm_compute. discriminate.
  - vm_compute. discriminate.
  - exists d', s'. split; [exact Hg|]. split; [exact Hv|]. split.
    + rewrite He. vm_compute. reflexivity.
    + rewrite Hd. vm_compute. reflexivity.
Defined.

(** X6 at sector 1 of [pro_phantom_file]: the first read returns the
    payload at offset 28, the second the payload of slot 721. *)
Lemma pro_phantom_alternation_witness :
  exists d1 s1 d2 s2,
    getSectorData (H := ape) 1 pro_phantom_image {[ 0%nat := pro_phantom_file ]}
    = Some (d1, s1)
    /\ getSectorData (H := ape) 1 d1 s1 = Some (d2, s2)
    /\ data (m_sectorBuffer d1) = window pro_phantom_file 28 128
    /\ data (m_sectorBuffer d2)
       = window pro_phantom_file (16 + 720 * 140 + 12) 128
    /\ m_phantomFlip d2 = false.
Proof.
  pose proof (pro_phantom_alternation (H := ape) 1 pro_phantom_image
                {[ 0%nat := pro_phantom_file ]} 0 pro_phantom_file) as Hr.
  cbv zeta in Hr.
  destruct Hr as (d1 & s1 & d2 & s2 & Hg1 & Hg2 & _ & Hd1 & _ & Hd2 & Hfl).
  - vm_compute. reflexivity.
  - apply lookup_only.
  - vm_compute. split; discriminate.
  - vm_compute. reflexivity.
  - vm_compute. reflexivity.
  - vm_compute. reflexivity.
  - vm_compute. discriminate.
  - vm_compute. discriminate.
  - vm_compute. reflexivity.
  - vm_compute. reflexivity.
  - vm_compute. reflexivity.
  - vm_compute. reflexivity.
  - vm_compute. discriminate.
  - exists d1, s1, d2, s2. split; [exact Hg1|]. split; [exact Hg2|].
    split; [rewrite Hd1; vm_compute; reflexivity|].
    split; [rewrite Hd2; vm_compute; reflexivity|]. exact Hfl.
Defined.

(** X7 at sector 1 of [atx_image], which slot 0 of the index holds, with
    status 0 and the file offset 544. *)
Lemma atx_read_witness :
  exists d' s',
    getSectorData (H := ape) 1 atx_image {[ 0%nat := atx_file ]} = Some (d', s')
    /\ data (m_sectorBuffer d') = window atx_file 544 128
    /\ error (m_sectorBuffer d') = false
    /\ hardwareStatus (statusFrame (m_sectorBuffer d')) = 0xFF.
Proof.
  assert (Hfl : m_phantomFlip atx_image = false) by (vm_compute; reflexivity).
  destruct (atx_read (H := ape) 1 atx_image {[ 0%nat := atx_file ]}
              0 atx_file 0)
    as (d' & s' & Hg & Hd & He & _ & Hh & _).
  - vm_compute. reflexivity.
  - apply lookup_only.
  - vm_compute. split; discriminate.
  - vm_compute. reflexivity.
  - lia.
  - vm_compute. reflexivity.
  - rewrite Hfl. intros k Hk. lia.
  - vm_compute. split; discriminate.
  - exists d', s'. split; [exact Hg|].
    split; [rewrite Hd; vm_compute; reflexivity|].
    split; [rewrite He; vm_compute; reflexivity|].
    rewrite Hh. vm_compute. reflexivity.
Defined.

(** X8 at sector 1 of [atx_dup_image], which slots 0 and 1 of the index
    hold: the first read serves offset 544 with hardware status 0xFF, the
    second offset 232 with hardware status 0xF7. *)
Lemma atx_duplicate_alternation_witness :
  exists d1 s1 d2 s2,
    getSectorData (H := ape) 1 atx_dup_image {[ 0%nat := atx_dup_file ]}
    = Some (d1, s1)
    /\ getSectorData (H := ape) 1 d1 s1 = Some (d2, s2)
    /\ data (m_sectorBuffer d1) = window atx_dup_file 544 128
    /\ hardwareStatus (statusFrame (m_sectorBuffer d1)) = 0xFF
    /\ data (m_sectorBuffer d2) = window atx_dup_file 232 128
    /\ hardwareStatus (statusFrame (m_sectorBuffer d2)) = 0xF7
    /\ m_phantomFlip d2 = false.
Proof.
  destruct (atx_duplicate_alternation (H := ape) 1 atx_dup_image
              {[ 0%nat := atx_dup_file ]} 0 atx_dup_file 0 1)
    as (d1 & s1 & d2 & s2 & Hg1 & Hg2 & Hd1 & Hh1 & Hd2 & Hh2 & Hfl).
  - vm_compute. reflexivity.
  - apply lookup_only.
  - vm_compute. split; discriminate.
  - vm_compute. reflexivity.
  - vm_compute. reflexivity.
  - lia.
  - lia.
  - vm_compute. reflexivity.
  - vm_compute. reflexivity.
  - intros k Hk. lia.
  - intros k Hk.
    pose proof (all_slots
                  (fun i => (i <=? 1)
                            || negb (sectorNumber (m_sectorHeaders atx_dup_image i)
                                     =? to_ulong (1 - 1)))
                  ltac:(vm_compute; reflexivity) k ltac:(lia)) as Hs.
    cbv beta in Hs. apply orb_true_iff in Hs as [Hs | Hs].
    + apply Z.leb_le in Hs. lia.
    + apply negb_true_iff, Z.eqb_neq in Hs. exact Hs.
  - vm_compute. split; discriminate.
  - vm_compute. split; discriminate.
  - exists d1, s1, d2, s2. split; [exact Hg1|]. split; [exact Hg2|].
    split; [rewrite Hd1; vm_compute; reflexivity|].
    split; [rewrite Hh1; vm_compute; reflexivity|].
    split; [rewrite Hd2; vm_compute; reflexivity|].
    split; [rewrite Hh2; vm_compute; reflexivity|]. exact Hfl.
Defined.

(** X9 at the attach of [atr_file]. *)
Lemma attach_keeps_files_witness :
  exists f f',
    ({[ 0%nat := atr_file ]} : gmap nat SdFile) !! 0%nat = Some f
    /\ atr_store = <[ 0%nat := f' ]> {[ 0%nat := atr_file ]}
    /\ same_data f f'.
Proof.
  exact (attach_keeps_files (H := ape) 0 fresh {[ 0%nat := atr_file ]}
           true atr_image atr_store atr_image_attached).
Defined.

(** X10 at the read of sector 1 of [atr_image]. *)
Lemma read_keeps_files_witness :
  exists d' p f f',
    getSectorData (H := ape) 1 atr_image atr_store
    = Some (d', <[ p := f' ]> atr_store)
    /\ atr_store !! p = Some f /\ same_data f f'.
Proof.
  destruct (getSectorData (H := ape) 1 atr_image atr_store)
    as [[d' s']|] eqn:Hg; [|vm_compute in Hg; discriminate Hg].
  destruct (read_keeps_files (H := ape) 1 atr_image atr_store d' s' Hg)
    as (p & f & f' & _ & Hf & Hs & Hsame).
  exists d', p, f, f'. rewrite Hs. auto.
Defined.

(** X11 at [atr_file]. *)
Lemma attach_ATR_witness :
  exists d',
    attach atr_file fresh
    = Some (true, d', <[ 0%nat := at_start atr_file ]> {[ 0%nat := atr_file ]})
    /\ getType d' = TYPE_ATR
    /\ m_headerSize d' = 16
    /\ getSectorSize d' = 128.
Proof.
  destruct (attach_ATR (H := ape) 0 fresh {[ 0%nat := atr_file ]} atr_file)
    as (d' & Ha & Ht & _ & _ & Hh & Hz & _).
  - apply lookup_only.
  - vm_compute. discriminate.
  - vm_compute. reflexivity.
  - vm_compute. reflexivity.
  - exists d'. split; [exact Ha|]. split; [exact Ht|]. split; [exact Hh|].
    rewrite Hz. vm_compute. reflexivity.
Defined.

(** X12 at [pro_file], which declares 720 sectors and whose mode is the
    global flip-flop. *)
Lemma attach_PRO_witness :
  exists d',
    attach pro_file fresh
    = Some (true, d', <[ 0%nat := at_start pro_file ]> {[ 0%nat := pro_file ]})
    /\ getType d' = TYPE_PRO
    /\ isReadOnly d' = true
    /\ m_usePhantoms d' = true /\ m_phantomFlip d' = false.
Proof.
  destruct (attach_PRO (H := ape) 0 fresh {[ 0%nat := pro_file ]} pro_file)
    as (d' & Ha & Ht & _ & _ & Hro & _ & _ & _ & _ & _ & Hff & _).
  - apply lookup_only.
  - vm_compute. discriminate.
  - exact ape_header_fits.
  - exact ape_PSM_distinct.
  - intros [E _]. vm_compute in E. discriminate E.
  - vm_compute. reflexivity.
  - vm_compute. reflexivity.
  - vm_compute. reflexivity.
  - exists d'. split; [exact Ha|]. split; [exact Ht|]. split; [exact Hro|].
    apply Hff. vm_compute. reflexivity.
Defined.

(** X13 at [empty_file]. *)
Lemma attach_empty_file_witness :
  attach empty_file fresh
  = Some (false, set_fileSize 0 (set_fileRef None fresh),
          <[ 0%nat := at_start empty_file ]> {[ 0%nat := empty_file ]}).
Proof.
  apply (attach_empty_file (H := ape) 0 fresh {[ 0%nat := empty_file ]}
           empty_file (lookup_only empty_file)).
  - reflexivity.
  - simpl. lia.
Defined.

(** X14 at [pro_image]. *)
Lemma image_geometry_witness :
  isReadOnly pro_image = hasCopyProtection pro_image
  /\ getSectorSize pro_image = 128
  /\ m_headerSize pro_image = 16.
Proof.
  destruct (image_geometry (H := ape) pro_image pro_store pro_image_is_image)
    as (Hro & Hz & _ & Hpro & _).
  - vm_compute. reflexivity.
  - split; [exact Hro|]. split.
    + apply Hz. vm_compute. discriminate.
    + apply Hpro. vm_compute. reflexivity.
Defined.

(** X15 at [pro_image]. *)
Lemma format_read_only_witness :
  format (H := ape) 0 0 pro_image pro_store = Some (false, pro_store).
Proof.
  apply (format_read_only (H := ape) 0 0 pro_image pro_store
           pro_image_is_image).
  - vm_compute. reflexivity.
  - left. vm_compute. reflexivity.
Defined.

(** X16 at [unknown_file] attached by hand as the file of [xfd_image]: the
    file is longer than a single-density disk and keeps its length. *)
Lemma format_keeps_tail_witness :
  exists f',
    format (H := ape) 0 0 xfd_image {[ 0%nat := unknown_file ]}
    = Some (true, <[ 0%nat := f' ]> {[ 0%nat := unknown_file ]})
    /\ len f' = len unknown_file
    /\ name f' = name unknown_file.
Proof.
  pose proof (format_keeps_tail (H := ape) 0 0 xfd_image
                {[ 0%nat := unknown_file ]} unknown_file) as Hr.
  cbv zeta in Hr.
  destruct Hr as (f' & Hf & Hl & Hn & _).
  - vm_compute. reflexivity.
  - apply lookup_only.
  - vm_compute. discriminate.
  - exists f'. split; [exact Hf|]. split; [|exact Hn].
    rewrite Hl. vm_compute. reflexivity.
Defined.


(** X18 at [atr_image], the formatted file attached by a fresh object. *)
Lemma format_then_attach_witness :
  exists s1 d' s2,
    format (H := ape) 0 0 atr_image atr_store = Some (true, s1)
    /\ setFile (H := ape) 0 fresh s1 = Some (true, d', s2)
    /\ getType d' = TYPE_ATR
    /\ getSectorSize d' = 128.
Proof.
  destruct (format_then_attach (H := ape) atr_image atr_store 0 0 fresh
              atr_image_is_image)
    as (f & s1 & d' & s2 & _ & Hf & Ha & Ht & _ & Hz & _).
  - vm_compute. reflexivity.
  - vm_compute. reflexivity.
  - exists s1, d', s2. auto.
Defined.

(** X19 at [xfd_image], formatted at enhanced density: the next attach
    refuses the file. *)
Lemma format_XFD_then_attach_witness :
  exists s1 d' s2,
    format (H := ape) 0 2 xfd_image xfd_store = Some (true, s1)
    /\ setFile (H := ape) 0 fresh s1 = Some (false, d', s2).
Proof.
  assert (Hs : xfd_store !! 0%nat = Some (at_start xfd_file))
    by (vm_compute; reflexivity).
  destruct (format_XFD_then_attach (H := ape) xfd_image xfd_store 0 2 fresh
              xfd_image_is_image)
    as (f & s1 & d' & s2 & Hf & Hfmt & Ha & Hx).
  - vm_compute. reflexivity.
  - vm_compute. reflexivity.
  - rewrite Hs in Hf. injection Hf as <-.
    exists s1, d', s2. split; [exact Hfmt|].
    rewrite Ha by (simpl; lia). rewrite Hx; [reflexivity | reflexivity | |].
    + vm_compute. discriminate.
    + vm_compute. split; reflexivity.
Defined.
